(** * Grading-Automation: the isolated test harness of [grade_pa3.py] / [grade_pa4.py]

    A shallow embedding of the two grading drivers and of the runner script
    they materialise ([RUNNER_CODE]), followed by the properties of the
    harness that the design document states about them.

    Conventions.
    - Python [str] values are modelled as [string]; a text is read as UTF-8,
      so that one character is one lead byte followed by its continuation
      bytes; an unpaired surrogate is written in the same three-byte form.
    - Python [int] is [Z]; the objects that [json.loads] can build (and the
      tuples a test may return) are the type [value].
    - A raised exception is a value of type [exc]; a function that may raise
      returns a sum or a [res].
    - What belongs to the interpreter or the operating system and is not
      computed by the scripts (path resolution, the rendering of floats and
      of quoted strings, the frames of a traceback, what a child process
      does) is a field of a record the functions receive. *)

From Stdlib Require Import ZArith QArith_base Ascii String List Lia DecimalString Decimal DecimalZ.
From stdpp Require Import base option list strings gmap sorting.

Local Open Scope Z_scope.
Set Warnings "-register-all,-clear-no-such-hyp".

(** ** Text *)

Module Text.

Definition dquote : ascii := ascii_of_nat 34.
Definition backslash : ascii := ascii_of_nat 92.
Definition newline : string := String (ascii_of_nat 10) EmptyString.

(** A byte [10xxxxxx] continues the character begun before it. *)
Definition is_continuation (c : ascii) : bool :=
  let n := N_of_ascii c in ((128 <=? n) && (n <? 192))%N.

Definition continues (s : string) : bool :=
  match s with String d _ => is_continuation d | EmptyString => false end.

(** The characters of a text, each as a one-character [str]: a byte with
    the continuation bytes that follow it. *)
Fixpoint chars (s : string) : list string :=
  match s with
  | EmptyString => []
  | String c r =>
      match chars r with
      | ch :: rest =>
          if continues r then String c ch :: rest else String c EmptyString :: ch :: rest
      | [] => [String c EmptyString]
      end
  end.

(** [''.join(l)] *)
Definition unchars (l : list string) : string := foldr String.append EmptyString l.

(** The UTF-8 bytes of a code point, last byte first. *)
Definition utf8_rev (cp : N) (acc : string) : string :=
  let b (n : N) := ascii_of_N n in
  (if cp <? 128 then String (b cp) acc
   else if cp <? 2048 then
     String (b (128 + cp mod 64)) (String (b (192 + cp / 64)) acc)
   else if cp <? 65536 then
     String (b (128 + cp mod 64))
       (String (b (128 + (cp / 64) mod 64)) (String (b (224 + cp / 4096)) acc))
   else
     String (b (128 + cp mod 64))
       (String (b (128 + (cp / 64) mod 64))
          (String (b (128 + (cp / 4096) mod 64)) (String (b (240 + cp / 262144)) acc))))%N.

Definition utf8 (cp : N) : string := String.rev (utf8_rev cp EmptyString).

(** The code points [c] with [chr(c).isspace()]: TAB..CR, FS..US, space,
    U+0085, U+00A0, U+1680, U+2000..U+200A, U+2028, U+2029, U+202F, U+205F
    and U+3000. *)
Definition whitespace : list N :=
  [9; 10; 11; 12; 13; 28; 29; 30; 31; 32; 133; 160; 5760;
   8192; 8193; 8194; 8195; 8196; 8197; 8198; 8199; 8200; 8201; 8202;
   8232; 8233; 8239; 8287; 12288]%N.

(** [ch.isspace()] for a one-character text *)
Definition is_space (ch : string) : bool :=
  existsb (fun cp => String.eqb ch (utf8 cp)) whitespace.

Fixpoint drop_spaces (l : list string) : list string :=
  match l with
  | ch :: r => if is_space ch then drop_spaces r else l
  | [] => []
  end.

(** The characters left when the whitespace at both ends is dropped. *)
Definition trim (l : list string) : list string :=
  reverse (drop_spaces (reverse (drop_spaces l))).

(** [s.strip()] *)
Definition strip (s : string) : string := unchars (trim (chars s)).

(** The text is empty or whitespace only: [not s.strip()]. *)
Definition blank (s : string) : Prop := Forall (fun ch => is_space ch = true) (chars s).

(** [needle in hay] on two [str] *)
Fixpoint contains (needle hay : string) : bool :=
  String.prefix needle hay ||
  match hay with
  | String _ r => contains needle r
  | EmptyString => false
  end.

Fixpoint ends_with (suffix s : string) : bool :=
  String.eqb suffix s ||
  match s with
  | String _ r => ends_with suffix r
  | EmptyString => false
  end.

(** [s[:n]]: the first [n] characters. *)
Fixpoint py_prefix (n : nat) (s : string) : string :=
  match s with
  | EmptyString => EmptyString
  | String c r =>
      if is_continuation c then String c (py_prefix n r)
      else match n with
           | O => EmptyString
           | S n' => String c (py_prefix n' r)
           end
  end.


(** The text holds no surrogate code point (as bytes: no 237 followed by a
    byte from 160 on), so that [s.encode("utf-8")] succeeds.  [json.loads]
    builds a text with one from an unpaired escape. *)
Fixpoint no_surrogate (s : string) : bool :=
  match s with
  | EmptyString => true
  | String c r =>
      (if (N_of_ascii c =? 237)%N
       then match r with
            | String d _ => (N_of_ascii d <? 160)%N
            | EmptyString => true
            end
       else true)
      && no_surrogate r
  end.

(** [str(n)] for an [int] *)
Definition str_of_int (z : Z) : string := NilZero.string_of_int (Z.to_int z).

Definition is_digit (c : ascii) : bool :=
  let n := N_of_ascii c in ((48 <=? n) && (n <=? 57))%N.

(** The digit groups of an integer literal: a single ["_"] may stand between
    two digits.  [prev] tells whether the previous character was a digit. *)
Fixpoint ungroup (prev : bool) (s : string) : option string :=
  match s with
  | EmptyString => if prev then Some EmptyString else None
  | String c r =>
      if is_digit c then String c <$> ungroup true r
      else if Ascii.eqb c "_" then (if prev then ungroup false r else None)
      else None
  end.

(** The code points of the digit zero of every decimal system of Unicode
    ([chr(c).isdecimal()] and digit value 0); the nine code points after
    each are its digits one to nine. *)
Definition digit_zeros : list N :=
  [48; 1632; 1776; 1984; 2406; 2534; 2662; 2790; 2918; 3046; 3174; 3302; 3430;
   3558; 3664; 3792; 3872; 4160; 4240; 6112; 6160; 6470; 6608; 6784; 6800; 6992;
   7088; 7232; 7248; 42528; 43216; 43264; 43472; 43504; 43600; 44016; 65296;
   66720; 68912; 69734; 69872; 69942; 70096; 70384; 70736; 70864; 71248; 71360;
   71472; 71904; 72016; 72784; 73040; 73120; 92768; 92864; 93008; 120782;
   120792; 120802; 120812; 120822; 123200; 123632; 125264; 130032]%N.

(** The decimal digits as characters, each with the ASCII digit of its
    value. *)
Definition decimals : list (string * ascii) :=
  zero ← digit_zeros;
  (fun d => (utf8 (zero + d), ascii_of_N (48 + d))) <$> [0; 1; 2; 3; 4; 5; 6; 7; 8; 9]%N.

(** What [int] makes of a character before it reads the literal: a
    character below U+007F stays, any other whitespace becomes a space, any
    other decimal digit the ASCII digit of its value, and the rest is no
    part of a literal. *)
Definition to_ascii (ch : string) : ascii :=
  match ch with
  | String c EmptyString => if (N_of_ascii c <? 127)%N then c else "?"
  | _ =>
      if is_space ch then " "
      else match List.find (fun p => String.eqb ch p.1) decimals with
           | Some p => p.2
           | None => "?"
           end
  end.

(** The whitespace the reader of the literal skips at both ends: TAB..CR
    and the space (not FS..US, which [str.strip] removes). *)
Definition is_c_space (c : ascii) : bool :=
  let n := N_of_ascii c in ((9 <=? n) && (n <=? 13) || (n =? 32))%N.

Fixpoint skip_c_spaces (l : list ascii) : list ascii :=
  match l with
  | c :: r => if is_c_space c then skip_c_spaces r else l
  | [] => []
  end.

(** The literal [int(s)] reads in base ten: whether it is negative, and its
    digits without the grouping underscores; [None] when the text is no
    literal. *)
Definition int_literal (s : string) : option (bool * string) :=
  let t := to_ascii <$> chars s in
  match reverse (skip_c_spaces (reverse (skip_c_spaces t))) with
  | c :: r =>
      if Ascii.eqb c "+" then pair false <$> ungroup false (string_of_list_ascii r)
      else if Ascii.eqb c "-" then pair true <$> ungroup false (string_of_list_ascii r)
      else pair false <$> ungroup false (string_of_list_ascii (c :: r))
  | [] => None
  end.

(** The default of [sys.get_int_max_str_digits()]. *)
Definition int_max_str_digits : nat := 4300.

(** [int(s)] in base ten; [None] is [ValueError]: the text is no literal,
    or the literal has more digits than the interpreter converts. *)
Definition py_int (s : string) : option Z :=
  match int_literal s with
  | Some (neg, d) =>
      if (int_max_str_digits <? String.length d)%nat then None
      else (fun u => if neg : bool then - Z.of_uint u else Z.of_uint u)
             <$> NilZero.uint_of_string d
  | None => None
  end.

End Text.


(** ** Python objects *)

Module Py.
Import Text.

(** A float literal as [json.loads] reads it: it is kept as read, the only
    thing the drivers ask of a float being whether it is zero. *)
Inductive float_lit :=
| FNaN
| FInf (neg : bool)
| FDec (neg : bool) (int_digits frac_digits : string) (exponent : Z).

(** The objects of the drivers: what [json.loads] builds, and the tuples a
    test entry point returns.  A [dict] keeps its items in insertion order;
    its keys are [str]. *)
Inductive value :=
| VNone
| VBool (b : bool)
| VInt (z : Z)
| VFloat (f : float_lit)
| VStr (s : string)
| VList (l : list value)
| VTuple (l : list value)
| VDict (items : list (string * value)).

(** A raised exception: its class, [str(e)], and the frames of its traceback
    as [traceback] prints them. *)
Record exc := Exc { exc_class : string; exc_msg : string; exc_frames : string }.

Definition digits_to_Z (s : string) : Z :=
  default 0 (Z.of_uint <$> NilZero.uint_of_string s).

(** Whether the double nearest to a decimal literal is not zero: the literal
    is [m * 10^e] and rounds to zero exactly when it is at most [2^-1075]. *)
Definition float_nonzero (f : float_lit) : bool :=
  match f with
  | FNaN | FInf _ => true
  | FDec _ i fr e =>
      let m := digits_to_Z (i +:+ fr) in
      let e10 := e - Z.of_nat (String.length fr) in
      negb (m =? 0) && ((0 <=? e10) || (10 ^ (- e10) <? m * 2 ^ 1075))
  end.

(** [bool(v)] *)
Definition truthy (v : value) : bool :=
  match v with
  | VNone => false
  | VBool b => b
  | VInt z => negb (z =? 0)
  | VFloat f => float_nonzero f
  | VStr s => negb (String.eqb s "")
  | VList l | VTuple l => match l with [] => false | _ => true end
  | VDict items => match items with [] => false | _ => true end
  end.

(** [type(v).__name__] *)
Definition type_name (v : value) : string :=
  match v with
  | VNone => "NoneType"
  | VBool _ => "bool"
  | VInt _ => "int"
  | VFloat _ => "float"
  | VStr _ => "str"
  | VList _ => "list"
  | VTuple _ => "tuple"
  | VDict _ => "dict"
  end.

(** [d.get(k, dflt)] on the items of a dict *)
Fixpoint dict_get (k : string) (items : list (string * value)) (dflt : value) : value :=
  match items with
  | [] => dflt
  | (k', v) :: r => if String.eqb k k' then v else dict_get k r dflt
  end.

(** [d[k] = v]: a key already present keeps its place. *)
Fixpoint dict_set (k : string) (v : value) (items : list (string * value))
  : list (string * value) :=
  match items with
  | [] => [(k, v)]
  | (k', v') :: r =>
      if String.eqb k k' then (k, v) :: r else (k', v') :: dict_set k v r
  end.

(** The renderings the interpreter owns. *)
Record rendering := {
  repr_float : float_lit -> string;   (* repr of a float *)
  repr_str : string -> string;        (* repr of a str: quoted and escaped *)
}.

Definition join (sep : string) (l : list string) : string := String.concat sep l.

(** [repr(v)] *)
Fixpoint py_repr (rd : rendering) (v : value) : string :=
  match v with
  | VNone => "None"
  | VBool b => if b then "True" else "False"
  | VInt z => str_of_int z
  | VFloat f => repr_float rd f
  | VStr s => repr_str rd s
  | VList l => "[" +:+ join ", " (map (py_repr rd) l) +:+ "]"
  | VTuple l =>
      match l with
      | [x] => "(" +:+ py_repr rd x +:+ ",)"
      | _ => "(" +:+ join ", " (map (py_repr rd) l) +:+ ")"
      end
  | VDict items =>
      "{" +:+ join ", " (map (fun kv => repr_str rd (fst kv) +:+ ": " +:+ py_repr rd (snd kv)) items)
          +:+ "}"
  end.

(** [str(v)] *)
Definition py_str (rd : rendering) (v : value) : string :=
  match v with
  | VStr s => s
  | _ => py_repr rd v
  end.

(** [traceback.format_exc()] while [e] is being handled. *)
Definition format_exc (e : exc) : string :=
  "Traceback (most recent call last):" +:+ newline +:+ exc_frames e
  +:+ exc_class e
  +:+ (if String.eqb (exc_msg e) "" then "" else ": " +:+ exc_msg e)
  +:+ newline.

End Py.

(** ** [json.loads] *)

Module Json.
Import Text Py.

(** What the decoder can take, which is the interpreter's to say: how many
    containers it can enter, one inside the other, before the recursion
    limit is reached, and [sys.get_int_max_str_digits()], 0 for none. *)
Record limits := { max_depth : nat; max_digits : nat }.

(** Why the decoder gives up on a text: a container nested deeper than
    [max_depth] ([RecursionError]; the container is an array or an object),
    or an integer literal of more than [max_digits] digits ([ValueError]). *)
Inductive giving_up :=
| TooDeep (container : string)
| TooLong (digits : nat).

(** The result of a scanner: a value and the text after it, a
    [JSONDecodeError], an exception of another kind, or fuel used up. *)
Inductive scan (A : Type) :=
| Ok (a : A) (rest : string)
| Bad
| GaveUp (why : giving_up)
| Fuel.
Arguments Ok {A} a rest.
Arguments Bad {A}.
Arguments GaveUp {A} why.
Arguments Fuel {A}.

Definition is_json_ws (c : ascii) : bool :=
  let n := N_of_ascii c in ((n =? 32) || (n =? 9) || (n =? 10) || (n =? 13))%N.

Fixpoint skip_ws (s : string) : string :=
  match s with
  | String c r => if is_json_ws c then skip_ws r else s
  | EmptyString => EmptyString
  end.

Fixpoint strip_prefix (p s : string) : option string :=
  match p, s with
  | EmptyString, _ => Some s
  | String a p', String b s' => if Ascii.eqb a b then strip_prefix p' s' else None
  | String _ _, EmptyString => None
  end.

Definition hex_digit (c : ascii) : option N :=
  let n := N_of_ascii c in
  (if (48 <=? n) && (n <=? 57) then Some (n - 48)
   else if (65 <=? n) && (n <=? 70) then Some (n - 55)
   else if (97 <=? n) && (n <=? 102) then Some (n - 87)
   else None)%N.

Definition is_high (cp : N) : bool := ((55296 <=? cp) && (cp <? 56320))%N.
Definition is_low (cp : N) : bool := ((56320 <=? cp) && (cp <? 57344))%N.

(** A pending high surrogate that found no partner stands alone. *)
Definition flush (hi : option N) (acc : string) : string :=
  match hi with
  | Some h => utf8_rev h acc
  | None => acc
  end.

Inductive smode :=
| SPlain
| SEscape
| SHex (todo : nat) (code : N).

(** The body of a string literal, after its opening quote (strict mode: a
    raw control character is an error).  [acc] is what was read, reversed. *)
Fixpoint scan_string (m : smode) (hi : option N) (acc : string) (s : string)
  : scan string :=
  match s with
  | EmptyString => Bad
  | String c r =>
      match m with
      | SPlain =>
          if Ascii.eqb c dquote then Ok (String.rev (flush hi acc)) r
          else if Ascii.eqb c backslash then scan_string SEscape hi acc r
          else if (N_of_ascii c <? 32)%N then Bad
          else scan_string SPlain None (String c (flush hi acc)) r
      | SEscape =>
          let plain (x : ascii) := scan_string SPlain None (String x (flush hi acc)) r in
          if Ascii.eqb c "u" then scan_string (SHex 4 0) hi acc r
          else if Ascii.eqb c dquote then plain dquote
          else if Ascii.eqb c backslash then plain backslash
          else if Ascii.eqb c "/" then plain "/"%char
          else if Ascii.eqb c "b" then plain "008"%char
          else if Ascii.eqb c "f" then plain "012"%char
          else if Ascii.eqb c "n" then plain "010"%char
          else if Ascii.eqb c "r" then plain "013"%char
          else if Ascii.eqb c "t" then plain "009"%char
          else Bad
      | SHex todo code =>
          match hex_digit c with
          | None => Bad
          | Some d =>
              let code := (16 * code + d)%N in
              match todo with
              | S (S _ as todo') => scan_string (SHex todo' code) hi acc r
              | _ =>
                  match hi with
                  | Some h =>
                      if is_low code
                      then scan_string SPlain None
                             (utf8_rev (65536 + (h - 55296) * 1024 + (code - 56320)) acc) r
                      else if is_high code
                      then scan_string SPlain (Some code) (utf8_rev h acc) r
                      else scan_string SPlain None (utf8_rev code (utf8_rev h acc)) r
                  | None =>
                      if is_high code then scan_string SPlain (Some code) acc r
                      else scan_string SPlain None (utf8_rev code acc) r
                  end
              end
          end
      end
  end.

Fixpoint span_digits (s : string) : string * string :=
  match s with
  | String c r =>
      if is_digit c then let '(d, rest) := span_digits r in (String c d, rest)
      else (EmptyString, s)
  | EmptyString => (EmptyString, EmptyString)
  end.

(** A dot and at least one digit, if present. *)
Definition scan_frac (s : string) : option string * string :=
  match s with
  | String c r =>
      if Ascii.eqb c "." then
        match span_digits r with
        | (EmptyString, _) => (None, s)
        | (d, rest) => (Some d, rest)
        end
      else (None, s)
  | EmptyString => (None, s)
  end.

(** e or E, an optional sign and at least one digit, if present. *)
Definition scan_exp (s : string) : option Z * string :=
  match s with
  | String c r =>
      if Ascii.eqb c "e" || Ascii.eqb c "E" then
        let '(sign, r') :=
          match r with
          | String c' t =>
              if Ascii.eqb c' "-" then (-1, t)
              else if Ascii.eqb c' "+" then (1, t)
              else (1, r)
          | EmptyString => (1, r)
          end in
        match span_digits r' with
        | (EmptyString, _) => (None, s)
        | (d, rest) => (Some (sign * digits_to_Z d), rest)
        end
      else (None, s)
  | EmptyString => (None, s)
  end.

(** 0 or a digit string that does not start with 0, then the optional
    fraction and exponent.  An integer is converted with [int], which refuses
    more than [max_digits] digits. *)
Definition scan_unsigned (lim : limits) (neg : bool) (s : string) : scan value :=
  match s with
  | String c r =>
      if is_digit c then
        let '(i, rest) :=
          if Ascii.eqb c "0" then (String c EmptyString, r) else span_digits s in
        let '(fr, rest) := scan_frac rest in
        let '(ex, rest) := scan_exp rest in
        match fr, ex with
        | None, None =>
            if (0 <? max_digits lim)%nat && (max_digits lim <? String.length i)%nat
            then GaveUp (TooLong (String.length i))
            else Ok (VInt (if neg then - digits_to_Z i else digits_to_Z i)) rest
        | _, _ => Ok (VFloat (FDec neg i (default EmptyString fr) (default 0 ex))) rest
        end
      else Bad
  | EmptyString => Bad
  end.

(** An optional minus, then the number. *)
Definition scan_number (lim : limits) (s : string) : scan value :=
  match s with
  | String c r => if Ascii.eqb c "-" then scan_unsigned lim true r else scan_unsigned lim false s
  | EmptyString => Bad
  end.

Definition scan_constant (s : string) : scan value :=
  match strip_prefix "NaN" s with
  | Some r => Ok (VFloat FNaN) r
  | None =>
      match strip_prefix "Infinity" s with
      | Some r => Ok (VFloat (FInf false)) r
      | None =>
          match strip_prefix "-Infinity" s with
          | Some r => Ok (VFloat (FInf true)) r
          | None => Bad
          end
      end
  end.

Definition scan_word (w : string) (v : value) (s : string) : scan value :=
  match strip_prefix w s with
  | Some r => Ok v r
  | None => Bad
  end.

(** [scan_once] and the two loops of [JSONArray] and [JSONObject].
    [scan_items] stands before an element, [scan_pairs] before a key's
    opening quote.  [depth] is the number of containers that can still be
    entered: the scanner asks for one level at every opening bracket or
    brace, before it looks at what follows. *)
Fixpoint scan_once (lim : limits) (fuel depth : nat) (s : string) : scan value :=
  match fuel with
  | O => Fuel
  | S fuel =>
      match s with
      | EmptyString => Bad
      | String c r =>
          if Ascii.eqb c dquote then
            match scan_string SPlain None EmptyString r with
            | Ok str rest => Ok (VStr str) rest
            | Bad => Bad
            | GaveUp w => GaveUp w
            | Fuel => Fuel
            end
          else if Ascii.eqb c "{" then
            match depth with
            | O => GaveUp (TooDeep "object")
            | S depth =>
                match skip_ws r with
                | String c' rest =>
                    if Ascii.eqb c' "}" then Ok (VDict []) rest
                    else if Ascii.eqb c' dquote then
                      match scan_pairs lim fuel depth [] rest with
                      | Ok items rest' => Ok (VDict items) rest'
                      | Bad => Bad
                      | GaveUp w => GaveUp w
                      | Fuel => Fuel
                      end
                    else Bad
                | EmptyString => Bad
                end
            end
          else if Ascii.eqb c "[" then
            match depth with
            | O => GaveUp (TooDeep "array")
            | S depth =>
                match skip_ws r with
                | String c' rest =>
                    if Ascii.eqb c' "]" then Ok (VList []) rest
                    else
                      match scan_items lim fuel depth [] (String c' rest) with
                      | Ok l rest' => Ok (VList l) rest'
                      | Bad => Bad
                      | GaveUp w => GaveUp w
                      | Fuel => Fuel
                      end
                | EmptyString => Bad
                end
            end
          else if Ascii.eqb c "n" then scan_word "null" VNone s
          else if Ascii.eqb c "t" then scan_word "true" (VBool true) s
          else if Ascii.eqb c "f" then scan_word "false" (VBool false) s
          else
            match scan_number lim s with
            | Bad => scan_constant s
            | r => r
            end
      end
  end
with scan_items (lim : limits) (fuel depth : nat) (acc : list value) (s : string)
  : scan (list value) :=
  match fuel with
  | O => Fuel
  | S fuel =>
      match scan_once lim fuel depth s with
      | Ok v rest =>
          match skip_ws rest with
          | String c rest' =>
              if Ascii.eqb c "]" then Ok (acc ++ [v]) rest'
              else if Ascii.eqb c ","
              then scan_items lim fuel depth (acc ++ [v]) (skip_ws rest')
              else Bad
          | EmptyString => Bad
          end
      | Bad => Bad
      | GaveUp w => GaveUp w
      | Fuel => Fuel
      end
  end
with scan_pairs (lim : limits) (fuel depth : nat) (acc : list (string * value)) (s : string)
  : scan (list (string * value)) :=
  match fuel with
  | O => Fuel
  | S fuel =>
      match scan_string SPlain None EmptyString s with
      | Ok k rest =>
          match skip_ws rest with
          | String c rest' =>
              if Ascii.eqb c ":" then
                match scan_once lim fuel depth (skip_ws rest') with
                | Ok v rest'' =>
                    match skip_ws rest'' with
                    | String c' r =>
                        if Ascii.eqb c' "}" then Ok (dict_set k v acc) r
                        else if Ascii.eqb c' "," then
                          match skip_ws r with
                          | String c'' r' =>
                              if Ascii.eqb c'' dquote
                              then scan_pairs lim fuel depth (dict_set k v acc) r'
                              else Bad
                          | EmptyString => Bad
                          end
                        else Bad
                    | EmptyString => Bad
                    end
                | Bad => Bad
                | GaveUp w => GaveUp w
                | Fuel => Fuel
                end
              else Bad
          | EmptyString => Bad
          end
      | Bad => Bad
      | GaveUp w => GaveUp w
      | Fuel => Fuel
      end
  end.

(** Enough for any text: every second call at the latest consumes a
    character. *)
Definition fuel_for (s : string) : nat := 2 * String.length s + 2.

(** What [json.loads(s)] does: it returns a value, raises
    [json.JSONDecodeError], or raises an exception of another kind. *)
Inductive decoded :=
| Decoded (v : value)
| NotJson
| Refused (why : giving_up).

Definition json_loads (lim : limits) (s : string) : decoded :=
  match scan_once lim (fuel_for s) (max_depth lim) (skip_ws s) with
  | Ok v rest => if String.eqb (skip_ws rest) "" then Decoded v else NotJson
  | GaveUp why => Refused why
  | Bad | Fuel => NotJson
  end.

End Json.

(** ** The runner ([RUNNER_CODE]) *)

(** The two drivers differ in the name of the graded module. *)
Inductive assignment := PA3 | PA4.

Definition module_name (a : assignment) : string :=
  match a with PA3 => "pa3" | PA4 => "pa4" end.

Definition target_file (a : assignment) : string := module_name a +:+ ".py".

Module Runner.
Import Text Py.

(** How [main] ends: it returns, an exception leaves it, or it never ends. *)
Inductive outcome :=
| Returned
| Uncaught (e : exc)
| Stuck.

(** How a piece of loaded code ends.  It returns, raises an [Exception],
    raises a [BaseException] that is no [Exception] ([SystemExit],
    [KeyboardInterrupt]), or does not end; in these four cases it leaves the
    interpreter to the runner as it found it.  Or it ends having changed the
    interpreter under the runner (it closed or replaced [sys.stdout], rebound
    [print] or [json.dumps], ...): from there on the script no longer decides
    what the process does, and the world says what still reaches standard
    output and how [main] ends. *)
Inductive ending (A : Type) :=
| Returns (a : A)
| Raises (e : exc)
| Escapes (e : exc)
| Hangs
| Subverts (text : string) (o : outcome).
Arguments Returns {A} a.
Arguments Raises {A} e.
Arguments Escapes {A} e.
Arguments Hangs {A}.
Arguments Subverts {A} text o.

(** Running loaded code: what it writes to standard output, and how it ends. *)
Record run (A : Type) := Run { output : string; result : ending A }.
Arguments Run {A} output result.
Arguments output {A} r.
Arguments result {A} r.

(** A loaded test module: what calling its [TestCase] does, or [None] when
    it has no attribute [TestCase]. *)
Record test_module := { entry : option (run value) }.

(** The places of the runner's own code where an exception is raised. *)
Inductive site := AtSeed | AtLoadStudent | AtLoadTest | AtEntryLookup | AtUnpack.

(** The process a runner runs in.  Standard output is as the interpreter
    set it up and takes what is written to it: a [print] of the runner
    fails only after loaded code has changed the interpreter, which is the
    [Subverts] ending. *)
Record world := {
  argv : list string;                 (* sys.argv *)
  path_exists : string -> bool;       (* os.path.exists *)
  exec_student : run unit;            (* executing the student's module *)
  exec_test : run test_module;        (* executing the test module *)
  rendering_of : rendering;
  frames : site -> string;            (* traceback frames of the runner's raises *)
}.

(** What the runner process does, in order. *)
Inductive event :=
| Print (v : value)                    (* print(json.dumps(v)) *)
| Wrote (text : string)                (* loaded code writing to stdout *)
| PathInsert (dir : string)            (* sys.path.insert(0, dir) *)
| Exec (name path : string)            (* spec.loader.exec_module(mod) *)
| Seed (z : Z)                         (* random.seed(z) *)
| Call.                                (* test_mod.TestCase() *)

Definition failure (message error : string) : value :=
  VDict [("ok", VBool false); ("message", VStr message); ("error", VStr error)].

Definition wrote (text : string) : list event :=
  if String.eqb text "" then [] else [Wrote text].

(** [format_exc()] for [outer] raised while [inner] was being handled. *)
Definition format_chained (inner outer : exc) : string :=
  format_exc inner +:+ newline
  +:+ "During handling of the above exception, another exception occurred:"
  +:+ newline +:+ newline +:+ format_exc outer.

(** [load_module_from_path]: an [Exception] of the module is re-raised as an
    [ImportError]; the result carries the text [format_exc()] gives for it in
    the caller's handler. *)
Definition load_module_from_path {A} (w : world) (at_ : site)
    (name path : string) (r : run A) : list event * ending A * string :=
  let evs := Exec name path :: wrote (output r) in
  match result r with
  | Raises e =>
      let e' := Exc "ImportError"
                  ("Error loading " +:+ name +:+ " from " +:+ path +:+ ": "
                   +:+ exc_msg e +:+ newline +:+ format_exc e)
                  (frames w at_) in
      (evs, Raises e', format_chained e e')
  | other => (evs, other, EmptyString)
  end.

(** [Path(p).stem] *)
Fixpoint basename_from (cur : string) (s : string) : string :=
  match s with
  | EmptyString => String.rev cur
  | String c r => if Ascii.eqb c "/" then basename_from EmptyString r
                  else basename_from (String c cur) r
  end.

Fixpoint drop_suffix_rev (s : string) : option string :=
  match s with
  | EmptyString => None
  | String c r => if Ascii.eqb c "." then Some r else drop_suffix_rev r
  end.

Definition stem (p : string) : string :=
  let name := basename_from EmptyString p in
  match String.rev name with
  | String c _ as rn =>
      if Ascii.eqb c "." then name
      else match drop_suffix_rev rn with
           | Some (String _ _ as r) => String.rev r
           | _ => name
           end
  | EmptyString => name
  end.

(** [result, msg = v] *)
Definition unpack2 (w : world) (v : value) : exc + value * value :=
  let count (n : nat) :=
    Exc "ValueError"
      (if (n <? 2)%nat
       then "not enough values to unpack (expected 2, got "
            +:+ str_of_int (Z.of_nat n) +:+ ")"
       else "too many values to unpack (expected 2)")
      (frames w AtUnpack) in
  let of_list (l : list value) :=
    match l with
    | [a; b] => inr (a, b)
    | _ => inl (count (length l))
    end in
  match v with
  | VTuple l | VList l => of_list l
  | VStr s => of_list (VStr <$> chars s)
  | VDict items => of_list ((fun kv => VStr (fst kv)) <$> items)
  | _ => inl (Exc "TypeError"
                ("cannot unpack non-iterable " +:+ type_name v +:+ " object")
                (frames w AtUnpack))
  end.

Definition arg (w : world) (i : nat) : string := default EmptyString (argv w !! i).

(** The [try] block around the test: look the entry point up, call it,
    unpack and coerce its result, print. *)
Definition run_test (w : world) (t : test_module)
  : list event * outcome :=
  let caught (e : exc) :=
    Print (failure "Exception during TestCase() execution" (format_exc e)) in
  match entry t with
  | None =>
      ([caught (Exc "AttributeError" "TestCase() function not found in test file"
                  (frames w AtEntryLookup))], Returned)
  | Some r =>
      let evs := Call :: wrote (output r) in
      match result r with
      | Returns v =>
          match unpack2 w v with
          | inr (res, msg) =>
              (evs ++ [Print (VDict [("ok", VBool (truthy res));
                                     ("message", VStr (py_str (rendering_of w) msg))])],
               Returned)
          | inl e => (evs ++ [caught e], Returned)
          end
      | Raises e => (evs ++ [caught e], Returned)
      | Escapes e => (evs, Uncaught e)
      | Hangs => (evs, Stuck)
      | Subverts text o => (evs ++ wrote text, o)
      end
  end.

(** [main()] of the runner. *)
Definition main (a : assignment) (w : world) : list event * outcome :=
  if (length (argv w) <? 6)%nat then
    ([Print (failure "bad_args" "Expected 5 arguments")], Returned)
  else
    let student_path := arg w 1 in
    let tests_dir := arg w 2 in
    let support_dir := arg w 3 in
    let test_file_path := arg w 4 in
    match py_int (arg w 5) with
    | None =>
        ([], Uncaught (Exc "ValueError"
                         (match int_literal (arg w 5) with
                          | Some (_, d) =>
                              "Exceeds the limit (4300 digits) for integer string "
                              +:+ "conversion: value has "
                              +:+ str_of_int (Z.of_nat (String.length d))
                              +:+ " digits; use sys.set_int_max_str_digits() to "
                              +:+ "increase the limit"
                          | None =>
                              "invalid literal for int() with base 10: "
                              +:+ repr_str (rendering_of w) (arg w 5)
                          end)
                         (frames w AtSeed)))
    | Some seed =>
        if negb (path_exists w student_path) then
          ([Print (failure ("Student " +:+ target_file a +:+ " not found")
                     ("Path does not exist: " +:+ student_path))], Returned)
        else if negb (path_exists w test_file_path) then
          ([Print (failure "Test file not found"
                     ("Path does not exist: " +:+ test_file_path))], Returned)
        else
          let dir_events (d : string) :=
            if negb (String.eqb d "") && path_exists w d then [PathInsert d] else [] in
          let evs0 := dir_events tests_dir ++ dir_events support_dir in
          match load_module_from_path w AtLoadStudent (module_name a) student_path
                  (exec_student w) with
          | (evs1, Returns _, _) =>
              match load_module_from_path w AtLoadTest (stem test_file_path)
                      test_file_path (exec_test w) with
              | (evs2, Returns t, _) =>
                  let '(evs3, o) := run_test w t in
                  (evs0 ++ evs1 ++ evs2 ++ Seed seed :: evs3, o)
              | (evs2, Raises _, text) =>
                  (evs0 ++ evs1 ++ evs2 ++ [Print (failure "Failed to load test file" text)],
                   Returned)
              | (evs2, Escapes e, _) => (evs0 ++ evs1 ++ evs2, Uncaught e)
              | (evs2, Hangs, _) => (evs0 ++ evs1 ++ evs2, Stuck)
              | (evs2, Subverts text o, _) => (evs0 ++ evs1 ++ evs2 ++ wrote text, o)
              end
          | (evs1, Raises _, text) =>
              (evs0 ++ evs1
               ++ [Print (failure ("Failed to load student's " +:+ target_file a) text)],
               Returned)
          | (evs1, Escapes e, _) => (evs0 ++ evs1, Uncaught e)
          | (evs1, Hangs, _) => (evs0 ++ evs1, Stuck)
          | (evs1, Subverts text o, _) => (evs0 ++ evs1 ++ wrote text, o)
          end
    end.

(** What the runner itself printed, and everything that reached standard
    output. *)
Definition printed (evs : list event) : list value :=
  omap (fun e => match e with Print v => Some v | _ => None end) evs.

Definition is_stdout (e : event) : bool :=
  match e with Print _ | Wrote _ => true | _ => false end.

Definition stdout_events (evs : list event) : list event := List.filter is_stdout evs.

End Runner.

(** ** The submission locator *)

Module Locator.
Import Text.

(** A directory tree; the entries of a directory are in the order
    [os.scandir] lists them. *)
Inductive node :=
| File
| Dir (entries : list (string * node)).

Definition is_dir (n : node) : bool :=
  match n with Dir _ => true | File => false end.

(** [parent / name], for a parent written without a trailing separator. *)
Definition path_join (parent name : string) : string := parent +:+ "/" +:+ name.

Definition dir_names (es : list (string * node)) : list string :=
  fst <$> List.filter (fun e => is_dir (snd e)) es.

Definition file_names (es : list (string * node)) : list string :=
  fst <$> List.filter (fun e => negb (is_dir (snd e))) es.

(** [os.walk(top)], top down: the triple of a directory, then the walks of
    its subdirectories in listing order. *)
Fixpoint walk (top : string) (n : node) : list (string * list string * list string) :=
  match n with
  | File => []
  | Dir es =>
      (top, dir_names es, file_names es)
      :: (fix below (l : list (string * node)) :=
            match l with
            | [] => []
            | (name, child) :: rest => walk (path_join top name) child ++ below rest
            end) es
  end.

Definition denylist : list string := [".venv"; "venv"; "__pycache__"].

(** [any(tag in root for tag in (".venv", "venv", "__pycache__"))] *)
Definition skipped (root : string) : bool :=
  existsb (fun tag => contains tag root) denylist.

Definition mem (x : string) (l : list string) : bool := existsb (String.eqb x) l.

(** The path of the student's module, or [None]: the file (or anything of
    that name) directly in the student's directory, else the first
    directory of the walk that is not skipped and lists the file. *)
Definition locate (a : assignment) (student_dir : string) (es : list (string * node))
  : option string :=
  if mem (target_file a) (fst <$> es) then Some (path_join student_dir (target_file a))
  else
    match List.find (fun t => negb (skipped t.1.1) && mem (target_file a) t.2)
            (walk student_dir (Dir es)) with
    | Some t => Some (path_join t.1.1 (target_file a))
    | None => None
    end.

End Locator.

(** ** The grading driver *)

Module Grader.
Import Text Py Json Locator.

(** The command-line arguments the driver uses. *)
Record args := {
  submissions_dir : string;
  tests_dir : string;
  support_dir : string;
  timeout : float_lit;
  python_bin : string;
}.

(** What [subprocess.run(cmd, capture_output=True, text=True, timeout=...)]
    does: the child ends within the time allowed, the time runs out (the child
    is killed and [TimeoutExpired] raised), or the call raises something else
    (the interpreter cannot be started, the output is not text). *)
Inductive child_result :=
| Completed (stdout stderr : string) (returncode : Z)
| TimedOut
| SpawnError (e : exc).

(** The statements of the driver that can raise. *)
Inductive site :=
  OnLoads | OnGet | OnAppend | OnWrite | OnSlice | OnSplit | OnSummary | OnExit.

(** The machine the driver runs on.  The names of the directory entries
    are texts that the results file can hold (no surrogate: a name that is
    not UTF-8 is outside the model). *)
Record host := {
  submissions : option (list (string * node));  (* the submissions directory, if it exists *)
  tests : option (list (string * node));        (* the tests directory, if it exists *)
  support_exists : bool;
  resolve : string -> string;                   (* str(Path(p).resolve()) *)
  tmpd : string;                                (* the temporary directory *)
  child : nat -> list string -> child_result;   (* the n-th launch, of this command *)
  decoder : limits;                             (* what json.loads can take *)
  codec_message : list value -> string;         (* str(e) of the UnicodeEncodeError for a row *)
  rendering_of : rendering;
  frames : site -> string;
}.

(** One student's entry of [summary]. *)
Record counts := Counts { total : Z; passed : Z; failed : Z; missing : Z }.

(** What the driver has done so far: the rows written to the results file,
    the [summary] dict, and the commands launched. *)
Record state := State {
  rows : list (list value);
  summary : gmap string counts;
  launches : list (list string);
}.

(** A statement sequence either completes or raises; what was done before the
    raise stays done. *)
Inductive res :=
| Done (st : state)
| Raised (e : exc) (st : state).

Definition bind (r : res) (k : state -> res) : res :=
  match r with
  | Done st => k st
  | Raised e st => Raised e st
  end.

Definition writerow (row : list value) (st : state) : state :=
  State (rows st ++ [row]) (summary st) (launches st).

(** [summary[student][field] += 1] and its kin: [KeyError] when the student
    has no entry. *)
Definition update (h : host) (student : string) (f : counts -> counts) (st : state) : res :=
  match summary st !! student with
  | Some c => Done (State (rows st) (<[student := f c]> (summary st)) (launches st))
  | None => Raised (Exc "KeyError" (repr_str (rendering_of h) student) (frames h OnSummary)) st
  end.

Definition add_total (c : counts) : counts := Counts (total c + 1) (passed c) (failed c) (missing c).
Definition add_passed (c : counts) : counts := Counts (total c) (passed c + 1) (failed c) (missing c).
Definition add_failed (c : counts) : counts := Counts (total c) (passed c) (failed c + 1) (missing c).
Definition set_missing (c : counts) : counts := Counts (total c) (passed c) (failed c) 1.

(** [summary.setdefault(student, {...: 0})] *)
Definition setdefault (student : string) (st : state) : state :=
  match summary st !! student with
  | Some _ => st
  | None => State (rows st) (<[student := Counts 0 0 0 0]> (summary st)) (launches st)
  end.

(** [v += s] for a [str] [s] *)
Definition iadd_str (h : host) (v : value) (s : string) : exc + value :=
  match v with
  | VStr m => inr (VStr (m +:+ s))
  | VList l => inr (VList (l ++ (VStr <$> chars s)))
  | VTuple _ =>
      inl (Exc "TypeError"
             ("can only concatenate tuple (not " +:+ String dquote "str" +:+ String dquote ") to tuple")
             (frames h OnAppend))
  | _ =>
      inl (Exc "TypeError"
             ("unsupported operand type(s) for +=: '" +:+ type_name v +:+ "' and 'str'")
             (frames h OnAppend))
  end.

(** Whether [v[:n]] raises. *)
Definition slice_check (h : host) (v : value) : option exc :=
  match v with
  | VStr _ | VList _ | VTuple _ => None
  | VDict _ => Some (Exc "TypeError" "unhashable type: 'slice'" (frames h OnSlice))
  | _ => Some (Exc "TypeError" ("'" +:+ type_name v +:+ "' object is not subscriptable")
                 (frames h OnSlice))
  end.

(** [ConsoleLogger.log_traceback]: the exception it raises, if any.  The
    lines it logs are not part of the model. *)
Definition log_traceback (h : host) (message error : value) : option exc :=
  match slice_check h message with
  | Some e => Some e
  | None =>
      if truthy error then
        match error with
        | VStr _ => None
        | _ => Some (Exc "AttributeError"
                       ("'" +:+ type_name error +:+ "' object has no attribute 'split'")
                       (frames h OnSplit))
        end
      else None
  end.

Definition rsa_tests : list string :=
  ["test_3_1.py"; "test_3_2.py"; "test_4_1.py"; "test_4_2.py"].

(** The logging of a failed test. *)
Definition log_failure (a : assignment) (h : host) (test_name : string)
    (message error : value) (err : string) : option exc :=
  let detailed :=
    match a with
    | PA3 => mem test_name rsa_tests
    | PA4 => truthy error || negb (String.eqb err "")
    end in
  if detailed then log_traceback h message error else slice_check h message.

Definition base_seed : Z := 1337.

(** [seed = 1337 + idx] *)
Definition seed_of (idx : nat) : Z := base_seed + Z.of_nat idx.

Definition runner_path (h : host) : string := path_join (tmpd h) "runner.py".

(** The command of one launch. *)
Definition command (ar : args) (h : host) (module_path test_name : string) (idx : nat)
  : list string :=
  [ python_bin ar;
    runner_path h;
    resolve h module_path;
    resolve h (tests_dir ar);
    if support_exists h then resolve h (support_dir ar) else EmptyString;
    resolve h (path_join (tests_dir ar) test_name);
    str_of_int (seed_of idx) ].

(** The exception [json.loads] raises when it gives up. *)
Definition refusal (h : host) (why : giving_up) : exc :=
  match why with
  | TooDeep container =>
      Exc "RecursionError"
        ("maximum recursion depth exceeded while decoding a JSON " +:+ container
         +:+ " from a unicode string")
        (frames h OnLoads)
  | TooLong n =>
      Exc "ValueError"
        ("Exceeds the limit (" +:+ str_of_int (Z.of_nat (max_digits (decoder h)))
         +:+ " digits) for integer string conversion: value has "
         +:+ str_of_int (Z.of_nat n)
         +:+ " digits; use sys.set_int_max_str_digits() to increase the limit")
        (frames h OnLoads)
  end.

(** The [data] the driver reads from the child's standard output: [{}] for
    no output, the value decoded, the stand-in of the handler of
    [json.JSONDecodeError]; another exception of [json.loads] is not
    handled. *)
Definition read_data (h : host) (out err : string) : exc + value :=
  if String.eqb out "" then inr (VDict [])
  else
    match json_loads (decoder h) out with
    | Decoded v => inr v
    | NotJson =>
        inr (VDict [("ok", VBool false);
                    ("message", VStr "Invalid JSON output");
                    ("error", VStr ("STDOUT: " +:+ py_prefix 500 out +:+ newline
                                    +:+ "STDERR: " +:+ py_prefix 500 err))])
    | Refused why => inl (refusal h why)
    end.

Definition timeout_message (h : host) (ar : args) : string :=
  "Test timed out after " +:+ repr_float (rendering_of h) (timeout ar) +:+ " seconds".

Definition int_of_bool (b : bool) : Z := if b then 1 else 0.

(** [if cond: full_message += text], after the statements that gave [v]. *)
Definition append_if (h : host) (cond : bool) (text : string) (v : exc + value)
  : exc + value :=
  match v with
  | inr m => if cond then iadd_str h m text else inr m
  | inl e => inl e
  end.

(** The message of the row: [message], then the error, the exit code and
    the standard error text, each under its condition. *)
Definition full_message (h : host) (message error : value) (err : string)
    (returncode : Z) : exc + value :=
  append_if h (negb (String.eqb err "") && negb (truthy error))
    (newline +:+ newline +:+ "STDERR:" +:+ newline +:+ err)
    (append_if h (negb (returncode =? 0))
       (newline +:+ newline +:+ "(subprocess exit code: " +:+ str_of_int returncode +:+ ")")
       (append_if h (truthy error)
          (newline +:+ newline +:+ "ERROR:" +:+ newline +:+ py_str (rendering_of h) error)
          (inr message))).

(** Whether the results file, opened as UTF-8, takes the cell: a [str] is
    written as it is; the [str()] of any other object escapes what it
    cannot show. *)
Definition encodable (cell : value) : bool :=
  match cell with
  | VStr s => no_surrogate s
  | _ => true
  end.

(** The body of the [try] after [subprocess.run] returned. *)
Definition record_completed (a : assignment) (h : host) (student test_name : string)
    (stdout stderr : string) (returncode : Z) (st : state) : res :=
  let out := strip stdout in
  let err := strip stderr in
  match read_data h out err with
  | inl e => Raised e st
  | inr (VDict items) =>
      let ok := truthy (dict_get "ok" items (VBool false)) in
      let message := dict_get "message" items (VStr EmptyString) in
      let error := dict_get "error" items (VStr EmptyString) in
      match full_message h message error err returncode with
      | inl e => Raised e st
      | inr m =>
          let row := [VStr student; VStr test_name; VInt (int_of_bool ok); m] in
          if encodable m then
            let st := writerow row st in
            bind (update h student add_total st) (fun st =>
            if ok then update h student add_passed st
            else
              bind (update h student add_failed st) (fun st =>
              match log_failure a h test_name message error err with
              | Some e => Raised e st
              | None => Done st
              end))
          else Raised (Exc "UnicodeEncodeError" (codec_message h row) (frames h OnWrite)) st
      end
  | inr v =>
      Raised (Exc "AttributeError"
                ("'" +:+ type_name v +:+ "' object has no attribute 'get'")
                (frames h OnGet)) st
  end.

(** The handler of [subprocess.TimeoutExpired]. *)
Definition record_timeout (h : host) (ar : args) (student test_name : string)
    (st : state) : res :=
  let st := writerow [VStr student; VStr test_name; VInt 0; VStr (timeout_message h ar)] st in
  bind (update h student add_total st) (update h student add_failed).

(** One iteration of the loop over the tests. *)
Definition grade_test (a : assignment) (ar : args) (h : host)
    (student module_path : string) (idx : nat) (test_name : string) (st : state) : res :=
  let cmd := command ar h module_path test_name idx in
  let n := length (launches st) in
  let st := State (rows st) (summary st) (launches st ++ [cmd]) in
  match child h n cmd with
  | Completed stdout stderr returncode =>
      record_completed a h student test_name stdout stderr returncode st
  | TimedOut => record_timeout h ar student test_name st
  | SpawnError e => Raised e st
  end.

(** [for idx, tfile in enumerate(tests)], from index [idx] on. *)
Fixpoint grade_tests (a : assignment) (ar : args) (h : host)
    (student module_path : string) (idx : nat) (names : list string) (st : state) : res :=
  match names with
  | [] => Done st
  | t :: rest =>
      bind (grade_test a ar h student module_path idx t st)
           (grade_tests a ar h student module_path (S idx) rest)
  end.

(** The rows of a student whose module was not found. *)
Fixpoint record_missing (a : assignment) (h : host) (student : string)
    (names : list string) (st : state) : res :=
  match names with
  | [] => Done st
  | t :: rest =>
      let st := writerow [VStr student; VStr t; VInt 0;
                          VStr (target_file a +:+ " not found")] st in
      bind (bind (update h student add_total st) (update h student add_failed))
           (record_missing a h student rest)
  end.

(** One iteration of the loop over the student directories. *)
Definition grade_student (a : assignment) (ar : args) (h : host) (names : list string)
    (student : string) (entries : list (string * node)) (st : state) : res :=
  let st := setdefault student st in
  match locate a (path_join (submissions_dir ar) student) entries with
  | None =>
      bind (record_missing a h student names st) (update h student set_missing)
  | Some module_path => grade_tests a ar h student module_path 0 names st
  end.

Definition entries_of (n : node) : list (string * node) :=
  match n with Dir es => es | File => [] end.

(** [sorted(l)] on names *)
Definition sorted (l : list string) : list string := merge_sort String.le l.

(** The student directories in the order they are graded. *)
Definition students (es : list (string * node)) : list (string * list (string * node)) :=
  (fun e => (e.1, entries_of e.2))
    <$> merge_sort (fun x y => String.le x.1 y.1) (List.filter (fun e => is_dir e.2) es).

Fixpoint grade_students (a : assignment) (ar : args) (h : host) (names : list string)
    (l : list (string * list (string * node))) (st : state) : res :=
  match l with
  | [] => Done st
  | (student, entries) :: rest =>
      bind (grade_student a ar h names student entries st)
           (grade_students a ar h names rest)
  end.

(** [find_test_files] *)
Definition find_test_files (es : list (string * node)) : list string :=
  sorted (List.filter (fun name => String.prefix "test_" name && ends_with ".py" name)
            (file_names es)).

(** [a / b] on two [int]: [ZeroDivisionError] when [b] is zero. *)
Definition truediv (h : host) (x y : Z) : exc + Q :=
  if y =? 0 then inl (Exc "ZeroDivisionError" "division by zero" (frames h OnSummary))
  else inr (Qmake x 1 / Qmake y 1)%Q.

(** A row of the summary file; the percentage is kept as the exact quotient. *)
Record summary_row := SummaryRow {
  sr_student : string;
  sr_total : Z;
  sr_passed : Z;
  sr_failed : Z;
  sr_percent : Q;
  sr_missing : Z;
}.

(** [pct = (passed / total * 100.0) if total else 0.0] and the row written. *)
Definition summary_line (h : host) (student : string) (c : counts) : exc + summary_row :=
  let pct :=
    if negb (total c =? 0) then
      match truediv h (passed c) (total c) with
      | inr q => inr (q * 100)%Q
      | inl e => inl e
      end
    else inr 0%Q in
  match pct with
  | inr q => inr (SummaryRow student (total c) (passed c) (failed c) q (missing c))
  | inl e => inl e
  end.

(** [for student, s in sorted(summary.items())] *)
Fixpoint summary_lines (h : host) (items : list (string * counts)) : exc + list summary_row :=
  match items with
  | [] => inr []
  | (student, c) :: rest =>
      match summary_line h student c with
      | inl e => inl e
      | inr r =>
          match summary_lines h rest with
          | inl e => inl e
          | inr rs => inr (r :: rs)
          end
      end
  end.

Definition sorted_items (m : gmap string counts) : list (string * counts) :=
  merge_sort (fun x y => String.le x.1 y.1) (map_to_list m).

Definition results_header : list value :=
  [VStr "student_email(s)"; VStr "test_file"; VStr "passed"; VStr "message"].

(** What a run leaves behind. *)
Record report := Report {
  results_file : list (list value);          (* rows of the results file *)
  summary_file : option (list summary_row);  (* rows of the summary file, if written *)
  launched : list (list string);
  raised : option exc;                        (* the exception that ended [main], if any *)
}.

Definition system_exit (h : host) (msg : string) : report :=
  Report [] None [] (Some (Exc "SystemExit" msg (frames h OnExit))).

(** [main()] of the driver. *)
Definition main (a : assignment) (ar : args) (h : host) : report :=
  match submissions h, tests h with
  | None, _ =>
      system_exit h ("Submissions directory not found: " +:+ resolve h (submissions_dir ar))
  | Some _, None =>
      system_exit h ("Tests directory not found: " +:+ resolve h (tests_dir ar))
  | Some subs, Some ts =>
      match find_test_files ts with
      | [] => system_exit h ("No test_*.py found in " +:+ resolve h (tests_dir ar))
      | names =>
          match grade_students a ar h names (students subs)
                  (State [results_header] ∅ []) with
          | Raised e st => Report (rows st) None (launches st) (Some e)
          | Done st =>
              match summary_lines h (sorted_items (summary st)) with
              | inr lines => Report (rows st) (Some lines) (launches st) None
              | inl e => Report (rows st) None (launches st) (Some e)
              end
          end
      end
  end.

End Grader.

(** ** Concrete machines, for the examples *)

Module Samples.
Import Text Py Json Locator.

(** A rendering that is right for the floats and strings of the examples. *)
Definition rendering0 : rendering := {|
  repr_float f :=
    match f with
    | FNaN => "nan"
    | FInf neg => if neg then "-inf" else "inf"
    | FDec neg i fr _ =>
        (if neg then "-" else "") +:+ i +:+ "." +:+ (if String.eqb fr "" then "0" else fr)
    end;
  repr_str s := "'" +:+ s +:+ "'";
|}.

(** A text written with ['] for the double quote. *)
Fixpoint quoted (s : string) : string :=
  match s with
  | EmptyString => EmptyString
  | String c r => String (if Ascii.eqb c "'" then dquote else c) (quoted r)
  end.

Fixpoint repeat_char (c : ascii) (n : nat) : string :=
  match n with
  | O => EmptyString
  | S n => String c (repeat_char c n)
  end.

Definition args0 : Grader.args := {|
  Grader.submissions_dir := "downloads/PA3";
  Grader.tests_dir := "tests/pa3/code_tests";
  Grader.support_dir := "tests/pa3/code_tests";
  Grader.timeout := FDec false "20" "0" 0;
  Grader.python_bin := "python3";
|}.

(** A machine with the given submissions, two tests, and children that all
    behave as [c] says. *)
Definition host0 (subs : list (string * node)) (c : Grader.child_result) : Grader.host := {|
  Grader.submissions := Some subs;
  Grader.tests := Some [("test_2.py", File); ("util.py", File); ("test_1.py", File)];
  Grader.support_exists := true;
  Grader.resolve p := "/home/grader/" +:+ p;
  Grader.tmpd := "/tmp/tmpk3v9";
  Grader.child _ _ := c;
  Grader.decoder := {| Json.max_depth := 990; Json.max_digits := 4300 |};
  Grader.codec_message _ := "'utf-8' codec can't encode character: surrogates not allowed";
  Grader.rendering_of := rendering0;
  Grader.frames _ := EmptyString;
|}.

Definition alice : list (string * node) := [("alice", Dir [("pa3.py", File)])].

(** A state in which alice has an entry and nothing else has happened. *)
Definition fresh (student : string) : Grader.state :=
  Grader.State [] {[ student := Grader.Counts 0 0 0 0 ]} [].

(** A runner process started as the driver starts it, in which every path
    exists. *)
Definition world0 (student : Runner.run unit) (test : Runner.run Runner.test_module)
  : Runner.world := {|
  Runner.argv := ["/tmp/tmpk3v9/runner.py"; "/home/grader/downloads/PA3/alice/pa3.py";
                  "/home/grader/tests/pa3/code_tests"; "/home/grader/tests/pa3/code_tests";
                  "/home/grader/tests/pa3/code_tests/test_1.py"; "1337"];
  Runner.path_exists _ := true;
  Runner.exec_student := student;
  Runner.exec_test := test;
  Runner.rendering_of := rendering0;
  Runner.frames _ := EmptyString;
|}.

End Samples.

(** ** Notions used in the statements *)

Module Notions.
Import Text Py Json Locator Grader.

(** The state a statement sequence leaves, however it ended. *)
Definition state_of (r : res) : state :=
  match r with Done st | Raised _ st => st end.

Definition balanced (c : counts) : Prop := total c = passed c + failed c.

Definition all_balanced (st : state) : Prop :=
  forall student c, summary st !! student = Some c -> balanced c.

(** One more result counted: the total and one of passed, failed grow by one. *)
Definition counted (c c' : counts) : Prop :=
  c' = Counts (total c + 1) (passed c + 1) (failed c) (missing c) \/
  c' = Counts (total c + 1) (passed c) (failed c + 1) (missing c).

(** One iteration over a test leaves a student's entry as it was, or counts
    one more result in it. *)
Definition counted_step (student : string) (st st' : state) : Prop :=
  summary st' = summary st \/
  exists c c', summary st !! student = Some c /\ counted c c' /\
               summary st' = <[student := c']> (summary st).

(** The row of a test for a student whose module was not found. *)
Definition missing_row (a : assignment) (student t : string) : list value :=
  [VStr student; VStr t; VInt 0; VStr (target_file a +:+ " not found")].

(** [n] more failures counted. *)
Definition add_failures (n : Z) (c : counts) : counts :=
  Counts (total c + n) (passed c) (failed c + n) (missing c).

(** The percentage of a summary row, as the exact quotient. *)
Definition percent (c : counts) : Q :=
  if total c =? 0 then 0%Q else (Qmake (passed c) 1 / Qmake (total c) 1 * 100)%Q.

Definition line_of (student : string) (c : counts) : summary_row :=
  SummaryRow student (total c) (passed c) (failed c) (percent c) (missing c).

(** The note on a non-zero exit code. *)
Definition exit_note (returncode : Z) : string :=
  if returncode =? 0 then EmptyString
  else newline +:+ newline +:+ "(subprocess exit code: " +:+ str_of_int returncode +:+ ")".

Definition error_section (error : string) : string :=
  if String.eqb error "" then EmptyString
  else newline +:+ newline +:+ "ERROR:" +:+ newline +:+ error.

Definition stderr_section (err : string) : string :=
  if String.eqb err "" then EmptyString
  else newline +:+ newline +:+ "STDERR:" +:+ newline +:+ err.

(** The message of the row of a completed child whose [message] and
    [error] are texts. *)
Definition row_text (message error err : string) (returncode : Z) : string :=
  message +:+ error_section error +:+ exit_note returncode
  +:+ (if String.eqb error "" then stderr_section err else EmptyString).



(** The locator as the design document words it: the walk leaves out the
    directories whose name is on the denylist, and only those, and takes the
    first directory, top down, that lists the target file. *)
Fixpoint worded_search (target top : string) (n : node) : option string :=
  match n with
  | File => None
  | Dir es =>
      if mem target (file_names es) then Some (path_join top target)
      else
        (fix below (l : list (string * node)) : option string :=
           match l with
           | [] => None
           | (name, child) :: rest =>
               if mem name denylist then below rest
               else
                 match worded_search target (path_join top name) child with
                 | Some p => Some p
                 | None => below rest
                 end
           end) es
  end.

Definition worded_locate (a : assignment) (student_dir : string)
    (es : list (string * node)) : option string :=
  if mem (target_file a) (fst <$> es) then Some (path_join student_dir (target_file a))
  else worded_search (target_file a) student_dir (Dir es).

(** C3 as the design document words it: the row recorded for a child whose
    output does not parse carries the raw text of both channels. *)
Definition carries_raw_text (a : assignment) (h : host) (student t stdout stderr : string)
    (returncode : Z) (st : state) : Prop :=
  exists st' m,
    record_completed a h student t stdout stderr returncode st = Done st' /\
    last (rows st') = Some [VStr student; VStr t; VInt 0; VStr m] /\
    contains stdout m = true /\ contains stderr m = true.

(** C5 as the design document words it: the message of a timeout names the
    time allowed, in the form "timed out after Ns". *)
Definition worded_timeout_message (n : string) : string := "timed out after " +:+ n +:+ "s".

Definition records_worded_timeout (a : assignment) (ar : args) (h : host)
    (student path : string) (idx : nat) (t : string) (st : state) : Prop :=
  exists st' n,
    grade_test a ar h student path idx t st = Done st' /\
    last (rows st') = Some [VStr student; VStr t; VInt 0; VStr (worded_timeout_message n)].

End Notions.

Module RunnerNotions.
Import Text Py Runner.

(** The loaded code comes back to the runner, the interpreter as it was:
    it returns or raises an [Exception]. *)
Definition ends {A : Type} (r : run A) : bool :=
  match result r with
  | Returns _ | Raises _ => true
  | Escapes _ | Hangs | Subverts _ _ => false
  end.

(** The code the runner gets to run once it is past its checks comes back:
    the student's module; if that loads, the test module; if that loads too
    and has the entry point, the call of it. *)
Definition loaded_code_ends (w : world) : bool :=
  match result (exec_student w) with
  | Returns _ =>
      match result (exec_test w) with
      | Returns t => match entry t with Some r => ends r | None => true end
      | Raises _ => true
      | _ => false
      end
  | Raises _ => true
  | _ => false
  end.

(** A runner process that one of the checks stops (too few arguments, a
    path that does not exist), or whose seed argument is an integer literal
    and whose loaded code, as far as the runner gets to run it, comes
    back. *)
Definition cooperative (w : world) : bool :=
  (length (argv w) <? 6)%nat
  || match py_int (arg w 5) with
     | Some _ =>
         negb (path_exists w (arg w 1) && path_exists w (arg w 4)) || loaded_code_ends w
     | None => false
     end.

(** The piece of code changed the interpreter under the runner. *)
Definition subverts {A : Type} (r : run A) : bool :=
  match result r with
  | Subverts _ _ => true
  | _ => false
  end.

(** None of the code the runner gets to run once it is past its checks
    changes the interpreter under the runner: not the student's module; if
    that loads, not the test module; if that loads too and has the entry
    point, not the call of it. *)
Definition untouched (w : world) : bool :=
  match result (exec_student w) with
  | Subverts _ _ => false
  | Returns _ =>
      match result (exec_test w) with
      | Subverts _ _ => false
      | Returns t => match entry t with Some r => negb (subverts r) | None => true end
      | _ => true
      end
  | _ => true
  end.

(** The two shapes of a value of the result protocol. *)
Definition protocol_value (v : value) : Prop :=
  (exists b m, v = VDict [("ok", VBool b); ("message", VStr m)]) \/
  (exists m e, v = failure m e).

(** C2 as the design document words it: one value of the protocol reaches
    standard output, and nothing else. *)
Definition prints_exactly_once (a : assignment) (w : world) : Prop :=
  exists v, stdout_events (main a w).1 = [Print v].

(** C9 as the design document words it: the record of a missing entry
    point. *)
Definition reports_entry_point_not_found (a : assignment) (w : world) : Prop :=
  exists v items, printed (main a w).1 = [v] /\ v = VDict items /\
    dict_get "ok" items VNone = VBool false /\
    dict_get "message" items VNone = VStr "entry point not found".


(** [evs] is silent on the runner's side but for a last [Print v]. *)
Definition ends_with_print (v : value) (evs : list event) : Prop :=
  exists quiet, evs = quiet ++ [Print v] /\ printed quiet = [].

End RunnerNotions.

(** ** The downloader ([download_submission_4.py]) *)

Module Download.
Import Text Py.

Definition target_filename : string := "pa4.py".

(** [Path("./downloads")] as pathlib spells it *)
Definition outdir : string := "downloads".

(** How the script stops early: [sys.exit(message)], or an exception of the
    platform's client or of the operating system that nothing catches. *)
Inductive stop :=
| Exit (message : string)
| Propagates (e : exc).

(** [get_api_key], given [os.getenv("CODEPOST_API_KEY")] *)
Definition get_api_key (env : option string) : stop + string :=
  let key := strip (default EmptyString env) in
  if String.eqb key "" then
    inl (Exit "Missing API key. Set CODEPOST_API_KEY or edit the script to hardcode it.")
  else inr key.

(** [name.replace(ch, by_)] for a one-character [ch] *)
Fixpoint replace_char (ch by_ : ascii) (name : string) : string :=
  match name with
  | EmptyString => EmptyString
  | String c r => String (if Ascii.eqb c ch then by_ else c) (replace_char ch by_ r)
  end.

(** The characters of [bad], in order. *)
Definition bad : list ascii :=
  ["<"; ">"; ":"; dquote; "/"; backslash; "|"; "?"; "*"]%char.

Definition underscore : ascii := "_"%char.

(** [safe_folder_name] *)
Definition safe_folder_name (name : string) : string :=
  strip (fold_left (fun n ch => replace_char ch underscore n) bad name).

(** [parent / name] for a [name] without separator: pathlib drops an empty
    or single-dot segment. *)
Definition child_path (parent name : string) : string :=
  if String.eqb name "" || String.eqb name "." then parent
  else parent +:+ "/" +:+ name.

(** A file of a submission, as its attributes read after [f.refresh()],
    whose exceptions the script ignores ([None]: no such attribute, or the
    attribute is [None]). *)
Record remote_file := {
  f_name : option string;
  f_id : option string;       (* the id, as an f-string prints it *)
  f_path : option string;
  f_code : option string;
}.

Record submission := {
  s_id : string;               (* the id, as an f-string prints it *)
  s_students : list string;    (* [getattr(sub, "students", []) or []] *)
  s_files : list remote_file;  (* [getattr(sub, "files", []) or []] *)
}.

(** [assignment.list_submissions()], with the fallback of the script. *)
Inductive listing :=
| Listed (l : list submission)
| NoMethod (attribute : exc + list submission)   (* AttributeError; then the attribute *)
| ListFails (e : exc).

Record course_info := { c_name : string; c_period : string; c_id : string }.
Record assignment_info := { a_name : string; a_id : string; a_submissions : listing }.

(** What writing a file does. *)
Inductive write_result :=
| Written
| EncodeError            (* UnicodeEncodeError *)
| WriteFails (e : exc).

(** The machine and the platform the script talks to. *)
Record machine := {
  api_key_env : option string;
  course : exc + course_info;                 (* codepost.course.retrieve *)
  assignment : exc + assignment_info;         (* codepost.assignment.retrieve *)
  mkdir : string -> option exc;               (* mkdir(parents=True, exist_ok=True) *)
  write : string -> string -> bool -> write_result;  (* path, text, errors="replace" *)
  resolve : string -> string;
}.

(** What the script does on the machine. *)
Inductive action :=
| Mkdir (path : string)
| Write (path text : string) (replacing : bool)
| Say (line : string).

Record state := State {
  total_files : Z;
  skipped_students : list string;
  trace : list action;
}.

Inductive res :=
| Done (st : state)
| Stopped (why : stop) (st : state).

Definition bind (r : res) (k : state -> res) : res :=
  match r with
  | Done st => k st
  | Stopped why st => Stopped why st
  end.

Definition say (line : string) (st : state) : state :=
  State (total_files st) (skipped_students st) (trace st ++ [Say line]).

Definition make_dir (m : machine) (path : string) (st : state) : res :=
  match mkdir m path with
  | Some e => Stopped (Propagates e) st
  | None => Done (State (total_files st) (skipped_students st) (trace st ++ [Mkdir path]))
  end.

Definition saved (path text : string) (replacing : bool) (line : string) (st : state) : state :=
  State (total_files st + 1) (skipped_students st)
        (trace st ++ [Write path text replacing; Say line]).

Definition check_mark : string :=
  String (ascii_of_nat 226) (String (ascii_of_nat 156) (String (ascii_of_nat 147) EmptyString)).
Definition ballot_x : string :=
  String (ascii_of_nat 226) (String (ascii_of_nat 156) (String (ascii_of_nat 151) EmptyString)).
Definition done_mark : string :=
  String (ascii_of_nat 226) (String (ascii_of_nat 156) (String (ascii_of_nat 133) EmptyString)).
Definition warning_mark : string :=
  String (ascii_of_nat 226) (String (ascii_of_nat 154) (String (ascii_of_nat 160)
    (String (ascii_of_nat 239) (String (ascii_of_nat 184) (String (ascii_of_nat 143) EmptyString))))).

(** [getattr(f, "name", f"file_{getattr(f, 'id', 'unknown')}")] *)
Definition name_of (f : remote_file) : string :=
  default ("file_" +:+ default "unknown" (f_id f)) (f_name f).

(** The body of the loop over the files of one submission. *)
Definition save_file (m : machine) (folder sub_dir : string) (f : remote_file)
    (found : bool) (st : state) : bool * res :=
  let name := name_of f in
  if negb (String.eqb name target_filename) then (found, Done st)
  else
    let out_dir :=
      match f_path f with
      | Some rel => if String.eqb rel "" then sub_dir
                    else child_path sub_dir (safe_folder_name rel)
      | None => sub_dir
      end in
    let out_file := out_dir +:+ "/" +:+ name in
    (true,
     bind (make_dir m out_dir st) (fun st =>
     match f_code f with
     | None =>
         Done (say ("  [skip] " +:+ folder +:+ "/" +:+ name +:+ " (no text content)") st)
     | Some code =>
         match write m out_file code false with
         | Written =>
             Done (saved out_file code false
                     ("  " +:+ check_mark +:+ " " +:+ folder +:+ "/" +:+ name) st)
         | EncodeError =>
             match write m out_file code true with
             | Written =>
                 Done (saved out_file code true
                         ("  " +:+ check_mark +:+ " " +:+ folder +:+ "/" +:+ name
                          +:+ " (encoding fallback)") st)
             | EncodeError => Stopped (Propagates (Exc "UnicodeEncodeError" "" "")) st
             | WriteFails e => Stopped (Propagates e) st
             end
         | WriteFails e => Stopped (Propagates e) st
         end
     end)).

Fixpoint save_files (m : machine) (folder sub_dir : string) (files : list remote_file)
    (found : bool) (st : state) : bool * res :=
  match files with
  | [] => (found, Done st)
  | f :: rest =>
      match save_file m folder sub_dir f found st with
      | (found', Done st') => save_files m folder sub_dir rest found' st'
      | stopped => stopped
      end
  end.

(** The folder of a submission: its students, sorted and joined, or its id. *)
Definition folder_of (sub : submission) : string :=
  match s_students sub with
  | [] => "submission_" +:+ s_id sub
  | students => String.concat "," (merge_sort String.le students)
  end.

(** The body of the loop over the submissions. *)
Definition save_submission (m : machine) (base : string) (sub : submission)
    (st : state) : res :=
  let folder := folder_of sub in
  let sub_dir := child_path base (safe_folder_name folder) in
  bind (make_dir m sub_dir st) (fun st =>
  match save_files m folder sub_dir (s_files sub) false st with
  | (found, Done st) =>
      if found then Done st
      else
        Done (say ("  " +:+ ballot_x +:+ " " +:+ folder
                   +:+ " (no " +:+ target_filename +:+ " found)")
                (State (total_files st) (skipped_students st ++ [folder]) (trace st)))
  | (_, stopped) => stopped
  end).

Fixpoint save_submissions (m : machine) (base : string) (subs : list submission)
    (st : state) : res :=
  match subs with
  | [] => Done st
  | sub :: rest => bind (save_submission m base sub st) (save_submissions m base rest)
  end.

(** The closing lines. *)
Definition report (m : machine) (base : string) (st : state) : state :=
  let st := say (newline +:+ done_mark +:+ " Done. Saved " +:+ str_of_int (total_files st)
                 +:+ " " +:+ target_filename +:+ " file(s) under: " +:+ resolve m base) st in
  match skipped_students st with
  | [] => st
  | skipped =>
      let n := Z.of_nat (length skipped) in
      let st := say (newline +:+ warning_mark +:+ "  " +:+ str_of_int n
                     +:+ " submission(s) missing " +:+ target_filename +:+ ":") st in
      let st := fold_left (fun st student => say ("    - " +:+ student) st)
                  (take 10 skipped) st in
      if 10 <? n then say ("    ... and " +:+ str_of_int (n - 10) +:+ " more") st else st
  end.

(** [main()] *)
Definition main (m : machine) : res :=
  let st0 := State 0 [] [] in
  match get_api_key (api_key_env m) with
  | inl why => Stopped why st0
  | inr _ =>
      match course m with
      | inl e => Stopped (Propagates e) st0
      | inr c =>
          let course_dir := safe_folder_name (c_name c +:+ " (" +:+ c_period c +:+ ")") in
          match assignment m with
          | inl e => Stopped (Propagates e) st0
          | inr a =>
              let assignment_dir := safe_folder_name (a_name a) in
              let base := child_path (child_path outdir course_dir) assignment_dir in
              bind (make_dir m base st0) (fun st =>
              let st :=
                say ("  Filtering for: " +:+ target_filename +:+ newline)
                  (say ("Downloading submissions for:" +:+ newline
                        +:+ "  Course: " +:+ c_name c +:+ " (" +:+ c_period c +:+ ") [ID "
                        +:+ c_id c +:+ "]" +:+ newline
                        +:+ "  Assignment: " +:+ a_name a +:+ " [ID " +:+ a_id a +:+ "]"
                        +:+ newline +:+ "  -> " +:+ resolve m base +:+ newline) st) in
              let listed :=
                match a_submissions a with
                | Listed l => inr l
                | NoMethod (inr l) => inr l
                | NoMethod (inl e) =>
                    inl (Exit ("Could not enumerate submissions: " +:+ exc_msg e))
                | ListFails e => inl (Propagates e)
                end in
              match listed with
              | inl why => Stopped why st
              | inr subs =>
                  match save_submissions m base subs st with
                  | Done st => Done (report m base st)
                  | stopped => stopped
                  end
              end)
          end
      end
  end.

End Download.

(** ** Notions used in the statements about the downloader *)

Module DownloadNotions.
Import Text Py Download.

Definition is_bad (c : ascii) : bool := existsb (Ascii.eqb c) bad.

(** No character of [bad] occurs in the text. *)
Definition clean (s : string) : Prop :=
  Forall (fun c => is_bad c = false) (list_ascii_of_string s).

(** The nine replacements together: a bad character becomes an underscore,
    any other stays. *)
Definition scrub (c : ascii) : ascii := if is_bad c then underscore else c.

Fixpoint map_chars (f : ascii -> ascii) (s : string) : string :=
  match s with
  | EmptyString => EmptyString
  | String c r => String (f c) (map_chars f r)
  end.

(** The file has the target's name. *)
Definition is_target (f : remote_file) : bool := String.eqb (name_of f) target_filename.

(** The file has the target's name and a text. *)
Definition savable (f : remote_file) : bool :=
  is_target f && match f_code f with Some _ => true | None => false end.

Definition count_savable (files : list remote_file) : Z :=
  Z.of_nat (length (List.filter savable files)).

Fixpoint count_saved (subs : list submission) : Z :=
  match subs with
  | [] => 0
  | sub :: rest => count_savable (s_files sub) + count_saved rest
  end.

(** The folders of the submissions without a file of the target's name. *)
Definition without_target (subs : list submission) : list string :=
  folder_of <$> List.filter (fun sub => negb (existsb is_target (s_files sub))) subs.

(** The submissions the script gets to see. *)
Definition listed (a : assignment_info) : option (list submission) :=
  match a_submissions a with
  | Listed l | NoMethod (inr l) => Some l
  | _ => None
  end.

(** A platform with three submissions: one with the target file, one whose
    target file has no text, one with another file only; every call of the
    operating system succeeds. *)
Definition machine0 : machine := {|
  api_key_env := Some " secret ";
  course := inr {| c_name := "CECS 229"; c_period := "Fall 2025"; c_id := "5290" |};
  assignment := inr {|
    a_name := "Programming Assignment #4";
    a_id := "36143";
    a_submissions := Listed [
      {| s_id := "1"; s_students := ["b@school.edu"; "a@school.edu"];
         s_files := [ {| f_name := Some "pa4.py"; f_id := Some "11"; f_path := None;
                         f_code := Some "print(4)" |} ] |};
      {| s_id := "2"; s_students := ["c@school.edu"];
         s_files := [ {| f_name := Some "pa4.py"; f_id := Some "21"; f_path := Some "src/lib";
                         f_code := None |} ] |};
      {| s_id := "3"; s_students := [];
         s_files := [ {| f_name := Some "notes.txt"; f_id := Some "31"; f_path := None;
                         f_code := Some "hello" |} ] |} ] |};
  mkdir _ := None;
  write _ _ _ := Written;
  resolve p := "/home/grader/" +:+ p;
|}.

Definition final_state (r : res) : state :=
  match r with Done st | Stopped _ st => st end.

(** The directory the script downloads into. *)
Definition base_of (c : course_info) (a : assignment_info) : string :=
  child_path (child_path outdir (safe_folder_name (c_name c +:+ " (" +:+ c_period c +:+ ")")))
    (safe_folder_name (a_name a)).

(** A path the script may write under [base]: the target's name in a
    folder of [base], or in a folder of such a folder, the names of both
    without separator. *)
Definition placed (base path : string) : Prop :=
  exists folder inner,
    clean folder /\ clean inner /\
    path = child_path (child_path base folder) inner +:+ "/" +:+ target_filename.

(** Every file written so far is placed under [base]. *)
Definition all_placed (base : string) (tr : list action) : Prop :=
  forall path text replacing, Write path text replacing ∈ tr -> placed base path.

End DownloadNotions.

(** ** Notions used in the statements about a whole run *)

Module RunNotions.
Import Text Py Json Locator Grader Notions.

(** The student and the test of a row. *)
Definition key_of (row : list value) : list value := take 2 row.

Definition keys_for (names : list string) (student : string) : list (list value) :=
  (fun t => [VStr student; VStr t]) <$> names.

(** The row is a result of [student] with [p] in its third cell. *)
Definition is_result (student : string) (p : Z) (row : list value) : bool :=
  match row with
  | [VStr s; _; VInt q; _] => String.eqb s student && (q =? p)
  | _ => false
  end.

Definition count_results (student : string) (p : Z) (rows : list (list value)) : Z :=
  Z.of_nat (length (List.filter (is_result student p) rows)).

(** The summary agrees with the rows: a student's passed and failed counts
    are the numbers of the student's rows with 1 and with 0. *)
Definition agrees (st : state) : Prop :=
  forall student,
    match summary st !! student with
    | Some c => passed c = count_results student 1 (rows st) /\
                failed c = count_results student 0 (rows st)
    | None => count_results student 1 (rows st) = 0 /\
              count_results student 0 (rows st) = 0
    end.

(** The commands a completed grading of one student launches. *)
Definition launches_for (a : assignment) (ar : args) (h : host) (names : list string)
    (student : string) (entries : list (string * node)) : list (list string) :=
  match locate a (path_join (submissions_dir ar) student) entries with
  | Some module_path => imap (fun i t => command ar h module_path t i) names
  | None => []
  end.

(** A machine with two students, one of them without a module, whose
    children all print a passing result. *)
Definition host1 : host :=
  Samples.host0 [("bob", Dir [("notes.txt", File)]); ("readme.md", File);
                 ("alice", Dir [("pa3.py", File)])]
    (Completed (Samples.quoted "{'ok': true, 'message': 'fine'}") "" 0).

(** A child the driver can record: it timed out, or the data read from it
    is an object whose [message] and [error], if there, are texts, and the
    text of its row holds no surrogate.  Output that is empty or that the
    decoder rejects as no JSON gives such data. *)
Definition recordable (h : host) (c : child_result) : bool :=
  match c with
  | Completed stdout stderr returncode =>
      match read_data h (strip stdout) (strip stderr) with
      | inr (VDict items) =>
          match dict_get "message" items (VStr EmptyString),
                dict_get "error" items (VStr EmptyString) with
          | VStr message, VStr error =>
              no_surrogate (row_text message error (strip stderr) returncode)
          | _, _ => false
          end
      | _ => false
      end
  | TimedOut => true
  | SpawnError _ => false
  end.

End RunNotions.

(** ** The console logger *)

Module Logger.
Import Text.

(** [s.split('\n')] *)
Fixpoint split_lines (s : string) : list string :=
  match s with
  | EmptyString => [EmptyString]
  | String c r =>
      if Ascii.eqb c (ascii_of_nat 10) then EmptyString :: split_lines r
      else match split_lines r with
           | l :: ls => String c l :: ls
           | [] => [String c EmptyString]
           end
  end.

(** The ballot cross of the failure heading, as UTF-8. *)
Definition cross : string :=
  String (ascii_of_nat 226) (String (ascii_of_nat 156) (String (ascii_of_nat 151) EmptyString)).

(** [for line in lines: if line.strip(): self.log(f"      {line}")] *)
Definition indented (lines : list string) : list string :=
  (fun line => "      " +:+ line)
    <$> List.filter (fun line => negb (String.eqb (strip line) "")) lines.

(** [ConsoleLogger.log_traceback] on texts: the messages it hands to
    [self.log], in order. *)
Definition log_traceback (student test_name message error stderr : string) : list string :=
  [ "  " +:+ cross +:+ " " +:+ test_name +:+ " FAILED for " +:+ student;
    "    MESSAGE: " +:+ py_prefix 300 message ]
  ++ (if negb (String.eqb error "")
      then "    ERROR TRACEBACK:" :: indented (take 20 (split_lines error))
      else [])
  ++ (if negb (String.eqb stderr "")
      then "    STDERR:" :: indented (take 10 (split_lines stderr))
      else []).

End Logger.

(** ** Notions for the runner's other paths *)

Module ProtocolNotions.
Import Text Py Runner.

(** The modules the runner executed, in order. *)
Definition executed (evs : list event) : list (string * string) :=
  omap (fun e => match e with Exec name path => Some (name, path) | _ => None end) evs.

(** The directories the runner inserted into [sys.path], in order. *)
Definition inserted (evs : list event) : list string :=
  omap (fun e => match e with PathInsert d => Some d | _ => None end) evs.

(** [sys.path] after the runner's insertions, each at index 0. *)
Definition sys_path (init : list string) (evs : list event) : list string :=
  fold_left (fun path d => d :: path) (inserted evs) init.

(** [e] left the runner from loaded code: the student's module, the test
    module or the entry point raised it, and it is no [Exception]. *)
Definition escaped (w : world) (e : exc) : Prop :=
  result (exec_student w) = Escapes e \/
  result (exec_test w) = Escapes e \/
  exists t r, result (exec_test w) = Returns t /\ entry t = Some r /\ result r = Escapes e.

(** The messages of the runner's failure records. *)
Definition messages (a : assignment) : list string :=
  [ "bad_args";
    "Student " +:+ target_file a +:+ " not found";
    "Test file not found";
    "Failed to load student's " +:+ target_file a;
    "Failed to load test file";
    "Exception during TestCase() execution" ].

(** A directory argument the runner puts on [sys.path]. *)
Definition usable (w : world) (d : string) : bool :=
  negb (String.eqb d "") && path_exists w d.

End ProtocolNotions.

(** * Properties *)

(** ** Integers as text *)

Module TextFacts.
Import Text.

Lemma append_nil_r (s : string) : s +:+ "" = s.
Proof.
  induction s as [|c r IH]; [done|].
  change (String c (r +:+ "") = String c r). by rewrite IH.
Qed.

Lemma append_assoc (s t u : string) : (s +:+ t) +:+ u = s +:+ t +:+ u.
Proof.
  induction s as [|c r IH]; [done|].
  change (String c ((r +:+ t) +:+ u) = String c (r +:+ t +:+ u)). by rewrite IH.
Qed.

Lemma append_cons c (s t : string) : String c s +:+ t = String c (s +:+ t).
Proof. reflexivity. Qed.

(** *** Characters *)

(** A byte followed by continuation bytes only. *)
Definition is_char (ch : string) : bool :=
  match ch with
  | String _ r => forallb is_continuation (list_ascii_of_string r)
  | EmptyString => false
  end.

(** The first byte begins a character. *)
Definition starts (ch : string) : bool :=
  match ch with
  | String c _ => negb (is_continuation c)
  | EmptyString => false
  end.

(** A list of characters as [chars] gives it. *)
Definition good (l : list string) : Prop :=
  Forall (fun ch => is_char ch = true) l /\ Forall (fun ch => starts ch = true) (tail l).

Lemma chars_cons c r :
  chars (String c r)
  = match chars r with
    | ch :: rest =>
        if continues r then String c ch :: rest else String c EmptyString :: ch :: rest
    | [] => [String c EmptyString]
    end.
Proof. reflexivity. Qed.

Lemma chars_nil s : chars s = [] -> s = EmptyString.
Proof.
  destruct s as [|c r]; [done|]. rewrite chars_cons.
  destruct (chars r); [done|]. by destruct (continues r).
Qed.

Lemma unchars_cons ch l : unchars (ch :: l) = ch +:+ unchars l.
Proof. reflexivity. Qed.

Lemma unchars_app l l' : unchars (l ++ l') = unchars l +:+ unchars l'.
Proof.
  induction l as [|ch l IH]; [done|].
  change (ch +:+ unchars (l ++ l') = (ch +:+ unchars l) +:+ unchars l').
  by rewrite IH, append_assoc.
Qed.

Lemma unchars_chars s : unchars (chars s) = s.
Proof.
  induction s as [|c r IH]; [done|]. rewrite chars_cons.
  destruct (chars r) as [|ch rest] eqn:E.
  - apply chars_nil in E. by subst.
  - rewrite unchars_cons in IH.
    destruct (continues r); rewrite !unchars_cons, ?append_cons; by rewrite IH.
Qed.

Lemma chars_head r ch rest :
  chars r = ch :: rest -> is_char ch = true -> continues r = continues ch.
Proof.
  intros E Hc. pose proof (unchars_chars r) as H. rewrite E, unchars_cons in H.
  destruct ch as [|d ch']; [done|]. by rewrite <- H.
Qed.

Lemma chars_good s : good (chars s).
Proof.
  induction s as [|c r [Hc Hs]]; [by split|]. rewrite chars_cons.
  destruct (chars r) as [|ch rest] eqn:E; [by split; repeat constructor|].
  apply Forall_cons in Hc as [Hch Hrest]. cbn [tail] in Hs.
  pose proof (chars_head r ch rest E Hch) as Hh.
  destruct (continues r) eqn:Ec.
  - split; [|done]. constructor; [|done].
    destruct ch as [|d ch']; [done|]. cbn in *. by rewrite <- Hh.
  - split; [by repeat constructor|]. cbn [tail]. constructor; [|done].
    destruct ch as [|d ch']; [done|]. cbn in *. by rewrite <- Hh.
Qed.

Lemma chars_char ch s :
  is_char ch = true -> continues s = false -> chars (ch +:+ s) = ch :: chars s.
Proof.
  destruct ch as [|c r]; [done|]. cbn [is_char]. revert c.
  induction r as [|d r IH]; intros c Hr Hs.
  - change (chars (String c s) = String c "" :: chars s). rewrite chars_cons.
    rewrite Hs. by destruct (chars s).
  - cbn in Hr. apply andb_true_iff in Hr as [Hd Hr].
    pose proof (IH d Hr Hs) as H.
    change (chars (String d (r +:+ s)) = String d r :: chars s) in H.
    change (chars (String c (String d (r +:+ s))) = String c (String d r) :: chars s).
    rewrite chars_cons, H. cbn [continues]. by rewrite Hd.
Qed.

Lemma chars_unchars l : good l -> chars (unchars l) = l.
Proof.
  induction l as [|ch l IH]; [done|]. intros [Hc Hs].
  apply Forall_cons in Hc as [Hch Hc]. cbn [tail] in Hs.
  rewrite unchars_cons, chars_char; [|done|].
  - rewrite IH; [done|]. split; [done|]. destruct l; [done|].
    by apply Forall_cons in Hs as [_ Hs].
  - destruct l as [|ch' l']; [done|]. apply Forall_cons in Hs as [Hs _].
    destruct ch' as [|c' r']; [done|]. cbn in *. by apply negb_true_iff.
Qed.

Lemma good_infix pre l post : good (pre ++ l ++ post) -> good l.
Proof.
  intros [Hc Hs]. apply Forall_app in Hc as [_ [Hc _]%Forall_app].
  split; [done|]. destruct pre as [|p pre].
  - destruct l as [|x l]; [done|]. cbn [app tail] in *.
    by apply Forall_app in Hs as [Hs _].
  - cbn [app tail] in Hs. apply Forall_app in Hs as [_ [Hs _]%Forall_app].
    destruct l; [done|]. by apply Forall_cons in Hs as [_ Hs].
Qed.

(** *** Whitespace at the ends *)

Lemma drop_spaces_suffix l :
  exists pre, l = pre ++ drop_spaces l /\ Forall (fun ch => is_space ch = true) pre.
Proof.
  induction l as [|ch l (pre & E & Hp)]; [by exists []|]. cbn [drop_spaces].
  destruct (is_space ch) eqn:Es.
  - exists (ch :: pre). split; [by rewrite E at 1|by constructor].
  - by exists [].
Qed.

Lemma drop_spaces_head l :
  match drop_spaces l with
  | ch :: _ => is_space ch = false
  | [] => True
  end.
Proof.
  induction l as [|ch l IH]; [done|]. cbn [drop_spaces].
  by destruct (is_space ch) eqn:Es.
Qed.

Lemma drop_spaces_id l :
  match l with ch :: _ => is_space ch = false | [] => True end -> drop_spaces l = l.
Proof. destruct l as [|ch l]; [done|]. intros H. cbn [drop_spaces]. by rewrite H. Qed.

Lemma drop_spaces_idem l : drop_spaces (drop_spaces l) = drop_spaces l.
Proof. apply drop_spaces_id, drop_spaces_head. Qed.

Lemma drop_spaces_all l :
  Forall (fun ch => is_space ch = true) l <-> drop_spaces l = [].
Proof.
  induction l as [|ch l IH]; [done|]. cbn [drop_spaces]. rewrite Forall_cons.
  destruct (is_space ch); [|split; [by intros [? _]|done]].
  rewrite <- IH. split; [by intros [_ ?]|done].
Qed.

Lemma trim_infix l :
  exists pre post,
    l = pre ++ trim l ++ post /\
    Forall (fun ch => is_space ch = true) pre /\
    Forall (fun ch => is_space ch = true) post.
Proof.
  destruct (drop_spaces_suffix l) as (pre & E & Hp).
  destruct (drop_spaces_suffix (reverse (drop_spaces l))) as (post & E' & Hq).
  exists pre, (reverse post). split; [|split; [done|by apply Forall_reverse]].
  unfold trim. rewrite <- reverse_app, <- E', reverse_involutive. exact E.
Qed.

Lemma trim_idem l : trim (trim l) = trim l.
Proof.
  unfold trim at 1. set (t := trim l).
  assert (drop_spaces t = t) as ->.
  { apply drop_spaces_id. subst t. unfold trim.
    destruct (drop_spaces_suffix (reverse (drop_spaces l))) as (post & E & _).
    pose proof (drop_spaces_head l) as Hh.
    apply (f_equal reverse) in E. rewrite reverse_involutive, reverse_app in E.
    destruct (reverse (drop_spaces (reverse (drop_spaces l)))) as [|x r]; [done|].
    rewrite E in Hh. exact Hh. }
  subst t. unfold trim. by rewrite reverse_involutive, drop_spaces_idem.
Qed.

Lemma strip_idem s : strip (strip s) = strip s.
Proof.
  unfold strip. rewrite chars_unchars, trim_idem; [done|].
  destruct (trim_infix (chars s)) as (pre & post & E & _).
  apply (good_infix pre _ post). rewrite <- E. apply chars_good.
Qed.

(** What [strip] returns is a part of the text. *)
Lemma strip_infix s : exists a b, s = a +:+ strip s +:+ b.
Proof.
  destruct (trim_infix (chars s)) as (pre & post & E & _).
  exists (unchars pre), (unchars post).
  rewrite <- (unchars_chars s) at 1. by rewrite E, !unchars_app.
Qed.

Lemma bytes_app (s t : string) :
  list_ascii_of_string (s +:+ t) = list_ascii_of_string s ++ list_ascii_of_string t.
Proof.
  induction s as [|c r IH]; [done|].
  change (c :: list_ascii_of_string (r +:+ t)
          = c :: list_ascii_of_string r ++ list_ascii_of_string t).
  by rewrite IH.
Qed.

Lemma strip_Forall (P : ascii -> Prop) s :
  Forall P (list_ascii_of_string s) -> Forall P (list_ascii_of_string (strip s)).
Proof.
  destruct (strip_infix s) as (a & b & E). rewrite E at 1. rewrite !bytes_app.
  by intros [_ [H _]%Forall_app]%Forall_app.
Qed.

Lemma unchars_empty l :
  Forall (fun ch => is_char ch = true) l -> unchars l = EmptyString -> l = [].
Proof.
  destruct l as [|ch l]; [done|]. intros [Hc _]%Forall_cons.
  destruct ch; [done|]. done.
Qed.

Lemma strip_blank s : strip s = EmptyString <-> blank s.
Proof.
  unfold strip, blank.
  destruct (trim_infix (chars s)) as (pre & post & E & Hp & Hq). split.
  - intros H. apply unchars_empty in H.
    + rewrite E, H. apply Forall_app. split; [done|exact Hq].
    + pose proof (chars_good s) as Hg. rewrite E in Hg.
      by apply good_infix in Hg as [? _].
  - intros H. unfold trim. apply drop_spaces_all in H. rewrite H. done.
Qed.

(** A text of one-byte characters none of which is whitespace. *)
Definition plain (s : string) : Prop :=
  Forall (fun c => is_continuation c = false /\ is_space (String c EmptyString) = false)
         (list_ascii_of_string s).

Lemma chars_plain s :
  plain s -> chars s = (fun c => String c EmptyString) <$> list_ascii_of_string s.
Proof.
  unfold plain. induction s as [|c r IH]; [done|]. cbn [list_ascii_of_string].
  intros [_ Hr]%Forall_cons. rewrite chars_cons, (IH Hr), fmap_cons.
  destruct r as [|d r']; [done|]. cbn [list_ascii_of_string fmap list_fmap continues].
  apply Forall_cons in Hr as [[-> _] _]. done.
Qed.

Lemma trim_id l : Forall (fun ch => is_space ch = false) l -> trim l = l.
Proof.
  intros H. unfold trim. rewrite (drop_spaces_id l) by (by destruct H).
  rewrite drop_spaces_id, reverse_involutive; [done|].
  apply Forall_reverse in H. by destruct H.
Qed.

Lemma strip_plain s : plain s -> strip s = s.
Proof.
  intros H. unfold strip. rewrite trim_id, unchars_chars; [done|].
  rewrite chars_plain by done. apply Forall_fmap.
  eapply Forall_impl; [exact H|]. by intros c [_ ?].
Qed.

(** The text of an unsigned decimal: digits only. *)
Definition digit_string (s : string) : Prop :=
  Forall (fun c => is_digit c = true) (list_ascii_of_string s).

Lemma digits_of_uint d : digit_string (NilEmpty.string_of_uint d).
Proof. unfold digit_string. induction d; simpl; constructor; done. Qed.

Lemma digits_of_uint0 d : digit_string (NilZero.string_of_uint d).
Proof.
  destruct d; try apply (digits_of_uint (_ _)).
  unfold digit_string. simpl. by repeat constructor.
Qed.

Lemma digit_plain c :
  is_digit c = true ->
  is_continuation c = false /\ is_space (String c EmptyString) = false.
Proof.
  destruct c as [[] [] [] [] [] [] [] []]; intros H; vm_compute in H; try discriminate H;
    split; vm_compute; reflexivity.
Qed.

Lemma digit_string_plain s : digit_string s -> plain s.
Proof. intros H. eapply Forall_impl; [exact H|]. intros c. apply digit_plain. Qed.

Lemma ungroup_digits s : digit_string s -> ungroup true s = Some s.
Proof.
  unfold digit_string. induction s as [|c r IH]; simpl; [done|].
  intros H. apply Forall_cons in H as [Hc Hr]. by rewrite Hc, (IH Hr).
Qed.

Lemma ungroup_digits_nonempty c r :
  digit_string (String c r) -> ungroup false (String c r) = Some (String c r).
Proof.
  unfold digit_string. simpl. intros H. apply Forall_cons in H as [Hc Hr].
  by rewrite Hc, (ungroup_digits r Hr).
Qed.

(** The bytes of [str(z)]: ASCII digits and the sign. *)
Definition simple (s : string) : Prop :=
  Forall (fun c => is_digit c = true \/ c = "-"%char) (list_ascii_of_string s).

Lemma simple_byte c :
  is_digit c = true \/ c = "-"%char ->
  (is_continuation c = false /\ is_space (String c EmptyString) = false) /\
  to_ascii (String c EmptyString) = c /\ is_c_space c = false.
Proof.
  intros [H| ->]; [|by vm_compute].
  destruct c as [[] [] [] [] [] [] [] []]; vm_compute in H; try discriminate H;
    by vm_compute.
Qed.

Lemma skip_c_spaces_id l :
  Forall (fun c => is_c_space c = false) l -> skip_c_spaces l = l.
Proof.
  destruct l as [|c l]; [done|]. intros [H _]%Forall_cons.
  cbn [skip_c_spaces]. by rewrite H.
Qed.

Lemma simple_read s :
  simple s ->
  reverse (skip_c_spaces (reverse (skip_c_spaces (to_ascii <$> chars s))))
  = list_ascii_of_string s.
Proof.
  intros H. rewrite chars_plain.
  2:{ eapply Forall_impl; [exact H|]. intros c Hc. by destruct (simple_byte c Hc). }
  assert (to_ascii <$> ((fun c => String c EmptyString) <$> list_ascii_of_string s)
          = list_ascii_of_string s) as ->.
  { unfold simple in H. induction (list_ascii_of_string s) as [|c l IH]; [done|].
    apply Forall_cons in H as [Hc Hl]. rewrite !fmap_cons, (IH Hl).
    by destruct (simple_byte c Hc) as (_ & -> & _). }
  assert (Forall (fun c => is_c_space c = false) (list_ascii_of_string s)) as Hs.
  { eapply Forall_impl; [exact H|]. intros c Hc. by destruct (simple_byte c Hc) as (_ & _ & ?). }
  rewrite (skip_c_spaces_id _ Hs), skip_c_spaces_id by (by apply Forall_reverse).
  apply reverse_involutive.
Qed.

Lemma digit_string_simple s : digit_string s -> simple s.
Proof. intros H. eapply Forall_impl; [exact H|]. by left. Qed.

Lemma is_digit_not_sign c :
  is_digit c = true -> Ascii.eqb c "+" = false /\ Ascii.eqb c "-" = false.
Proof.
  intros H. split; apply Ascii.eqb_neq; intros ->; discriminate H.
Qed.

Lemma int_literal_digits c r :
  digit_string (String c r) -> int_literal (String c r) = Some (false, String c r).
Proof.
  intros H. unfold int_literal. cbv zeta.
  rewrite (simple_read _ (digit_string_simple _ H)). cbn [list_ascii_of_string].
  pose proof H as [Hc _]%Forall_cons.
  destruct (is_digit_not_sign c Hc) as [-> ->].
  change (c :: list_ascii_of_string r) with (list_ascii_of_string (String c r)).
  by rewrite string_of_list_ascii_of_string, (ungroup_digits_nonempty c r H).
Qed.

Lemma int_literal_negative c r :
  digit_string (String c r) ->
  int_literal (String "-" (String c r)) = Some (true, String c r).
Proof.
  intros H. unfold int_literal. cbv zeta. rewrite simple_read.
  2:{ constructor; [by right|]. exact (digit_string_simple _ H). }
  cbn [list_ascii_of_string].
  change (Ascii.eqb "-" "+") with false. change (Ascii.eqb "-" "-") with true. cbv iota.
  change (c :: list_ascii_of_string r) with (list_ascii_of_string (String c r)).
  by rewrite string_of_list_ascii_of_string, (ungroup_digits_nonempty c r H).
Qed.

(** The decimal text of a positive number: digits, not empty, read back
    as the number. *)
Lemma text_of_pos p :
  exists c r, NilZero.string_of_uint (Pos.to_uint p) = String c r /\
              digit_string (String c r) /\
              Z.of_uint <$> NilZero.uint_of_string (String c r) = Some (Z.pos p).
Proof.
  pose proof (DecimalPos.Unsigned.to_uint_nonnil p) as Hnn.
  pose proof (of_to (Z.pos p)) as Hz. simpl in Hz.
  assert (NilZero.string_of_uint (Pos.to_uint p)
          = NilEmpty.string_of_uint (Pos.to_uint p)) as Heq
    by (by destruct (Pos.to_uint p)).
  pose proof (digits_of_uint (Pos.to_uint p)) as Hd.
  pose proof (NilZero.usu _ Hnn) as Hu. rewrite Heq in *.
  destruct (NilEmpty.string_of_uint (Pos.to_uint p)) as [|c r] eqn:E.
  - by destruct (Pos.to_uint p).
  - exists c, r. split; [done|]. split; [done|]. rewrite Hu. simpl. by rewrite Hz.
Qed.

(** [int(str(z)) == z], unless [str(z)] has more digits than [int]
    converts. *)
Lemma py_int_str_of_int_cases z :
  py_int (str_of_int z) = Some z \/
  py_int (str_of_int z) = None /\
  (int_max_str_digits < String.length (str_of_int z))%nat.
Proof.
  unfold str_of_int. destruct z as [|p|p]; simpl Z.to_int.
  - by left.
  - simpl NilZero.string_of_int.
    destruct (text_of_pos p) as (c & r & -> & Hd & Hv).
    unfold py_int. rewrite (int_literal_digits c r Hd).
    destruct (int_max_str_digits <? String.length (String c r))%nat eqn:El.
    + right. split; [done|]. by apply Nat.ltb_lt.
    + left. destruct (NilZero.uint_of_string (String c r)); [|done].
      cbn in Hv. injection Hv as Hv. cbn. by rewrite Hv.
  - simpl NilZero.string_of_int.
    destruct (text_of_pos p) as (c & r & -> & Hd & Hv).
    unfold py_int. rewrite (int_literal_negative c r Hd).
    destruct (int_max_str_digits <? String.length (String c r))%nat eqn:El.
    + right. split; [done|]. apply Nat.ltb_lt in El.
      change (String.length (String "-" (String c r))) with (S (String.length (String c r))).
      lia.
    + left. destruct (NilZero.uint_of_string (String c r)); [|done].
      cbn in Hv. injection Hv as Hv. cbn. by rewrite Hv.
Qed.

Lemma py_int_str_of_int z :
  (String.length (str_of_int z) <= int_max_str_digits)%nat ->
  py_int (str_of_int z) = Some z.
Proof. intros H. destruct (py_int_str_of_int_cases z) as [|[_ ?]]; [done|lia]. Qed.


End TextFacts.

(** ** [json.loads] never runs out of fuel *)

Module JsonFacts.
Import Text Py Json.

Local Abbreviation len := String.length.

Lemma skip_ws_length s : (len (skip_ws s) <= len s)%nat.
Proof.
  induction s as [|c r IH]; simpl; [lia|].
  destruct (is_json_ws c); simpl; lia.
Qed.

Lemma strip_prefix_length p : forall s r,
  strip_prefix p s = Some r -> len s = (len p + len r)%nat.
Proof.
  induction p as [|a p IH]; intros s r; simpl.
  - by intros [= ->].
  - destruct s as [|b s]; [done|]. destruct (Ascii.eqb a b); [|done].
    intros H%IH. simpl. lia.
Qed.

Lemma span_digits_length s : (len (span_digits s).2 <= len s)%nat.
Proof.
  induction s as [|c r IH]; simpl; [lia|].
  destruct (is_digit c); simpl; [|lia].
  destruct (span_digits r); simpl in *. lia.
Qed.

Lemma scan_frac_length s : (len (scan_frac s).2 <= len s)%nat.
Proof.
  unfold scan_frac. destruct s as [|c r]; [simpl; lia|].
  destruct (Ascii.eqb c "."); [|simpl; lia].
  pose proof (span_digits_length r).
  destruct (span_digits r) as [[|] ?]; simpl in *; lia.
Qed.

Lemma scan_exp_length s : (len (scan_exp s).2 <= len s)%nat.
Proof.
  unfold scan_exp. destruct s as [|c r]; [simpl; lia|].
  destruct (Ascii.eqb c "e" || Ascii.eqb c "E"); [|simpl; lia].
  destruct r as [|c' t].
  - simpl. lia.
  - pose proof (span_digits_length t). pose proof (span_digits_length (String c' t)).
    destruct (Ascii.eqb c' "-"); [|destruct (Ascii.eqb c' "+")];
      match goal with |- context [span_digits ?x] => destruct (span_digits x) as [[|] ?] end;
      simpl in *; lia.
Qed.

Lemma span_digits_digit c r :
  is_digit c = true -> (len (span_digits (String c r)).2 <= len r)%nat.
Proof.
  intros H. simpl. rewrite H. pose proof (span_digits_length r).
  by destruct (span_digits r).
Qed.

Lemma scan_unsigned_shrinks lim neg s v rest :
  scan_unsigned lim neg s = Ok v rest -> (len rest < len s)%nat.
Proof.
  unfold scan_unsigned. destruct s as [|c r]; [done|].
  destruct (is_digit c) eqn:Ec; [|done].
  assert (forall i r0,
            (if Ascii.eqb c "0" then (String c EmptyString, r) else span_digits (String c r))
            = (i, r0) -> (len r0 <= len r)%nat) as Hi.
  { intros i r0. destruct (Ascii.eqb c "0"); [by intros [= _ <-]|].
    intros E. pose proof (span_digits_digit c r Ec) as H. by rewrite E in H. }
  destruct (if Ascii.eqb c "0" then _ else _) as [i r0]. specialize (Hi i r0 eq_refl).
  pose proof (scan_frac_length r0) as H1. destruct (scan_frac r0) as [fr r1].
  pose proof (scan_exp_length r1) as H2. destruct (scan_exp r1) as [ex r2].
  cbn [snd] in *.
  destruct fr, ex; try (intros [= _ <-]; simpl; lia).
  destruct (_ && _); [done|]. intros [= _ <-]. simpl. lia.
Qed.

Lemma scan_number_shrinks lim s v rest :
  scan_number lim s = Ok v rest -> (len rest < len s)%nat.
Proof.
  unfold scan_number. destruct s as [|c r]; [done|].
  destruct (Ascii.eqb c "-"); intros H%scan_unsigned_shrinks; simpl in *; lia.
Qed.

Lemma scan_unsigned_fueled lim neg s : scan_unsigned lim neg s <> Fuel.
Proof.
  unfold scan_unsigned. destruct s as [|c r]; [done|].
  destruct (is_digit c); [|done].
  destruct (if Ascii.eqb c "0" then _ else _) as [i r0].
  destruct (scan_frac r0) as [fr r1]. destruct (scan_exp r1) as [ex r2].
  destruct fr, ex; try done. by destruct (_ && _).
Qed.

Lemma scan_number_fueled lim s : scan_number lim s <> Fuel.
Proof.
  unfold scan_number. destruct s as [|c r]; [done|].
  destruct (Ascii.eqb c "-"); apply scan_unsigned_fueled.
Qed.

Lemma scan_word_shrinks w v s x rest :
  w <> EmptyString -> scan_word w v s = Ok x rest -> (len rest < len s)%nat.
Proof.
  intros Hw. unfold scan_word. destruct (strip_prefix w s) as [r|] eqn:E; [|done].
  intros [= _ <-]. apply strip_prefix_length in E. destruct w; [done|]. simpl in E. lia.
Qed.

Lemma scan_word_fueled w v s : scan_word w v s <> Fuel.
Proof. unfold scan_word. by destruct (strip_prefix w s). Qed.

Lemma scan_constant_shrinks s x rest :
  scan_constant s = Ok x rest -> (len rest < len s)%nat.
Proof.
  unfold scan_constant.
  destruct (strip_prefix "NaN" s) as [r|] eqn:E1;
    [intros [= _ <-]; apply strip_prefix_length in E1; simpl in E1; lia|].
  destruct (strip_prefix "Infinity" s) as [r|] eqn:E2;
    [intros [= _ <-]; apply strip_prefix_length in E2; simpl in E2; lia|].
  destruct (strip_prefix "-Infinity" s) as [r|] eqn:E3;
    [intros [= _ <-]; apply strip_prefix_length in E3; simpl in E3; lia|done].
Qed.

Lemma scan_constant_fueled s : scan_constant s <> Fuel.
Proof.
  unfold scan_constant.
  by destruct (strip_prefix "NaN" s), (strip_prefix "Infinity" s),
       (strip_prefix "-Infinity" s).
Qed.

Lemma scan_string_shrinks s : forall m hi acc x rest,
  scan_string m hi acc s = Ok x rest -> (len rest < len s)%nat.
Proof.
  induction s as [|c r IH]; intros m hi acc x rest H; [done|].
  cbn [scan_string] in H. cbv zeta in H.
  repeat case_match; simplify_eq; simpl; try lia;
    match goal with H : scan_string _ _ _ r = Ok _ _ |- _ => apply IH in H; lia end.
Qed.

Lemma scan_string_fueled s : forall m hi acc, scan_string m hi acc s <> Fuel.
Proof.
  induction s as [|c r IH]; intros m hi acc; [done|].
  cbn [scan_string]. cbv zeta.
  repeat case_match; simplify_eq; try done; apply IH.
Qed.

(** Facts on lengths that follow from the equations at hand. *)
Ltac lengths :=
  repeat match goal with
    | H : skip_ws ?r = _ |- _ =>
        let L := fresh "L" in
        pose proof (skip_ws_length r) as L; rewrite H in L; clear H
    | H : scan_string _ _ _ _ = Ok _ _ |- _ => apply scan_string_shrinks in H
    | H : scan_word _ _ _ = Ok _ _ |- _ => apply scan_word_shrinks in H; [|done]
    | H : scan_number _ _ = Ok _ _ |- _ => apply scan_number_shrinks in H
    | H : scan_constant _ = Ok _ _ |- _ => apply scan_constant_shrinks in H
    end;
  simpl in *.

(** A scanner that succeeds has consumed something. *)
Lemma scan_shrinks lim fuel :
  (forall d s v rest, scan_once lim fuel d s = Ok v rest -> (len rest < len s)%nat) /\
  (forall d acc s l rest, scan_items lim fuel d acc s = Ok l rest -> (len rest < len s)%nat) /\
  (forall d acc s l rest, scan_pairs lim fuel d acc s = Ok l rest -> (len rest < len s)%nat).
Proof.
  induction fuel as [|fuel (IH1 & IH2 & IH3)]; [by repeat split|].
  split; [|split].
  - intros d s v rest H. cbn [scan_once] in H.
    repeat case_match; simplify_eq;
      try match goal with H : scan_pairs _ _ _ _ _ = Ok _ _ |- _ => apply IH3 in H end;
      try match goal with H : scan_items _ _ _ _ _ = Ok _ _ |- _ => apply IH2 in H end;
      lengths; lia.
  - intros d acc s l rest H. cbn [scan_items] in H.
    repeat case_match; simplify_eq;
      try match goal with H : scan_items _ _ _ _ _ = Ok _ _ |- _ => apply IH2 in H end;
      try match goal with H : scan_once _ _ _ _ = Ok _ _ |- _ => apply IH1 in H end;
      pose proof (skip_ws_length) as Lws;
      lengths;
      try match goal with H : (_ < len (skip_ws ?x))%nat |- _ => specialize (Lws x) end;
      lia.
  - intros d acc s l rest H. cbn [scan_pairs] in H.
    repeat case_match; simplify_eq;
      try match goal with H : scan_pairs _ _ _ _ _ = Ok _ _ |- _ => apply IH3 in H end;
      try match goal with H : scan_once _ _ _ (skip_ws ?x) = Ok _ _ |- _ =>
            apply IH1 in H; pose proof (skip_ws_length x) end;
      lengths; lia.
Qed.

(** Twice the length of the text, and a little, is fuel enough. *)
Lemma scan_fueled lim fuel :
  (forall d s, (2 * len s < fuel)%nat -> scan_once lim fuel d s <> Fuel) /\
  (forall d acc s, (2 * len s + 1 < fuel)%nat -> scan_items lim fuel d acc s <> Fuel) /\
  (forall d acc s, (2 * len s + 1 < fuel)%nat -> scan_pairs lim fuel d acc s <> Fuel).
Proof.
  induction fuel as [|fuel (IH1 & IH2 & IH3)]; [repeat split; intros; lia|].
  destruct (scan_shrinks lim fuel) as (S1 & S2 & S3).
  split; [|split].
  - intros d s Hs H. cbn [scan_once] in H.
    repeat case_match; simplify_eq;
      try (by eapply scan_string_fueled);
      try (by eapply scan_word_fueled);
      try (by eapply scan_constant_fueled);
      try (by eapply scan_number_fueled).
    + match goal with H : scan_pairs _ _ _ _ ?x = Fuel |- _ =>
        apply (IH3 _ _ x) in H; [done|] end.
      lengths. lia.
    + match goal with H : scan_items _ _ _ _ ?x = Fuel |- _ =>
        apply (IH2 _ _ x) in H; [done|] end.
      lengths. lia.
  - intros d acc s Hs H. cbn [scan_items] in H.
    repeat case_match; simplify_eq.
    + match goal with H : scan_items _ _ _ _ (skip_ws ?x) = Fuel |- _ =>
        apply (IH2 _ _ (skip_ws x)) in H; [done|]; pose proof (skip_ws_length x) end.
      match goal with H : scan_once _ _ _ _ = Ok _ _ |- _ => apply S1 in H end.
      lengths. lia.
    + match goal with H : scan_once _ _ _ ?x = Fuel |- _ => apply (IH1 _ x) in H; [done|] end.
      lia.
  - intros d acc s Hs H. cbn [scan_pairs] in H.
    repeat case_match; simplify_eq.
    + match goal with H : scan_pairs _ _ _ _ ?x = Fuel |- _ =>
        apply (IH3 _ _ x) in H; [done|] end.
      match goal with H : scan_once _ _ _ (skip_ws ?x) = Ok _ _ |- _ =>
        apply S1 in H; pose proof (skip_ws_length x) end.
      lengths. lia.
    + match goal with H : scan_once _ _ _ (skip_ws ?x) = Fuel |- _ =>
        apply (IH1 _ (skip_ws x)) in H; [done|]; pose proof (skip_ws_length x) end.
      lengths. lia.
    + by eapply scan_string_fueled.
Qed.

(** [json_loads] never answers for want of fuel. *)
Lemma json_loads_fueled lim s :
  scan_once lim (fuel_for s) (max_depth lim) (skip_ws s) <> Fuel.
Proof.
  apply (scan_fueled lim (fuel_for s)). unfold fuel_for.
  pose proof (skip_ws_length s). lia.
Qed.

End JsonFacts.

(** ** The grading loop *)

Module GraderFacts.
Import Text TextFacts Py Json Locator Grader Notions.

Lemma update_some h student f st c :
  summary st !! student = Some c ->
  update h student f st = Done (State (rows st) (<[student := f c]> (summary st)) (launches st)).
Proof. intros H. unfold update. by rewrite H. Qed.

Lemma update_none h student f st :
  summary st !! student = None ->
  update h student f st
  = Raised (Exc "KeyError" (repr_str (rendering_of h) student) (frames h OnSummary)) st.
Proof. intros H. unfold update. by rewrite H. Qed.

Lemma update_twice h student f g st c :
  summary st !! student = Some c ->
  bind (update h student f st) (update h student g)
  = Done (State (rows st) (<[student := g (f c)]> (summary st)) (launches st)).
Proof.
  intros H. rewrite (update_some _ _ _ _ c H). simpl.
  erewrite update_some by (simpl; apply lookup_insert_eq).
  simpl. by rewrite insert_insert_eq.
Qed.


Lemma balanced_counted c c' : balanced c -> counted c c' -> balanced c'.
Proof. unfold balanced. intros H [-> | ->]; simpl; lia. Qed.

Lemma all_balanced_step student st st' :
  all_balanced st -> counted_step student st st' -> all_balanced st'.
Proof.
  intros Hb [Hs | (c & c' & Hc & Hcc & Hs)] s d; rewrite Hs; [apply Hb|].
  destruct (decide (student = s)) as [<- | Hne].
  - rewrite lookup_insert_eq. intros [= <-]. eapply balanced_counted; eauto.
  - rewrite lookup_insert_ne by done. apply Hb.
Qed.

(** The handler of a timeout counts one failure. *)
Lemma record_timeout_some h ar student t st c :
  summary st !! student = Some c ->
  record_timeout h ar student t st
  = Done (State (rows st ++ [[VStr student; VStr t; VInt 0; VStr (timeout_message h ar)]])
            (<[student := Counts (total c + 1) (passed c) (failed c + 1) (missing c)]> (summary st))
            (launches st)).
Proof.
  intros H. unfold record_timeout.
  by rewrite (update_twice _ _ _ _ _ c) by done.
Qed.

Lemma record_timeout_none h ar student t st :
  summary st !! student = None ->
  summary (state_of (record_timeout h ar student t st)) = summary st.
Proof. intros H. unfold record_timeout, update. simpl. by rewrite H. Qed.

(** What the body after a completed child can do to the state. *)
Lemma record_completed_cases a h student t stdout stderr rc st :
  let r := record_completed a h student t stdout stderr rc st in
  (exists e, r = Raised e st) \/
  (exists row, launches (state_of r) = launches st /\
               rows (state_of r) = rows st ++ [row] /\
               ((summary st !! student = None /\ summary (state_of r) = summary st) \/
                exists c c', summary st !! student = Some c /\ counted c c' /\
                  summary (state_of r) = <[student := c']> (summary st))).
Proof.
  intros r. subst r. unfold record_completed.
  destruct (read_data _ _ _) as [e|[| | | | | | |items]]; try (left; eauto; fail).
  destruct (full_message _ _ _ _ _) as [e|m]; [left; eauto|].
  destruct (encodable m); [|left; eauto].
  right.
  destruct (summary st !! student) as [c|] eqn:Hc.
  - erewrite update_some by (simpl; exact Hc). simpl.
    erewrite !update_some by (simpl; apply lookup_insert_eq). simpl.
    destruct (truthy _).
    + eexists. simpl. do 2 (split; [reflexivity|]). right.
      exists c, (add_passed (add_total c)).
      split; [done|]. split; [by left|]. by rewrite insert_insert_eq.
    + eexists. split; [|split]; [| |right; exists c, (add_failed (add_total c));
        split; [done|]; split; [by right|]];
        destruct (log_failure _ _ _ _ _ _); simpl; try reflexivity;
        by rewrite insert_insert_eq.
  - erewrite update_none by (simpl; exact Hc). simpl.
    eexists. do 2 (split; [reflexivity|]). by left.
Qed.


(** One iteration over a test, for a student who has an entry: nothing is
    recorded (an exception came first), or one row is written and one result
    counted. *)
Lemma grade_test_records a ar h student path idx t st c :
  summary st !! student = Some c ->
  let st' := state_of (grade_test a ar h student path idx t st) in
  (rows st' = rows st /\ summary st' = summary st) \/
  (exists row c', rows st' = rows st ++ [row] /\ counted c c' /\
                  summary st' = <[student := c']> (summary st)).
Proof.
  intros Hc. cbv zeta. unfold grade_test.
  destruct (child h _ _) as [out err rc| |e]; [| |by left].
  - match goal with |- context [record_completed ?a ?h ?s ?t ?o ?e ?r ?st0] =>
      destruct (record_completed_cases a h s t o e r st0)
        as [[e' ->] | (row & _ & Hr & [[Hn _] | (c0 & c' & Hc0 & Hcc & Hs)])] end.
    + by left.
    + simpl in Hn. by rewrite Hc in Hn.
    + simpl in Hc0. rewrite Hc in Hc0. injection Hc0 as <-.
      right. exists row, c'. by rewrite Hr, Hs.
  - erewrite record_timeout_some by (simpl; exact Hc). right.
    eexists _, (Counts (total c + 1) (passed c) (failed c + 1) (missing c)).
    split; [reflexivity|]. split; [by right|done].
Qed.

(** One iteration over a test counts at most one result, for its student. *)
Lemma grade_test_step a ar h student path idx t st :
  counted_step student st (state_of (grade_test a ar h student path idx t st)).
Proof.
  unfold grade_test. destruct (child h _ _) as [out err rc| |e]; [| |by left].
  - match goal with |- context [record_completed ?a ?h ?s ?t ?o ?e ?r ?st0] =>
      destruct (record_completed_cases a h s t o e r st0)
        as [[e' ->] | (row & _ & _ & [[_ Hs] | (c & c' & Hc & Hcc & Hs)])] end.
    + by left.
    + left. by rewrite Hs.
    + right. exists c, c'. by rewrite Hs.
  - destruct (summary st !! student) as [c|] eqn:Hc.
    + erewrite record_timeout_some by (simpl; exact Hc). right.
      exists c, (Counts (total c + 1) (passed c) (failed c + 1) (missing c)).
      split; [done|]. split; [by right|done].
    + left. by rewrite record_timeout_none.
Qed.

Lemma grade_test_balanced a ar h student path idx t st :
  all_balanced st -> all_balanced (state_of (grade_test a ar h student path idx t st)).
Proof. intros H. eapply all_balanced_step; [exact H|apply grade_test_step]. Qed.

Lemma grade_tests_balanced a ar h student path names : forall idx st,
  all_balanced st -> all_balanced (state_of (grade_tests a ar h student path idx names st)).
Proof.
  induction names as [|t rest IH]; intros idx st H; simpl; [done|].
  pose proof (grade_test_balanced a ar h student path idx t st H) as H1.
  destruct (grade_test a ar h student path idx t st) as [st1|e st1]; simpl in *; [|done].
  by apply IH.
Qed.

(** A student without a module: one row and one failure for each test. *)
Lemma record_missing_some a h student names : forall st c,
  summary st !! student = Some c ->
  record_missing a h student names st
  = Done (State (rows st ++ (missing_row a student <$> names))
            (<[student := add_failures (Z.of_nat (length names)) c]> (summary st))
            (launches st)).
Proof.
  induction names as [|t rest IH]; intros st c Hc.
  - simpl. rewrite app_nil_r. destruct st as [r m l], c as [x y z w]. simpl in *.
    unfold add_failures. simpl. rewrite !Z.add_0_r. by rewrite insert_id.
  - cbn [record_missing]. rewrite (update_twice _ _ _ _ _ c) by done.
    cbn [bind].
    rewrite (IH _ (add_failed (add_total c))) by (simpl; apply lookup_insert_eq).
    unfold writerow. cbn [rows summary launches].
    rewrite insert_insert_eq, <- app_assoc.
    f_equal. f_equal. f_equal.
    unfold add_failures, add_failed, add_total. cbn [total passed failed missing].
    cbn [length]. f_equal; lia.
Qed.

Lemma record_missing_none a h student names st :
  summary st !! student = None ->
  summary (state_of (record_missing a h student names st)) = summary st.
Proof.
  intros Hc. destruct names as [|t rest]; [done|].
  cbn [record_missing]. by erewrite update_none by (simpl; exact Hc).
Qed.

Lemma add_failures_balanced n c : balanced c -> balanced (add_failures n c).
Proof. unfold balanced, add_failures. simpl. lia. Qed.

Lemma all_balanced_insert student c (m : gmap string counts) :
  (forall s d, m !! s = Some d -> balanced d) -> balanced c ->
  forall s d, <[student := c]> m !! s = Some d -> balanced d.
Proof.
  intros Hb Hc s d. destruct (decide (student = s)) as [<- | Hne].
  - rewrite lookup_insert_eq. by intros [= <-].
  - rewrite lookup_insert_ne by done. apply Hb.
Qed.

Lemma setdefault_balanced student st :
  all_balanced st -> all_balanced (setdefault student st).
Proof.
  intros Hb. unfold setdefault. destruct (summary st !! student) eqn:E; [done|].
  intros s d. simpl. by apply all_balanced_insert.
Qed.

Lemma grade_student_balanced a ar h names student entries st :
  all_balanced st ->
  all_balanced (state_of (grade_student a ar h names student entries st)).
Proof.
  intros Hb%(setdefault_balanced student). unfold grade_student.
  destruct (locate _ _ _); [by apply grade_tests_balanced|].
  destruct (summary (setdefault student st) !! student) as [c|] eqn:Hc.
  - rewrite (record_missing_some _ _ _ _ _ c) by done. cbn [bind].
    erewrite update_some by (simpl; apply lookup_insert_eq). cbn [state_of].
    intros s d. cbn [summary]. rewrite insert_insert_eq.
    apply all_balanced_insert; [exact Hb|].
    specialize (Hb _ _ Hc). unfold balanced, set_missing, add_failures in *. simpl. lia.
  - pose proof (record_missing_none a h student names _ Hc) as Hs.
    destruct (record_missing a h student names (setdefault student st)) as [st1|e st1];
      simpl in *.
    + erewrite update_none by (by rewrite Hs). simpl. intros s d. rewrite Hs. apply Hb.
    + intros s d. rewrite Hs. apply Hb.
Qed.

Lemma grade_students_balanced a ar h names l : forall st,
  all_balanced st -> all_balanced (state_of (grade_students a ar h names l st)).
Proof.
  induction l as [|[student entries] rest IH]; intros st H; simpl; [done|].
  pose proof (grade_student_balanced a ar h names student entries st H) as H1.
  destruct (grade_student a ar h names student entries st) as [st1|e st1]; simpl in *; [|done].
  by apply IH.
Qed.

(** The summary writer never divides by zero. *)
Lemma summary_line_guarded h student c : summary_line h student c = inr (line_of student c).
Proof.
  unfold summary_line, line_of, percent, truediv.
  by destruct (total c =? 0).
Qed.

Lemma summary_lines_guarded h items :
  summary_lines h items = inr ((fun it => line_of it.1 it.2) <$> items).
Proof.
  induction items as [|[student c] rest IH]; simpl; [done|].
  by rewrite summary_line_guarded, IH.
Qed.

Lemma sorted_items_balanced st :
  all_balanced st -> Forall (fun it => balanced it.2) (sorted_items (summary st)).
Proof.
  intros Hb. unfold sorted_items. rewrite merge_sort_Permutation.
  apply Forall_forall. intros [s c] Hin. apply elem_of_map_to_list in Hin. by apply (Hb s).
Qed.

Lemma append_if_text h cond text m :
  append_if h cond text (inr (VStr m))
  = inr (VStr (m +:+ (if cond then text else EmptyString))).
Proof. destruct cond; simpl; [done|]. by rewrite append_nil_r. Qed.

(** The message of a row whose [message] and [error] are texts. *)
Lemma full_message_text h message error err rc :
  full_message h (VStr message) (VStr error) err rc
  = inr (VStr (message +:+ error_section error +:+ exit_note rc
               +:+ (if String.eqb error "" then stderr_section err else EmptyString))).
Proof.
  unfold full_message. rewrite !append_if_text. do 2 f_equal.
  rewrite !append_assoc. unfold error_section, exit_note, stderr_section.
  cbn [truthy py_str].
  destruct (String.eqb error ""), (rc =? 0), (String.eqb err ""); reflexivity.
Qed.

(** Logging a failure whose [message] and [error] are texts raises nothing. *)
Lemma log_failure_text a h t message error err :
  log_failure a h t (VStr message) (VStr error) err = None.
Proof.
  unfold log_failure, log_traceback. cbn [slice_check].
  by destruct (match a with PA3 => _ | PA4 => _ end), (truthy (VStr error)).
Qed.

(** A completed child whose data is an object with a text [message] and a
    text [error]: one row, one result counted, unless the results file
    cannot take the message. *)
Lemma record_completed_text a h student t stdout stderr rc st c items message error :
  summary st !! student = Some c ->
  read_data h (strip stdout) (strip stderr) = inr (VDict items) ->
  dict_get "message" items (VStr EmptyString) = VStr message ->
  dict_get "error" items (VStr EmptyString) = VStr error ->
  let ok := truthy (dict_get "ok" items (VBool false)) in
  let m := row_text message error (strip stderr) rc in
  record_completed a h student t stdout stderr rc st
  = if no_surrogate m
    then Done (State
                 (rows st ++ [[VStr student; VStr t; VInt (int_of_bool ok); VStr m]])
                 (<[student := if ok
                               then Counts (total c + 1) (passed c + 1) (failed c) (missing c)
                               else Counts (total c + 1) (passed c) (failed c + 1) (missing c)]>
                    (summary st))
                 (launches st))
    else Raised (Exc "UnicodeEncodeError"
                   (codec_message h [VStr student; VStr t; VInt (int_of_bool ok); VStr m])
                   (frames h OnWrite)) st.
Proof.
  intros Hc Hd Hm He ok m. unfold record_completed. rewrite Hd, Hm, He.
  rewrite full_message_text, log_failure_text. fold ok. cbn [encodable].
  fold (row_text message error (strip stderr) rc). fold m.
  destruct (no_surrogate m); [|done].
  erewrite update_some by (simpl; exact Hc). cbn [bind].
  destruct ok.
  - erewrite update_some by (simpl; apply lookup_insert_eq).
    unfold writerow. cbn [rows summary launches]. by rewrite insert_insert_eq.
  - erewrite update_some by (simpl; apply lookup_insert_eq). cbn [bind].
    unfold writerow. cbn [rows summary launches]. by rewrite insert_insert_eq.
Qed.

Lemma json_loads_empty lim : json_loads lim "" = NotJson.
Proof. reflexivity. Qed.

(** Grading one student leaves the entries of the others alone. *)
Lemma counted_step_frame student st st' s :
  s <> student -> counted_step student st st' -> summary st' !! s = summary st !! s.
Proof.
  intros Hne [-> | (c & c' & _ & _ & ->)]; [done|]. by rewrite lookup_insert_ne.
Qed.

Lemma grade_tests_frame a ar h student path names s : forall idx st,
  s <> student ->
  summary (state_of (grade_tests a ar h student path idx names st)) !! s = summary st !! s.
Proof.
  induction names as [|t rest IH]; intros idx st Hne; [done|]. cbn [grade_tests].
  pose proof (counted_step_frame _ _ _ s Hne (grade_test_step a ar h student path idx t st)) as H1.
  destruct (grade_test a ar h student path idx t st) as [st1|e st1]; cbn [bind state_of] in *;
    [|done].
  by rewrite IH.
Qed.

Lemma update_frame h student f st s :
  s <> student -> summary (state_of (update h student f st)) !! s = summary st !! s.
Proof.
  intros Hne. unfold update. destruct (summary st !! student); [|done].
  simpl. by rewrite lookup_insert_ne.
Qed.

Lemma record_missing_frame a h student names s : forall st,
  s <> student ->
  summary (state_of (record_missing a h student names st)) !! s = summary st !! s.
Proof.
  intros st Hne. destruct (summary st !! student) as [c|] eqn:Hc.
  - rewrite (record_missing_some _ _ _ _ _ c Hc). simpl. by rewrite lookup_insert_ne.
  - by rewrite record_missing_none.
Qed.

Lemma grade_student_frame a ar h names student entries st s :
  s <> student ->
  summary (state_of (grade_student a ar h names student entries st)) !! s = summary st !! s.
Proof.
  intros Hne. unfold grade_student.
  assert (summary (setdefault student st) !! s = summary st !! s) as Hd.
  { unfold setdefault. destruct (summary st !! student); [done|].
    simpl. by rewrite lookup_insert_ne. }
  destruct (locate _ _ _); [by rewrite grade_tests_frame|].
  pose proof (record_missing_frame a h student names s (setdefault student st) Hne) as Hm.
  destruct (record_missing _ _ _ _ _) as [st1|e st1]; cbn [bind state_of] in *.
  - by rewrite update_frame, Hm.
  - by rewrite Hm.
Qed.

Lemma grade_students_frame a ar h names l s : forall st,
  s ∉ l.*1 ->
  summary (state_of (grade_students a ar h names l st)) !! s = summary st !! s.
Proof.
  induction l as [|[student entries] rest IH]; intros st Hs; [done|].
  cbn [grade_students]. rewrite fmap_cons, not_elem_of_cons in Hs. destruct Hs as [Hne Hs].
  pose proof (grade_student_frame a ar h names student entries st s Hne) as H1.
  destruct (grade_student _ _ _ _ _ _ _) as [st1|e st1]; cbn [bind state_of] in *; [|done].
  by rewrite IH.
Qed.

(** C4: a student whose module is not found anywhere gets, without any
    child being launched, one failing row per test; the missing flag is set
    and both the total and the failed count are the number of tests; the
    grading of the other students does not touch the entry. *)
Theorem missing_module_short_circuit a ar h names student entries st :
  locate a (path_join (submissions_dir ar) student) entries = None ->
  summary st !! student = None ->
  grade_student a ar h names student entries st
  = Done (State (rows st ++ (missing_row a student <$> names))
            (<[student := Counts (Z.of_nat (length names)) 0 (Z.of_nat (length names)) 1]>
               (summary st))
            (launches st)) /\
  forall others st',
    student ∉ others.*1 ->
    summary (state_of (grade_students a ar h names others st')) !! student
    = summary st' !! student.
Proof.
  intros Hl Hs. split; [|intros; by apply grade_students_frame].
  unfold grade_student, setdefault. rewrite Hl, Hs.
  rewrite (record_missing_some _ _ _ _ _ (Counts 0 0 0 0))
    by (simpl; apply lookup_insert_eq).
  cbn [bind rows summary launches].
  erewrite update_some by (simpl; apply lookup_insert_eq).
  cbn [rows summary launches]. by rewrite !insert_insert_eq.
Qed.

Lemma missing_module_short_circuit_witness :
  grade_student PA3 Samples.args0 (Samples.host0 [] TimedOut) ["test_1.py"; "test_2.py"]
    "bob" [("notes.txt", File)] (State [results_header] ∅ [])
  = Done (State ([results_header] ++ (missing_row PA3 "bob" <$> ["test_1.py"; "test_2.py"]))
            (<[ "bob" := Counts 2 0 2 1 ]> ∅) []).
Proof.
  apply (missing_module_short_circuit PA3 Samples.args0 (Samples.host0 [] TimedOut)
           ["test_1.py"; "test_2.py"] "bob" [("notes.txt", File)] (State [results_header] ∅ []));
    reflexivity.
Defined.

(** C5 (as the driver does it): when the time allowed runs out, the row
    of the test has passed = 0 and the message "Test timed out after N
    seconds"; one failure is counted, and the loop goes on with the next
    test. *)
Theorem timeout_is_recorded a ar h student path idx t rest st c :
  summary st !! student = Some c ->
  child h (length (launches st)) (command ar h path t idx) = TimedOut ->
  let st' :=
    State (rows st ++ [[VStr student; VStr t; VInt 0;
                        VStr ("Test timed out after "
                              +:+ repr_float (rendering_of h) (timeout ar) +:+ " seconds")]])
          (<[student := Counts (total c + 1) (passed c) (failed c + 1) (missing c)]> (summary st))
          (launches st ++ [command ar h path t idx]) in
  grade_test a ar h student path idx t st = Done st' /\
  grade_tests a ar h student path idx (t :: rest) st
  = grade_tests a ar h student path (S idx) rest st'.
Proof.
  intros Hc Ht st'.
  assert (grade_test a ar h student path idx t st = Done st') as H.
  { unfold grade_test. rewrite Ht. by rewrite (record_timeout_some _ _ _ _ _ c). }
  split; [done|]. cbn [grade_tests]. by rewrite H.
Qed.

Lemma timeout_is_recorded_witness :
  grade_tests PA3 Samples.args0 (Samples.host0 Samples.alice TimedOut) "alice"
    "downloads/PA3/alice/pa3.py" 0 ["test_1.py"; "test_2.py"] (Samples.fresh "alice")
  = grade_tests PA3 Samples.args0 (Samples.host0 Samples.alice TimedOut) "alice"
      "downloads/PA3/alice/pa3.py" 1 ["test_2.py"]
      (State [[VStr "alice"; VStr "test_1.py"; VInt 0;
               VStr "Test timed out after 20.0 seconds"]]
             (<[ "alice" := Counts 1 0 1 0 ]> {[ "alice" := Counts 0 0 0 0 ]})
             [command Samples.args0 (Samples.host0 Samples.alice TimedOut)
                "downloads/PA3/alice/pa3.py" "test_1.py" 0]).
Proof.
  apply (timeout_is_recorded PA3 Samples.args0 (Samples.host0 Samples.alice TimedOut) "alice"
           "downloads/PA3/alice/pa3.py" 0 "test_1.py" ["test_2.py"] (Samples.fresh "alice")
           (Counts 0 0 0 0)); reflexivity.
Defined.

(** C3 (as the driver does it): a child whose output, stripped, the
    decoder rejects as no JSON (and so one without output) gets one failing
    row.  For an empty output the message is the exit note and the whole
    standard error text; otherwise it is "Invalid JSON output" with the
    first 500 characters of both channels.  The only way out is a message
    that the results file cannot take, which ends the run before any row is
    written; the texts of a child, decoded from its pipes, hold no
    surrogate. *)
Theorem unparsable_output_is_recorded a h student t stdout stderr rc st c :
  summary st !! student = Some c ->
  json_loads (decoder h) (strip stdout) = NotJson ->
  let m :=
    if String.eqb (strip stdout) ""
    then exit_note rc +:+ stderr_section (strip stderr)
    else "Invalid JSON output"
         +:+ error_section ("STDOUT: " +:+ py_prefix 500 (strip stdout)
                            +:+ newline +:+ "STDERR: "
                            +:+ py_prefix 500 (strip stderr))
         +:+ exit_note rc in
  let row := [VStr student; VStr t; VInt 0; VStr m] in
  record_completed a h student t stdout stderr rc st
  = if no_surrogate m
    then Done (State (rows st ++ [row])
                 (<[student := Counts (total c + 1) (passed c) (failed c + 1) (missing c)]>
                    (summary st))
                 (launches st))
    else Raised (Exc "UnicodeEncodeError" (codec_message h row) (frames h OnWrite)) st.
Proof.
  intros Hc Hj. cbv zeta.
  destruct (String.eqb (strip stdout) "") eqn:E.
  - rewrite (record_completed_text a h student t stdout stderr rc st c [] "" "");
      [reflexivity|done| |done|done].
    unfold read_data. by rewrite E.
  - set (detail := "STDOUT: " +:+ py_prefix 500 (strip stdout) +:+ newline
                   +:+ "STDERR: " +:+ py_prefix 500 (strip stderr)).
    rewrite (record_completed_text a h student t stdout stderr rc st c
               [("ok", VBool false); ("message", VStr "Invalid JSON output");
                ("error", VStr detail)]
               "Invalid JSON output" detail);
      [|done| |reflexivity|reflexivity].
    2:{ unfold read_data. rewrite E, Hj. reflexivity. }
    unfold row_text. change (String.eqb detail "") with false.
    cbn [dict_get String.eqb Ascii.eqb Bool.eqb truthy int_of_bool].
    by rewrite append_nil_r.
Qed.

Lemma unparsable_output_is_recorded_witness :
  record_completed PA3 (Samples.host0 Samples.alice TimedOut) "alice" "test_1.py"
    "Segmentation fault" "core dumped" 139 (Samples.fresh "alice")
  = Done (State
            [[VStr "alice"; VStr "test_1.py"; VInt 0;
              VStr ("Invalid JSON output"
                    +:+ error_section ("STDOUT: Segmentation fault" +:+ newline
                                       +:+ "STDERR: core dumped")
                    +:+ exit_note 139)]]
            (<[ "alice" := Counts 1 0 1 0 ]> {[ "alice" := Counts 0 0 0 0 ]})
            []).
Proof.
  apply (unparsable_output_is_recorded PA3 (Samples.host0 Samples.alice TimedOut) "alice"
           "test_1.py" "Segmentation fault" "core dumped" 139 (Samples.fresh "alice")
           (Counts 0 0 0 0)); reflexivity.
Defined.

(** Output longer than 500 characters is cut: the row does not carry it. *)
Lemma long_output_is_cut :
  ~ carries_raw_text PA3 (Samples.host0 Samples.alice TimedOut) "alice" "test_1.py"
      (Samples.repeat_char "x" 501) "" 0 (Samples.fresh "alice").
Proof.
  intros (st' & m & Hr & Hl & Hout & _).
  vm_compute in Hr. injection Hr as <-.
  vm_compute in Hl. injection Hl as <-.
  vm_compute in Hout. discriminate Hout.
Qed.

(** The message of a timeout is another text. *)
Lemma timeout_message_differs :
  ~ records_worded_timeout PA3 Samples.args0 (Samples.host0 Samples.alice TimedOut)
      "alice" "downloads/PA3/alice/pa3.py" 0 "test_1.py" (Samples.fresh "alice").
Proof.
  intros (st' & n & Hr & Hl).
  vm_compute in Hr. injection Hr as <-.
  vm_compute in Hl. discriminate Hl.
Qed.

(** Output that is JSON but no object: the driver raises where it reads
    [ok], before any row is written. *)
Lemma non_object_raises a h student t stdout stderr rc st v :
  json_loads (decoder h) (strip stdout) = Decoded v ->
  (forall items, v <> VDict items) ->
  record_completed a h student t stdout stderr rc st
  = Raised (Exc "AttributeError"
              ("'" +:+ type_name v +:+ "' object has no attribute 'get'")
              (frames h OnGet)) st.
Proof.
  intros Hj Hv.
  assert (strip stdout <> "") as Hne by (intros E; rewrite E in Hj; discriminate Hj).
  apply String.eqb_neq in Hne.
  unfold record_completed, read_data. rewrite Hne, Hj.
  destruct v; try reflexivity. by destruct (Hv items).
Qed.



(** C10: every step of the grading loop keeps total = passed + failed in
    every entry of the summary: a test that is recorded, be it after a
    completed child or a timeout, adds one to the total and one to either
    passed or failed; a missing module adds one failure per test.  The
    summary writer guards its division: the percentage is 0 when the total
    is 0, else passed / total * 100, and every row it writes has
    total = passed + failed. *)
Theorem counts_stay_balanced a ar h :
  (forall student path idx t st c,
     summary st !! student = Some c ->
     let st' := state_of (grade_test a ar h student path idx t st) in
     (rows st' = rows st /\ summary st' = summary st) \/
     (exists row c', rows st' = rows st ++ [row] /\ counted c c' /\
                     summary st' = <[student := c']> (summary st))) /\
  (forall student names st c,
     summary st !! student = Some c ->
     exists st', record_missing a h student names st = Done st' /\
       summary st' = <[student := add_failures (Z.of_nat (length names)) c]> (summary st)) /\
  (forall names l st,
     all_balanced st -> all_balanced (state_of (grade_students a ar h names l st))) /\
  (forall items, summary_lines h items = inr ((fun it => line_of it.1 it.2) <$> items)) /\
  (forall lines, summary_file (main a ar h) = Some lines ->
     Forall (fun r => sr_total r = sr_passed r + sr_failed r) lines).
Proof.
  split; [intros; by apply grade_test_records|].
  split; [intros student names st c Hc; eexists; split;
          [by apply record_missing_some|reflexivity]|].
  split; [intros; by apply grade_students_balanced|].
  split; [apply summary_lines_guarded|].
  intros lines. unfold main, system_exit.
  destruct (submissions h) as [subs|]; [|done].
  destruct (tests h) as [ts|]; [|done].
  destruct (find_test_files ts) as [|t names]; [done|].
  pose proof (grade_students_balanced a ar h (t :: names) (students subs)
                (State [results_header] ∅ [])) as Hb.
  destruct (grade_students _ _ _ _ _ _) as [st|e st]; [|done].
  rewrite summary_lines_guarded. cbn [summary_file]. intros [= <-].
  apply Forall_fmap. eapply Forall_impl.
  - apply sorted_items_balanced, Hb. intros s c Hsc. simpl in Hsc.
    by rewrite lookup_empty in Hsc.
  - intros [s c] Hc. exact Hc.
Qed.

(** C1, at a child that prints [[]]: the run stops with an
    [AttributeError]; no row is written for the test and no summary. *)
Lemma non_object_output_stops_the_run :
  main PA3 Samples.args0 (Samples.host0 Samples.alice (Completed "[]" "" 0))
  = Report [results_header] None
      [["python3"; "/tmp/tmpk3v9/runner.py"; "/home/grader/downloads/PA3/alice/pa3.py";
        "/home/grader/tests/pa3/code_tests"; "/home/grader/tests/pa3/code_tests";
        "/home/grader/tests/pa3/code_tests/test_1.py"; "1337"]]
      (Some (Exc "AttributeError" "'list' object has no attribute 'get'" "")).
Proof. vm_compute. reflexivity. Qed.


End GraderFacts.

(** ** The runner *)

Module RunnerFacts.
Import Text Py Runner RunnerNotions.

Lemma printed_wrote text : printed (wrote text) = [].
Proof. unfold wrote. by destruct (String.eqb text ""). Qed.

Lemma printed_exec name path text : printed (Exec name path :: wrote text) = [].
Proof. apply (printed_wrote text). Qed.

Lemma ends_with_print_single v : ends_with_print v [Print v].
Proof. by exists []. Qed.

Lemma ends_with_print_app v p evs :
  printed p = [] -> ends_with_print v evs -> ends_with_print v (p ++ evs).
Proof.
  intros Hp (q & -> & Hq). exists (p ++ q). split; [by rewrite app_assoc|].
  unfold printed in *. by rewrite omap_app, Hp, Hq.
Qed.

Lemma ends_with_print_printed v evs : ends_with_print v evs -> printed evs = [v].
Proof. intros (q & -> & Hq). unfold printed in *. by rewrite omap_app, Hq. Qed.

Lemma ends_with_print_last v evs : ends_with_print v evs -> last evs = Some (Print v).
Proof. intros (q & -> & _). apply last_snoc. Qed.

Lemma load_events_quiet {A} w at_ name path (r : run A) :
  printed (load_module_from_path w at_ name path r).1.1 = [].
Proof.
  unfold load_module_from_path.
  assert (printed (Exec name path :: wrote (output r)) = []) as H
    by apply (printed_wrote (output r)).
  by destruct (result r).
Qed.

Lemma load_result {A} w at_ name path (r : run A) :
  match (load_module_from_path w at_ name path r).1.2 with
  | Returns x => result r = Returns x
  | Raises _ => exists e, result r = Raises e
  | Escapes e => result r = Escapes e
  | Hangs => result r = Hangs
  | Subverts text o => result r = Subverts text o
  end.
Proof. unfold load_module_from_path. destruct (result r); simpl; eauto. Qed.

(** The [try] block around the test prints once when the entry point comes
    back. *)
Lemma run_test_prints_once w t :
  match entry t with Some r => ends r | None => true end = true ->
  exists v, (run_test w t).2 = Returned /\ ends_with_print v (run_test w t).1 /\
            protocol_value v.
Proof.
  unfold run_test, ends. destruct (entry t) as [r|].
  - destruct (result r) as [v|e|e| |tx o]; [| |done|done|done]; intros _.
    + destruct (unpack2 w v) as [e|[res msg]]; eexists; (split; [reflexivity|]);
        (split; [apply (ends_with_print_app _ (Call :: wrote (output r)));
                 [apply (printed_wrote (output r))|apply ends_with_print_single]|]).
      * right. by eexists _, _.
      * left. by eexists _, _.
    + eexists. split; [reflexivity|].
      split; [apply (ends_with_print_app _ (Call :: wrote (output r)));
              [apply (printed_wrote (output r))|apply ends_with_print_single]|].
      right. by eexists _, _.
  - intros _. eexists. split; [reflexivity|]. split; [apply ends_with_print_single|].
    right. by eexists _, _.
Qed.

Lemma dir_events_quiet (c : bool) d : printed (if c then [PathInsert d] else []) = [].
Proof. by destruct c. Qed.

Lemma printed_app evs evs' : printed (evs ++ evs') = printed evs ++ printed evs'.
Proof. apply omap_app. Qed.

Lemma printed_dirs (c c' : bool) d d' :
  printed ((if c then [PathInsert d] else []) ++ (if c' then [PathInsert d'] else [])) = [].
Proof. by destruct c, c'. Qed.

Lemma ends_with_print_failure m e : 
  exists v, Returned = Returned /\ ends_with_print v [Print (failure m e)] /\ protocol_value v.
Proof.
  eexists. split; [reflexivity|]. split; [apply ends_with_print_single|].
  right. by eexists _, _.
Qed.

(** A cooperative runner ends with its one print. *)
Lemma main_ends_with_print a w :
  cooperative w = true ->
  exists v, (main a w).2 = Returned /\ ends_with_print v (main a w).1 /\ protocol_value v.
Proof.
  unfold cooperative, main. destruct (length (argv w) <? 6)%nat.
  { intros _. apply ends_with_print_failure. }
  cbn [orb]. destruct (py_int (arg w 5)) as [seed|]; [|done].
  destruct (path_exists w (arg w 1)); cbn [negb andb orb];
    [|intros _; apply ends_with_print_failure].
  destruct (path_exists w (arg w 4)); cbn [negb andb orb];
    [|intros _; apply ends_with_print_failure].
  unfold loaded_code_ends. intros He. cbv beta zeta.
  pose proof (load_events_quiet w AtLoadStudent (module_name a) (arg w 1) (exec_student w)) as Q1.
  pose proof (load_result w AtLoadStudent (module_name a) (arg w 1) (exec_student w)) as R1.
  destruct (load_module_from_path w AtLoadStudent _ _ _) as [[evs1 r1] text1].
  cbn [fst snd] in Q1, R1.
  destruct r1 as [x|e|e| |tx o]; try (by rewrite R1 in He).
  2:{ eexists. split; [reflexivity|]. split; [|right; by eexists _, _].
      apply ends_with_print_app; [apply printed_dirs|].
      apply ends_with_print_app; [exact Q1|apply ends_with_print_single]. }
  rewrite R1 in He.
  pose proof (load_events_quiet w AtLoadTest (stem (arg w 4)) (arg w 4) (exec_test w)) as Q2.
  pose proof (load_result w AtLoadTest (stem (arg w 4)) (arg w 4) (exec_test w)) as R2.
  destruct (load_module_from_path w AtLoadTest _ _ _) as [[evs2 r2] text2].
  cbn [fst snd] in Q2, R2.
  destruct r2 as [t|e|e| |tx o]; try (by rewrite R2 in He).
  2:{ eexists. split; [reflexivity|]. split; [|right; by eexists _, _].
      apply ends_with_print_app; [apply printed_dirs|].
      apply ends_with_print_app; [exact Q1|].
      apply ends_with_print_app; [exact Q2|apply ends_with_print_single]. }
  rewrite R2 in He. destruct (run_test_prints_once w t He) as (v & Ho & Hp & Hv).
  destruct (run_test w t) as [evs3 o]. cbn [fst snd] in *.
  exists v. split; [done|]. split; [|done].
  apply ends_with_print_app; [apply printed_dirs|].
  apply ends_with_print_app; [exact Q1|].
  apply ends_with_print_app; [exact Q2|].
  by apply (ends_with_print_app v [Seed seed]).
Qed.

(** When a piece of the loaded code does not come back, the runner prints
    nothing. *)
Lemma main_quiet a w seed :
  (length (argv w) <? 6)%nat = false ->
  py_int (arg w 5) = Some seed ->
  path_exists w (arg w 1) = true ->
  path_exists w (arg w 4) = true ->
  loaded_code_ends w = false ->
  printed (main a w).1 = [].
Proof.
  intros Hlen Hseed Hp1 Hp4. unfold main, loaded_code_ends.
  rewrite Hlen, Hseed, Hp1, Hp4. cbn [negb]. cbv beta zeta.
  pose proof (load_events_quiet w AtLoadStudent (module_name a) (arg w 1) (exec_student w)) as Q1.
  pose proof (load_result w AtLoadStudent (module_name a) (arg w 1) (exec_student w)) as R1.
  destruct (load_module_from_path w AtLoadStudent _ _ _) as [[evs1 r1] text1].
  cbn [fst snd] in Q1, R1.
  destruct r1 as [x|e|e| |tx o]; cbn [fst].
  2:{ destruct R1 as [e' ->]. done. }
  2,3: by rewrite printed_app, printed_dirs, Q1.
  2:{ by rewrite printed_app, printed_dirs, printed_app, Q1, printed_wrote. }
  rewrite R1.
  pose proof (load_events_quiet w AtLoadTest (stem (arg w 4)) (arg w 4) (exec_test w)) as Q2.
  pose proof (load_result w AtLoadTest (stem (arg w 4)) (arg w 4) (exec_test w)) as R2.
  destruct (load_module_from_path w AtLoadTest _ _ _) as [[evs2 r2] text2].
  cbn [fst snd] in Q2, R2.
  destruct r2 as [t|e|e| |tx o]; cbn [fst].
  2:{ destruct R2 as [e' ->]. done. }
  2,3: by rewrite printed_app, printed_dirs, !printed_app, Q1, Q2.
  2:{ by rewrite printed_app, printed_dirs, !printed_app, Q1, Q2, printed_wrote. }
  rewrite R2. unfold run_test, ends. destruct (entry t) as [r|]; [|done].
  assert (forall evs, printed (evs1 ++ evs2 ++ Seed seed :: (Call :: wrote (output r)) ++ evs)
                      = printed evs) as Hq.
  { intros evs. rewrite !printed_app, Q1, Q2.
    change (printed (Seed seed :: (Call :: wrote (output r)) ++ evs))
      with (printed (wrote (output r) ++ evs)).
    by rewrite printed_app, printed_wrote. }
  destruct (result r) as [v|e|e| |tx o]; try done; intros _; cbn [fst];
    rewrite printed_app, printed_dirs.
  - by rewrite <- (app_nil_r (_ :: wrote _)), Hq.
  - by rewrite <- (app_nil_r (_ :: wrote _)), Hq.
  - by rewrite Hq, printed_wrote.
Qed.

Lemma run_test_outcome w t :
  (printed (run_test w t).1 = [] /\
   ((run_test w t).2 = Returned ->
    match entry t with Some r => subverts r = true | None => False end)) \/
  ((run_test w t).2 = Returned /\
   exists v, ends_with_print v (run_test w t).1 /\ protocol_value v).
Proof.
  destruct (match entry t with Some r => ends r | None => true end) eqn:E.
  - right. destruct (run_test_prints_once w t E) as (v & Ho & Hp & Hv).
    split; [done|]. by exists v.
  - left. revert E. unfold run_test, ends, subverts. destruct (entry t) as [r|]; [|done].
    destruct (result r) as [v|e|e| |tx o]; try done; intros _; cbn [fst snd].
    + split; [apply (printed_wrote (output r))|done].
    + split; [apply (printed_wrote (output r))|done].
    + split; [|done]. rewrite printed_app, printed_wrote, app_nil_r.
      apply (printed_wrote (output r)).
Qed.

(** What [main] has printed when it ends: nothing, or one value of the
    protocol, last, on returning.  It returns without a print only after
    loaded code changed the interpreter. *)
Lemma main_outcome a w :
  (printed (main a w).1 = [] /\ ((main a w).2 = Returned -> untouched w = false)) \/
  ((main a w).2 = Returned /\
   exists v, ends_with_print v (main a w).1 /\ protocol_value v).
Proof.
  assert (forall m e, (([Print (failure m e)], Returned).2 = Returned /\
            exists v, ends_with_print v ([Print (failure m e)], Returned).1 /\
                      protocol_value v)) as Hf.
  { intros m e. split; [done|]. eexists. split; [apply ends_with_print_single|].
    right. by eexists _, _. }
  unfold main, untouched. destruct (length (argv w) <? 6)%nat; [right; apply Hf|].
  destruct (py_int (arg w 5)) as [seed|]; [|by left].
  destruct (path_exists w (arg w 1)); cbn [negb]; [|right; apply Hf].
  destruct (path_exists w (arg w 4)); cbn [negb]; [|right; apply Hf].
  cbv beta zeta.
  pose proof (load_events_quiet w AtLoadStudent (module_name a) (arg w 1) (exec_student w)) as Q1.
  pose proof (load_result w AtLoadStudent (module_name a) (arg w 1) (exec_student w)) as R1.
  destruct (load_module_from_path w AtLoadStudent _ _ _) as [[evs1 r1] text1].
  cbn [fst snd] in Q1, R1.
  destruct r1 as [x|e|e| |tx o]; cbn [snd fst].
  2:{ right. split; [done|]. eexists. split; [|right; by eexists _, _].
      apply ends_with_print_app; [apply printed_dirs|].
      apply ends_with_print_app; [exact Q1|apply ends_with_print_single]. }
  2,3: left; split; [by rewrite printed_app, printed_dirs, Q1|done].
  2:{ left. split; [by rewrite printed_app, printed_dirs, printed_app, Q1, printed_wrote|].
      intros _. by rewrite R1. }
  rewrite R1.
  pose proof (load_events_quiet w AtLoadTest (stem (arg w 4)) (arg w 4) (exec_test w)) as Q2.
  pose proof (load_result w AtLoadTest (stem (arg w 4)) (arg w 4) (exec_test w)) as R2.
  destruct (load_module_from_path w AtLoadTest _ _ _) as [[evs2 r2] text2].
  cbn [fst snd] in Q2, R2.
  destruct r2 as [t|e|e| |tx o]; cbn [snd fst].
  2:{ right. split; [done|]. eexists. split; [|right; by eexists _, _].
      apply ends_with_print_app; [apply printed_dirs|].
      apply ends_with_print_app; [exact Q1|].
      apply ends_with_print_app; [exact Q2|apply ends_with_print_single]. }
  2,3: left; split; [by rewrite printed_app, printed_dirs, !printed_app, Q1, Q2|done].
  2:{ left. split; [by rewrite printed_app, printed_dirs, !printed_app, Q1, Q2, printed_wrote|].
      intros _. by rewrite R2. }
  pose proof (run_test_outcome w t) as Ht. rewrite R2.
  destruct (run_test w t) as [evs3 o]. cbn [fst snd] in *.
  destruct Ht as [[Hp Hs]|[-> (v & Hp & Hv)]].
  - left. split.
    + rewrite printed_app, printed_dirs, !printed_app, Q1, Q2. exact Hp.
    + intros Ho. specialize (Hs Ho). destruct (entry t) as [r|]; [|done].
      by rewrite Hs.
  - right. split; [done|]. exists v. split; [|done].
    apply ends_with_print_app; [apply printed_dirs|].
    apply ends_with_print_app; [exact Q1|].
    apply ends_with_print_app; [exact Q2|].
    by apply (ends_with_print_app v [Seed seed]).
Qed.

(** C2 (as the runner does it): a runner that one of its checks stops, or
    whose seed argument is an integer literal and whose loaded code comes
    back (each piece the runner gets to run returns or raises an
    [Exception], the interpreter left as it was), returns from [main] having
    itself printed exactly one value of the result protocol, as its last
    action.  Any other runner whose loaded code leaves the interpreter as
    it was (the seed argument is no integer literal, or a piece of the
    loaded code exits or never ends) prints nothing itself, and [main] does
    not return. *)
Theorem cooperative_runner_prints_once a w :
  (cooperative w = true ->
   exists v, (main a w).2 = Returned /\ printed (main a w).1 = [v] /\
             last (main a w).1 = Some (Print v) /\ protocol_value v) /\
  (cooperative w = false -> untouched w = true ->
   printed (main a w).1 = [] /\ (main a w).2 <> Returned).
Proof.
  split.
  - intros (v & Ho & Hp & Hv)%(main_ends_with_print a). exists v.
    split; [exact Ho|]. split; [by apply ends_with_print_printed|].
    split; [by apply ends_with_print_last|exact Hv].
  - intros Hc Hu.
    assert (printed (main a w).1 = []) as Hq.
    { revert Hc. unfold cooperative.
      destruct (length (argv w) <? 6)%nat eqn:Hlen; [done|]. cbn [orb].
      destruct (py_int (arg w 5)) as [seed|] eqn:Hseed.
      - destruct (path_exists w (arg w 1)) eqn:Hp1; [|done].
        destruct (path_exists w (arg w 4)) eqn:Hp4; [|done].
        cbn [negb andb orb]. by apply (main_quiet a w seed).
      - intros _. unfold main. by rewrite Hlen, Hseed. }
    split; [exact Hq|].
    destruct (main_outcome a w) as [[_ Hs]|[_ (v & Hp & _)]].
    + intros Ho. rewrite (Hs Ho) in Hu. done.
    + apply ends_with_print_printed in Hp. rewrite Hq in Hp. done.
Qed.

Lemma cooperative_runner_prints_once_witness :
  exists v,
    (main PA3 (Samples.world0 (Run "" (Returns ()))
                 (Run "" (Returns {| entry := Some (Run "" (Returns (VTuple [VBool true; VStr "ok"]))) |})))).2
    = Returned /\
    printed (main PA3 (Samples.world0 (Run "" (Returns ()))
                 (Run "" (Returns {| entry := Some (Run "" (Returns (VTuple [VBool true; VStr "ok"]))) |})))).1
    = [v] /\
    last (main PA3 (Samples.world0 (Run "" (Returns ()))
                 (Run "" (Returns {| entry := Some (Run "" (Returns (VTuple [VBool true; VStr "ok"]))) |})))).1
    = Some (Print v) /\
    protocol_value v.
Proof.
  apply (cooperative_runner_prints_once PA3
           (Samples.world0 (Run "" (Returns ()))
              (Run "" (Returns {| entry := Some (Run "" (Returns (VTuple [VBool true; VStr "ok"]))) |})))).
  reflexivity.
Defined.

(** A module that leaves through [SystemExit] takes the runner with it:
    nothing is printed. *)
Lemma exiting_module_prints_nothing :
  ~ prints_exactly_once PA3
      (Samples.world0 (Run "" (Escapes (Exc "SystemExit" "0" "")))
         (Run "" (Returns {| entry := None |}))).
Proof. intros [v H]. vm_compute in H. discriminate H. Qed.

(** C9 (as the runner does it): a test module without [TestCase] makes the
    runner print a failure whose message is that of any exception in the
    test, the missing entry point being named in the traceback; [main]
    returns. *)
Theorem missing_entry_point_is_reported a w seed u t :
  (length (argv w) <? 6)%nat = false ->
  py_int (arg w 5) = Some seed ->
  path_exists w (arg w 1) = true ->
  path_exists w (arg w 4) = true ->
  result (exec_student w) = Returns u ->
  result (exec_test w) = Returns t ->
  entry t = None ->
  (main a w).2 = Returned /\
  printed (main a w).1
  = [VDict [("ok", VBool false);
            ("message", VStr "Exception during TestCase() execution");
            ("error", VStr (format_exc
                              (Exc "AttributeError"
                                 "TestCase() function not found in test file"
                                 (frames w AtEntryLookup))))]].
Proof.
  intros Hn Hseed H1 H4 Hs Ht He.
  unfold main, load_module_from_path, run_test.
  rewrite Hn, Hseed, H1, H4, Hs, Ht, He. cbn [negb fst snd].
  split; [done|]. unfold printed. rewrite !omap_app. fold printed.
  by rewrite !dir_events_quiet, !printed_exec.
Qed.

Lemma missing_entry_point_is_reported_witness :
  (main PA3 (Samples.world0 (Run "" (Returns ())) (Run "" (Returns {| entry := None |})))).2
  = Returned /\
  printed (main PA3 (Samples.world0 (Run "" (Returns ()))
                       (Run "" (Returns {| entry := None |})))).1
  = [VDict [("ok", VBool false);
            ("message", VStr "Exception during TestCase() execution");
            ("error", VStr (format_exc
                              (Exc "AttributeError"
                                 "TestCase() function not found in test file" "")))]].
Proof.
  apply (missing_entry_point_is_reported PA3
           (Samples.world0 (Run "" (Returns ())) (Run "" (Returns {| entry := None |})))
           1337 () {| entry := None |}); reflexivity.
Defined.

(** The message is not the one the design document gives. *)
Lemma entry_point_message_differs :
  ~ reports_entry_point_not_found PA3
      (Samples.world0 (Run "" (Returns ())) (Run "" (Returns {| entry := None |}))).
Proof.
  intros (v & items & Hp & -> & _ & Hm).
  vm_compute in Hp. injection Hp as <-. vm_compute in Hm. discriminate Hm.
Qed.





Lemma no_call_wrote text : Call ∉ wrote text.
Proof. unfold wrote. destruct (String.eqb text ""); set_solver. Qed.


Lemma load_events {A} w at_ name path (r : run A) :
  (load_module_from_path w at_ name path r).1.1 = Exec name path :: wrote (output r).
Proof. unfold load_module_from_path. by destruct (result r). Qed.



End RunnerFacts.

(** ** The locator *)

Module LocatorFacts.
Import Text Locator.

Lemma prefix_refl s : String.prefix s s = true.
Proof. induction s as [|c r IH]; [done|]. simpl. by destruct (ascii_dec c c). Qed.

Lemma prefix_append s : forall t u,
  String.prefix s t = true -> String.prefix s (t +:+ u) = true.
Proof.
  induction s as [|c r IH]; intros t u.
  - intros _. by destruct (t +:+ u).
  - destruct t as [|d t]; [done|].
    change (String d t +:+ u) with (String d (t +:+ u)). simpl.
    destruct (ascii_dec c d); [apply IH|done].
Qed.

(** A text that occurs in a text occurs in every extension of it. *)
Lemma contains_append_r x s t : contains x s = true -> contains x (s +:+ t) = true.
Proof.
  induction s as [|c r IH].
  - simpl. rewrite orb_false_r. destruct x; [|done]. intros _. by destruct t.
  - change (String c r +:+ t) with (String c (r +:+ t)).
    cbn [contains]. intros [H|H]%orb_true_iff; apply orb_true_iff.
    + left. by apply (prefix_append x (String c r) t).
    + right. by apply IH.
Qed.

Lemma contains_append_l x s t : contains x t = true -> contains x (s +:+ t) = true.
Proof.
  intros H. induction s as [|c r IH]; [done|].
  change (String c r +:+ t) with (String c (r +:+ t)).
  cbn [contains]. apply orb_true_iff. by right.
Qed.

Lemma contains_refl x : contains x x = true.
Proof. destruct x; cbn [contains]; by rewrite prefix_refl. Qed.

Lemma skipped_append root suffix : skipped root = true -> skipped (root +:+ suffix) = true.
Proof.
  unfold skipped. rewrite !existsb_exists. intros (tag & Hin & Hc).
  exists tag. split; [done|]. by apply contains_append_r.
Qed.

(** A directory whose name is on the list is skipped. *)
Lemma skipped_named parent name :
  In name denylist -> skipped (path_join parent name) = true.
Proof.
  intros Hin. unfold skipped. apply existsb_exists. exists name. split; [done|].
  unfold path_join. apply contains_append_l, contains_append_l, contains_refl.
Qed.

(** The file directly in the student's directory wins. *)
Lemma locate_direct a student_dir es :
  mem (target_file a) (fst <$> es) = true ->
  locate a student_dir es = Some (path_join student_dir (target_file a)).
Proof. intros H. unfold locate. by rewrite H. Qed.

(** Otherwise the first directory of the walk that passes the test on its
    path and lists the file. *)
Lemma locate_walked a student_dir es :
  mem (target_file a) (fst <$> es) = false ->
  locate a student_dir es
  = (fun t => path_join t.1.1 (target_file a))
      <$> List.find (fun t => negb (skipped t.1.1) && mem (target_file a) t.2)
            (walk student_dir (Dir es)).
Proof. intros H. unfold locate. rewrite H. by destruct (List.find _ _). Qed.

(** Induction on a directory tree. *)
Fixpoint node_induction (P : node -> Prop) (HF : P File)
    (HD : forall es, Forall (fun e => P e.2) es -> P (Dir es)) (n : node) : P n :=
  match n with
  | File => HF
  | Dir es =>
      HD es ((fix all (l : list (string * node)) : Forall (fun e => P e.2) l :=
                match l with
                | [] => @List.Forall_nil _ _
                | (name, child) :: r =>
                    @List.Forall_cons _ (fun e => P e.2) (name, child) r
                      (node_induction P HF HD child) (all r)
                end) es)
  end.

Lemma walk_dir top es :
  walk top (Dir es)
  = (top, dir_names es, file_names es)
    :: flat_map (fun e => walk (path_join top e.1) e.2) es.
Proof.
  cbn [walk]. f_equal. induction es as [|[name child] rest IH]; [done|].
  cbn [flat_map fst snd]. by rewrite IH.
Qed.

(** The walk of a directory spells the paths below it as extensions of its
    own. *)
Lemma walk_paths n : forall top t,
  In t (walk top n) -> exists suffix, t.1.1 = top +:+ suffix.
Proof.
  induction n as [|es IH] using node_induction; intros top t; [done|].
  rewrite walk_dir. intros [<- | Hin].
  - exists EmptyString. simpl. by rewrite TextFacts.append_nil_r.
  - apply in_flat_map in Hin as ([name child] & He & Ht).
    rewrite Forall_forall in IH.
    apply list_elem_of_In in He.
    destruct (IH _ He _ _ Ht) as [suffix Hs]. simpl in Hs.
    exists ("/" +:+ name +:+ suffix). rewrite Hs. unfold path_join.
    by rewrite !TextFacts.append_assoc.
Qed.

(** Everything below a skipped directory is skipped. *)
Lemma skipped_below top n t :
  skipped top = true -> In t (walk top n) -> skipped t.1.1 = true.
Proof.
  intros Hs Hin. destruct (walk_paths n top t Hin) as [suffix ->].
  by apply skipped_append.
Qed.

(** The first element of a list that passes a test. *)
Lemma find_first {A} (f : A -> bool) l x :
  List.find f l = Some x <->
  exists before after, l = before ++ x :: after /\ f x = true /\
                       forall y, In y before -> f y = false.
Proof.
  split.
  - induction l as [|y l IH]; [done|]. simpl. destruct (f y) eqn:E.
    + intros [= ->]. by exists [], l.
    + intros (before & after & -> & Hx & Hb)%IH.
      exists (y :: before), after. split; [done|]. split; [done|].
      intros z [<- | Hz]; eauto.
  - intros (before & after & -> & Hx & Hb).
    induction before as [|y before IH]; simpl.
    + by rewrite Hx.
    + rewrite (Hb y) by (by left). apply IH. intros z Hz. apply Hb. by right.
Qed.

(** What the driver's locator computes: a file of the target's name directly
    in the student's directory is taken; else the first directory of the walk
    (top down, in listing order) that lists the file and whose path contains
    none of .venv, venv, __pycache__; if there is none the student has no
    module.  Skipped by that test are the directories so named and
    everything below a skipped directory. *)
Theorem locate_characterised a student_dir es :
  let target := target_file a in
  let passes (t : string * list string * list string) :=
    negb (skipped t.1.1) && mem target t.2 in
  (mem target (fst <$> es) = true ->
   locate a student_dir es = Some (path_join student_dir target)) /\
  (mem target (fst <$> es) = false ->
   forall p, locate a student_dir es = Some p <->
     exists before t after,
       walk student_dir (Dir es) = before ++ t :: after /\
       p = path_join t.1.1 target /\ passes t = true /\
       forall x, In x before -> passes x = false) /\
  (locate a student_dir es = None <->
   mem target (fst <$> es) = false /\
   forall t, In t (walk student_dir (Dir es)) -> passes t = false) /\
  (forall parent name, In name denylist -> skipped (path_join parent name) = true) /\
  (forall top n t, skipped top = true -> In t (walk top n) -> skipped t.1.1 = true).
Proof.
  cbv zeta. split; [apply locate_direct|].
  split; [|split; [|split; [apply skipped_named|apply skipped_below]]].
  - intros Hm p. rewrite (locate_walked _ _ _ Hm). split.
    + destruct (List.find _ _) as [t|] eqn:E; [|done]. intros [= <-].
      apply find_first in E as (before & after & Hw & Ht & Hb).
      by exists before, t, after.
    + intros (before & t & after & Hw & -> & Ht & Hb).
      assert (List.find (fun t => negb (skipped t.1.1) && mem (target_file a) t.2)
                (walk student_dir (Dir es)) = Some t) as ->; [|done].
      apply find_first. by exists before, after.
  - unfold locate. destruct (mem (target_file a) (fst <$> es)) eqn:Hm.
    + split; [done|]. by intros [? _].
    + destruct (List.find _ _) as [t|] eqn:E.
      * split; [done|]. intros [_ H]. apply find_some in E as [Hin Ht].
        by rewrite (H t Hin) in Ht.
      * split; [|done]. intros _. split; [done|].
        intros t Hin. by apply (find_none _ _ E).
Qed.

(** C7: the locator is to leave out the directories named .venv, venv or
    __pycache__ and only those, and to take the first file of the target's
    name it meets.  The driver tests whether one of the three texts occurs
    anywhere in the path of the directory, so at a student whose module
    sits in a directory named elevenverbs, which is on no list but holds
    the letters venv, the two part: by the words the module is found, the
    driver skips the directory and takes the student to have no module. *)
Lemma substring_match_hides_module :
  let es := [("elevenverbs", Dir [("pa3.py", File)])] in
  Notions.worded_locate PA3 "downloads/PA3/alice" es
  = Some "downloads/PA3/alice/elevenverbs/pa3.py" /\
  skipped "downloads/PA3/alice" = false /\
  skipped "downloads/PA3/alice/elevenverbs" = true /\
  locate PA3 "downloads/PA3/alice" es = None.
Proof. cbv zeta. split; [|split; [|split]]; reflexivity. Qed.

End LocatorFacts.

(** ** Driver and runner together *)

Module Harness.
Import Text Py Runner RunnerNotions Locator Grader Notions.



End Harness.

(** ** The downloader *)

Module DownloadFacts.
Import Text TextFacts Py Download DownloadNotions.

Lemma replace_all_cons l : forall c r,
  fold_left (fun n ch => replace_char ch underscore n) l (String c r)
  = String (fold_left (fun x ch => if Ascii.eqb x ch then underscore else x) l c)
           (fold_left (fun n ch => replace_char ch underscore n) l r).
Proof. induction l as [|ch l IH]; intros c r; [done|]. simpl. by rewrite IH. Qed.

Lemma replace_all_nil l :
  fold_left (fun n ch => replace_char ch underscore n) l EmptyString = EmptyString.
Proof. by induction l. Qed.

Lemma scrub_char c :
  fold_left (fun x ch => if Ascii.eqb x ch then underscore else x) bad c = scrub c.
Proof. destruct c as [[] [] [] [] [] [] [] []]; reflexivity. Qed.

Lemma replace_all_scrub s :
  fold_left (fun n ch => replace_char ch underscore n) bad s = map_chars scrub s.
Proof.
  induction s as [|c r IH]; [apply replace_all_nil|].
  by rewrite replace_all_cons, scrub_char, IH.
Qed.

Lemma scrub_not_bad c : is_bad (scrub c) = false.
Proof. destruct c as [[] [] [] [] [] [] [] []]; reflexivity. Qed.

Lemma scrub_clean_char c : is_bad c = false -> scrub c = c.
Proof. intros H. unfold scrub. by rewrite H. Qed.

Lemma map_scrub_clean s : clean (map_chars scrub s).
Proof. unfold clean. induction s; simpl; constructor; [apply scrub_not_bad|done]. Qed.

Lemma map_scrub_id s : clean s -> map_chars scrub s = s.
Proof.
  unfold clean. induction s as [|c r IH]; [done|]. simpl.
  intros [Hc Hr]%Forall_cons. by rewrite scrub_clean_char, IH.
Qed.

Lemma safe_folder_name_clean name : clean (safe_folder_name name).
Proof.
  unfold safe_folder_name. rewrite replace_all_scrub.
  apply strip_Forall, map_scrub_clean.
Qed.

Lemma safe_folder_name_stripped name :
  strip (safe_folder_name name) = safe_folder_name name.
Proof. apply strip_idem. Qed.

(** X1: a folder name made by [safe_folder_name] holds none of the nine
    characters of [bad] (angle brackets, colon, double quote, slash,
    backslash, bar, question mark, star) and has no whitespace at either
    end. *)
Theorem safe_folder_name_is_safe name :
  clean (safe_folder_name name) /\ strip (safe_folder_name name) = safe_folder_name name.
Proof. split; [apply safe_folder_name_clean|apply safe_folder_name_stripped]. Qed.

(** X2: [safe_folder_name] leaves a name alone exactly when the name is
    already safe (no bad character, no whitespace at either end); so
    applying it twice is applying it once. *)
Theorem safe_folder_name_fixpoint name :
  (safe_folder_name name = name <-> clean name /\ strip name = name) /\
  safe_folder_name (safe_folder_name name) = safe_folder_name name.
Proof.
  assert (forall n, clean n /\ strip n = n -> safe_folder_name n = n) as Hfix.
  { intros n [Hc Hs]. unfold safe_folder_name.
    by rewrite replace_all_scrub, map_scrub_id. }
  split; [split; [|apply Hfix]|].
  - intros H. rewrite <- H.
    split; [apply safe_folder_name_clean|apply safe_folder_name_stripped].
  - apply Hfix. split; [apply safe_folder_name_clean|apply safe_folder_name_stripped].
Qed.

(** X3: the folder of a submission does not depend on the order in which
    the platform lists its students; a submission without students is filed
    under its id. *)
Theorem folder_of_any_order id students students' files files' :
  students ≡ₚ students' ->
  folder_of {| s_id := id; s_students := students; s_files := files |}
  = folder_of {| s_id := id; s_students := students'; s_files := files' |} /\
  (students = [] ->
   folder_of {| s_id := id; s_students := students; s_files := files |}
   = "submission_" +:+ id).
Proof.
  intros Hp. split; [|by intros ->]. unfold folder_of. cbn [s_students s_id].
  assert (merge_sort String.le students = merge_sort String.le students') as Hs.
  { apply (Sorted_unique String.le).
    - apply Sorted_merge_sort, _.
    - apply Sorted_merge_sort, _.
    - by rewrite !merge_sort_Permutation. }
  destruct students as [|x l], students' as [|y l'].
  - done.
  - by apply Permutation_nil_l in Hp.
  - by apply Permutation_nil_r in Hp.
  - by rewrite Hs.
Qed.

Lemma folder_of_any_order_witness :
  folder_of {| s_id := "17"; s_students := ["b@school.edu"; "a@school.edu"]; s_files := [] |}
  = folder_of {| s_id := "17"; s_students := ["a@school.edu"; "b@school.edu"]; s_files := [] |}.
Proof.
  apply (folder_of_any_order "17" ["b@school.edu"; "a@school.edu"]
           ["a@school.edu"; "b@school.edu"] [] []).
  apply perm_swap.
Defined.

Lemma save_file_done m folder sub_dir f found st found' st' :
  save_file m folder sub_dir f found st = (found', Done st') ->
  total_files st' = total_files st + (if savable f then 1 else 0) /\
  skipped_students st' = skipped_students st /\
  found' = found || is_target f.
Proof.
  unfold save_file, savable, is_target, make_dir.
  destruct (String.eqb (name_of f) target_filename); cbn [negb andb].
  - destruct (mkdir m _); cbn [bind]; [by intros [= _ ?]|].
    destruct (f_code f) as [code|].
    + destruct (write m _ code false); [| |by intros [= _ ?]].
      * intros [= <- <-]. simpl. rewrite orb_true_r. done.
      * destruct (write m _ code true); intros [= <- <-]. simpl. by rewrite orb_true_r.
    + intros [= <- <-]. simpl. rewrite orb_true_r. split; [lia|done].
  - intros [= <- <-]. rewrite orb_false_r. split; [lia|done].
Qed.

Lemma save_files_done m folder sub_dir files : forall found st found' st',
  save_files m folder sub_dir files found st = (found', Done st') ->
  total_files st' = total_files st + count_savable files /\
  skipped_students st' = skipped_students st /\
  found' = found || existsb is_target files.
Proof.
  unfold count_savable.
  induction files as [|f rest IH]; intros found st found' st'.
  - intros [= <- <-]. simpl. rewrite orb_false_r. split; [lia|done].
  - cbn [save_files].
    destruct (save_file m folder sub_dir f found st) as [found1 [st1|why st1]] eqn:E;
      [|by intros [= _ ?]].
    apply save_file_done in E as (Ht & Hs & ->).
    intros (Ht' & Hs' & ->)%IH. cbn [List.filter existsb].
    split; [|split; [congruence|by rewrite orb_assoc]].
    rewrite Ht', Ht. destruct (savable f); cbn [length]; lia.
Qed.

Lemma save_submission_done m base sub st st' :
  save_submission m base sub st = Done st' ->
  total_files st' = total_files st + count_savable (s_files sub) /\
  skipped_students st'
  = skipped_students st ++ without_target [sub].
Proof.
  unfold save_submission, make_dir, without_target.
  destruct (mkdir m _); cbn [bind]; [done|].
  destruct (save_files m _ _ _ false _) as [found [st1|why st1]] eqn:E; [|done].
  apply save_files_done in E as (Ht & Hs & ->). cbn [orb List.filter] in *.
  cbn [total_files skipped_students] in *.
  destruct (existsb is_target (s_files sub)); cbn [negb fmap list_fmap].
  - intros [= <-]. rewrite app_nil_r. done.
  - intros [= <-]. simpl. by rewrite Hs.
Qed.

Lemma save_submissions_done m base subs : forall st st',
  save_submissions m base subs st = Done st' ->
  total_files st' = total_files st + count_saved subs /\
  skipped_students st' = skipped_students st ++ without_target subs.
Proof.
  induction subs as [|sub rest IH]; intros st st'.
  - intros [= <-]. simpl. rewrite app_nil_r. split; [lia|done].
  - cbn [save_submissions].
    destruct (save_submission m base sub st) as [st1|why st1] eqn:E; [|done].
    apply save_submission_done in E as (Ht & Hs). cbn [bind].
    intros (Ht' & Hs')%IH. rewrite Ht', Ht, Hs', Hs. cbn [count_saved].
    split; [lia|]. rewrite <- app_assoc. f_equal.
    unfold without_target. cbn [List.filter].
    destruct (negb (existsb is_target (s_files sub))); done.
Qed.

Lemma say_counts line st :
  total_files (say line st) = total_files st /\
  skipped_students (say line st) = skipped_students st.
Proof. done. Qed.

Lemma say_all_counts lines : forall st,
  total_files (fold_left (fun st student => say ("    - " +:+ student) st) lines st)
  = total_files st /\
  skipped_students (fold_left (fun st student => say ("    - " +:+ student) st) lines st)
  = skipped_students st.
Proof. induction lines as [|l rest IH]; intros st; [done|]. simpl. by rewrite !(proj1 (IH _)), !(proj2 (IH _)). Qed.

Lemma report_counts m base st :
  total_files (report m base st) = total_files st /\
  skipped_students (report m base st) = skipped_students st.
Proof.
  unfold report. cbn [say skipped_students].
  destruct (skipped_students st) as [|x l] eqn:E; [done|].
  destruct (10 <? _); cbn [say total_files skipped_students];
    by rewrite !(proj1 (say_all_counts _ _)), !(proj2 (say_all_counts _ _)).
Qed.

(** X4: when the download runs to its end, the number of files it
    reports is the number of files that have the target's name and a text,
    over all submissions, and the submissions it reports as missing are
    those without any file of the target's name, in the order listed.  A
    submission whose target file has no text is neither counted nor
    reported. *)
Theorem download_counts m st :
  main m = Done st ->
  exists a subs,
    assignment m = inr a /\ listed a = Some subs /\
    total_files st = count_saved subs /\
    skipped_students st = without_target subs.
Proof.
  unfold main, listed, make_dir.
  destruct (get_api_key _); [done|].
  destruct (course m) as [e|c]; [done|].
  destruct (assignment m) as [e|a]; [done|].
  destruct (mkdir m _); cbn [bind]; [done|].
  intros H. exists a.
  assert (forall l st0,
            match save_submissions m
                    (child_path (child_path outdir
                       (safe_folder_name (c_name c +:+ " (" +:+ c_period c +:+ ")")))
                       (safe_folder_name (a_name a))) l st0 with
            | Done st1 => Done (report m
                    (child_path (child_path outdir
                       (safe_folder_name (c_name c +:+ " (" +:+ c_period c +:+ ")")))
                       (safe_folder_name (a_name a))) st1)
            | Stopped why st1 => Stopped why st1
            end = Done st ->
            total_files st0 = 0 -> skipped_students st0 = [] ->
            total_files st = count_saved l /\ skipped_students st = without_target l) as Hrun.
  { intros l st0 Hd H0 Hs0.
    destruct (save_submissions m _ l st0) as [st1|why st1] eqn:E; [|done].
    apply save_submissions_done in E as (Ht & Hs). injection Hd as <-.
    rewrite (proj1 (report_counts _ _ _)), (proj2 (report_counts _ _ _)), Ht, Hs, H0, Hs0.
    split; [lia|done]. }
  destruct (a_submissions a) as [l|[e|l]|e]; try done; exists l;
    (split; [done|]); (split; [done|]); by apply (Hrun _ _ H).
Qed.

Lemma download_counts_witness :
  exists a subs,
    assignment machine0 = inr a /\ listed a = Some subs /\
    total_files (final_state (main machine0)) = count_saved subs /\
    skipped_students (final_state (main machine0)) = without_target subs.
Proof.
  apply (download_counts machine0 (final_state (main machine0))).
  vm_compute. reflexivity.
Defined.

(** X5: [get_api_key] gives the variable's value without the whitespace
    around it, never an empty key; it stops the script exactly when the
    variable is unset or holds whitespace only. *)
Theorem api_key_is_stripped_or_missing env :
  (forall key, get_api_key env = inr key ->
     key = strip (default EmptyString env) /\ key <> EmptyString /\ strip key = key) /\
  ((exists why, get_api_key env = inl why) <-> blank (default EmptyString env)).
Proof.
  unfold get_api_key. rewrite <- strip_blank.
  destruct (String.eqb (strip (default "" env)) "") eqn:E.
  - apply String.eqb_eq in E. split; [done|]. split; [done|eauto].
  - apply String.eqb_neq in E. split.
    + intros key [= <-]. split; [done|]. split; [done|apply strip_idem].
    + split; [by intros [? ?]|done].
Qed.

Lemma all_placed_app base tr tr' :
  all_placed base tr -> all_placed base tr' -> all_placed base (tr ++ tr').
Proof. intros H H' p t r [?|?]%elem_of_app; eauto. Qed.

Lemma all_placed_quiet base tr :
  (forall p t r, Write p t r ∉ tr) -> all_placed base tr.
Proof. intros H p t r Hin. by destruct (H p t r). Qed.

Lemma clean_empty : clean EmptyString.
Proof. constructor. Qed.

Lemma child_path_empty parent : child_path parent EmptyString = parent.
Proof. done. Qed.

Lemma save_file_placed m base folder f found st :
  all_placed base (trace st) ->
  all_placed base
    (trace (final_state
              (save_file m folder (child_path base (safe_folder_name folder)) f found st).2)).
Proof.
  intros H. unfold save_file, make_dir.
  destruct (negb _) eqn:En; [done|]. apply negb_false_iff, String.eqb_eq in En.
  cbn [snd]. set (sub_dir := child_path base (safe_folder_name folder)).
  set (out_dir := match f_path f with
                  | Some rel => if String.eqb rel "" then sub_dir
                                else child_path sub_dir (safe_folder_name rel)
                  | None => sub_dir
                  end).
  assert (placed base (out_dir +:+ "/" +:+ name_of f)) as Hp.
  { rewrite En. exists (safe_folder_name folder).
    subst out_dir. destruct (f_path f) as [rel|]; [destruct (String.eqb rel "")|].
    - exists EmptyString. split; [apply safe_folder_name_clean|]. split; [apply clean_empty|done].
    - exists (safe_folder_name rel). by split; [apply safe_folder_name_clean|split;
        [apply safe_folder_name_clean|]].
    - exists EmptyString. split; [apply safe_folder_name_clean|]. split; [apply clean_empty|done]. }
  destruct (mkdir m out_dir); cbn [bind final_state]; [done|].
  assert (all_placed base (trace st ++ [Mkdir out_dir])) as H1.
  { apply all_placed_app; [done|]. apply all_placed_quiet. set_solver. }
  destruct (f_code f) as [code|]; cbn [final_state].
  - assert (forall line r, all_placed base
              ((trace st ++ [Mkdir out_dir])
               ++ [Write (out_dir +:+ "/" +:+ name_of f) code r; Say line])) as Hw.
    { intros line r. apply all_placed_app; [done|].
      intros p t r' Hin. assert (p = out_dir +:+ "/" +:+ name_of f) as -> by set_solver.
      done. }
    destruct (write m _ code false); cbn [final_state saved trace]; [apply Hw| |done].
    destruct (write m _ code true); cbn [final_state saved trace]; [apply Hw|done|done].
  - cbn [say trace]. apply all_placed_app; [done|]. apply all_placed_quiet. set_solver.
Qed.

Lemma save_files_placed m base folder files : forall found st,
  all_placed base (trace st) ->
  all_placed base
    (trace (final_state
              (save_files m folder (child_path base (safe_folder_name folder))
                 files found st).2)).
Proof.
  induction files as [|f rest IH]; intros found st H; [done|]. cbn [save_files].
  pose proof (save_file_placed m base folder f found st H) as H1.
  destruct (save_file m folder _ f found st) as [found1 [st1|why st1]]; cbn [snd final_state] in *.
  - by apply IH.
  - done.
Qed.

Lemma save_submission_placed m base sub st :
  all_placed base (trace st) ->
  all_placed base (trace (final_state (save_submission m base sub st))).
Proof.
  intros H. unfold save_submission, make_dir.
  destruct (mkdir m _); cbn [bind final_state]; [done|].
  match goal with |- context [save_files m ?fo ?sd ?fs false ?st0] =>
    pose proof (save_files_placed m base fo fs false st0) as H1;
    destruct (save_files m fo sd fs false st0) as [found [st1|why st1]] end;
    cbn [snd final_state trace] in *.
  - assert (all_placed base (trace st1)) as H2.
    { apply H1. apply all_placed_app; [done|]. apply all_placed_quiet. set_solver. }
    destruct found; cbn [final_state say trace]; [done|].
    apply all_placed_app; [done|]. apply all_placed_quiet. set_solver.
  - apply H1. apply all_placed_app; [done|]. apply all_placed_quiet. set_solver.
Qed.

Lemma save_submissions_placed m base subs : forall st,
  all_placed base (trace st) ->
  all_placed base (trace (final_state (save_submissions m base subs st))).
Proof.
  induction subs as [|sub rest IH]; intros st H; [done|]. cbn [save_submissions].
  pose proof (save_submission_placed m base sub st H) as H1.
  destruct (save_submission m base sub st) as [st1|why st1]; cbn [bind final_state] in *.
  - by apply IH.
  - done.
Qed.

Lemma say_placed base line st :
  all_placed base (trace st) -> all_placed base (trace (say line st)).
Proof.
  intros H. cbn [say trace]. apply all_placed_app; [done|].
  apply all_placed_quiet. set_solver.
Qed.

Lemma say_all_placed base lines : forall st,
  all_placed base (trace st) ->
  all_placed base
    (trace (fold_left (fun st student => say ("    - " +:+ student) st) lines st)).
Proof.
  induction lines as [|l rest IH]; intros st H; [done|]. simpl. by apply IH, say_placed.
Qed.

Lemma report_placed m base st :
  all_placed base (trace st) -> all_placed base (trace (report m base st)).
Proof.
  intros H. unfold report. cbn [say skipped_students].
  destruct (skipped_students st) as [|x l]; [by apply (say_placed base _ st)|].
  destruct (10 <? _).
  - by apply say_placed, say_all_placed, say_placed, (say_placed base _ st).
  - by apply say_all_placed, say_placed, (say_placed base _ st).
Qed.

(** X6: whatever the platform returns and however the run ends, every
    file the script writes is named like the target and lies in a folder of
    the download directory or in a folder of such a folder, both folder
    names free of separators: a file's relative path is flattened to one
    folder name. *)
Theorem downloads_are_placed m c a :
  course m = inr c -> assignment m = inr a ->
  all_placed (base_of c a) (trace (final_state (main m))).
Proof.
  intros Hc Ha. unfold main, make_dir. rewrite Hc, Ha. fold (base_of c a).
  destruct (get_api_key _); [by apply all_placed_quiet; set_solver|].
  destruct (mkdir m _); cbn [bind final_state]; [by apply all_placed_quiet; set_solver|].
  match goal with |- context [say ?l1 (say ?l2 ?st0)] =>
    assert (all_placed (base_of c a) (trace (say l1 (say l2 st0)))) as H0
      by (apply all_placed_quiet; set_solver);
    generalize dependent (say l1 (say l2 st0)) end.
  intros st0 H0.
  destruct (a_submissions a) as [l|[e|l]|e]; cbn [final_state]; try done;
    (pose proof (save_submissions_placed m (base_of c a) l st0 H0) as H1;
     destruct (save_submissions m (base_of c a) l st0) as [st1|why st1];
     cbn [final_state] in *; [by apply report_placed|done]).
Qed.

Lemma downloads_are_placed_witness :
  all_placed "downloads/CECS 229 (Fall 2025)/Programming Assignment #4"
    (trace (final_state (main machine0))).
Proof.
  apply (downloads_are_placed machine0
           {| c_name := "CECS 229"; c_period := "Fall 2025"; c_id := "5290" |}
           (match assignment machine0 with
            | inr a => a
            | inl _ => {| a_name := ""; a_id := ""; a_submissions := Listed [] |}
            end)); reflexivity.
Defined.

End DownloadFacts.

(** ** A whole run of the driver *)

Module RunFacts.
Import Text TextFacts Py Json Locator Grader Notions GraderFacts RunNotions.

Lemma read_data_truthy h out err items :
  read_data h out err = inr (VDict items) ->
  truthy (dict_get "ok" items (VBool false)) = true ->
  json_loads (decoder h) out = Decoded (VDict items).
Proof.
  unfold read_data. destruct (String.eqb out ""); [by intros [= <-]|].
  destruct (json_loads (decoder h) out) as [v| |why]; [by intros [= ->]| |done].
  by intros [= <-].
Qed.

(** What a completed child adds to the rows. *)
Lemma record_completed_rows a h student t stdout stderr rc st :
  let r := record_completed a h student t stdout stderr rc st in
  rows (state_of r) = rows st \/
  exists items m,
    read_data h (strip stdout) (strip stderr) = inr (VDict items) /\
    rows (state_of r)
    = rows st ++ [[VStr student; VStr t;
                   VInt (int_of_bool (truthy (dict_get "ok" items (VBool false)))); m]].
Proof.
  cbv zeta. unfold record_completed.
  destruct (read_data _ _ _) as [e|[| | | | | | |items]] eqn:Ed; try (by left).
  destruct (full_message _ _ _ _ _) as [e|m]; [by left|].
  destruct (encodable m); [|by left].
  right. exists items, m. split; [done|].
  destruct (summary st !! student) as [c|] eqn:Hc.
  - erewrite update_some by (simpl; exact Hc). cbn [bind].
    erewrite !update_some by (simpl; apply lookup_insert_eq). cbn [bind].
    destruct (truthy _); [done|]. by destruct (log_failure _ _ _ _ _ _).
  - by erewrite update_none by (simpl; exact Hc).
Qed.

(** What an iteration that completes has done. *)
Lemma grade_test_done a ar h student path idx t st st' :
  grade_test a ar h student path idx t st = Done st' ->
  exists c (b : bool) m,
    summary st !! student = Some c /\
    rows st' = rows st ++ [[VStr student; VStr t; VInt (int_of_bool b); m]] /\
    summary st'
    = <[student := Counts (total c + 1) (passed c + int_of_bool b)
                     (failed c + (1 - int_of_bool b)) (missing c)]> (summary st) /\
    launches st' = launches st ++ [command ar h path t idx].
Proof.
  unfold grade_test. destruct (child h _ _) as [out err rc| |e]; [| |done].
  - unfold record_completed.
    destruct (read_data _ _ _) as [e|[| | | | | | |items]]; try done.
    destruct (full_message _ _ _ _ _) as [e|m]; [done|].
    destruct (encodable m); [|done].
    destruct (summary st !! student) as [c|] eqn:Hc.
    + erewrite update_some by (simpl; exact Hc). cbn [bind].
      erewrite !update_some by (simpl; apply lookup_insert_eq). cbn [bind].
      destruct (truthy _) eqn:Eok.
      * intros [= <-]. exists c, true, m. cbn [rows summary launches writerow int_of_bool].
        rewrite insert_insert_eq. unfold add_passed, add_total. simpl.
        split; [done|]. split; [done|]. split; [|done]. do 2 f_equal. f_equal; lia.
      * destruct (log_failure _ _ _ _ _ _); [done|].
        intros [= <-]. exists c, false, m. cbn [rows summary launches writerow int_of_bool].
        rewrite insert_insert_eq. unfold add_failed, add_total. simpl.
        split; [done|]. split; [done|]. split; [|done]. do 2 f_equal. f_equal; lia.
    + by erewrite update_none by (simpl; exact Hc).
  - destruct (summary st !! student) as [c|] eqn:Hc.
    + erewrite record_timeout_some by (simpl; exact Hc).
      intros [= <-]. exists c, false, (VStr (timeout_message h ar)).
      cbn [rows summary launches int_of_bool].
      split; [done|]. split; [done|]. split; [|done]. do 2 f_equal. f_equal; lia.
    + unfold record_timeout. by erewrite update_none by (simpl; exact Hc).
Qed.

Lemma count_results_app student p l1 l2 :
  count_results student p (l1 ++ l2)
  = count_results student p l1 + count_results student p l2.
Proof. unfold count_results. rewrite List.filter_app, length_app. lia. Qed.

Lemma count_results_cons student p row l :
  count_results student p (row :: l)
  = count_results student p [row] + count_results student p l.
Proof. apply (count_results_app student p [row] l). Qed.

Lemma count_results_row student s t (b : bool) m p :
  count_results s p [[VStr student; VStr t; VInt (int_of_bool b); m]]
  = if String.eqb student s && (int_of_bool b =? p) then 1 else 0.
Proof. unfold count_results. simpl. by destruct (String.eqb student s && _). Qed.

Lemma counts_eq t t' p p' f f' m m' :
  t = t' -> p = p' -> f = f' -> m = m' -> Counts t p f m = Counts t' p' f' m'.
Proof. congruence. Qed.

Lemma eqb_other (student s : string) : s <> student -> String.eqb student s = false.
Proof. intros H. apply String.eqb_neq. congruence. Qed.

(** What a completed loop over the tests of one student has done. *)
Lemma grade_tests_done a ar h student path names : forall idx st st',
  grade_tests a ar h student path idx names st = Done st' ->
  exists new,
    rows st' = rows st ++ new /\
    key_of <$> new = keys_for names student /\
    launches st' = launches st ++ imap (fun i t => command ar h path t (idx + i)) names /\
    (forall s p, s <> student -> count_results s p new = 0) /\
    (forall c, summary st !! student = Some c ->
       summary st'
       = <[student := Counts (total c + Z.of_nat (length names))
                        (passed c + count_results student 1 new)
                        (failed c + count_results student 0 new) (missing c)]> (summary st)).
Proof.
  induction names as [|t rest IH]; intros idx st st'.
  - intros [= <-]. exists []. rewrite !app_nil_r. do 4 (split; [done|]).
    intros [x y z w] Hc. simpl. rewrite !Z.add_0_r. by rewrite insert_id.
  - cbn [grade_tests].
    destruct (grade_test a ar h student path idx t st) as [st1|e st1] eqn:E; [|done].
    apply grade_test_done in E as (c & b & m & Hc & Hr & Hs & Hl). cbn [bind].
    intros (new & Hr' & Hk & Hl' & Ho & Hs')%IH.
    exists ([VStr student; VStr t; VInt (int_of_bool b); m] :: new).
    split; [by rewrite Hr', Hr, <- app_assoc|].
    split; [by rewrite fmap_cons, Hk|].
    split.
    { rewrite Hl', Hl, <- app_assoc. cbn [imap app]. rewrite Nat.add_0_r.
      do 2 f_equal. apply imap_ext. intros i x _. simpl. f_equal. lia. }
    split.
    { intros s p Hne.
      rewrite count_results_cons, count_results_row, (Ho s p Hne).
      by rewrite (eqb_other student s Hne). }
    intros c0 Hc0. rewrite Hc in Hc0. injection Hc0 as <-.
    rewrite (Hs' _ ltac:(rewrite Hs; apply lookup_insert_eq)), Hs, insert_insert_eq.
    cbn [total passed failed missing].
    rewrite !(count_results_cons student _ _ new), !count_results_row, String.eqb_refl.
    f_equal. cbn [length]. rewrite Nat2Z.inj_succ.
    by apply counts_eq; destruct b; cbn -[Z.of_nat Z.add Z.succ Z.sub count_results]; lia.
Qed.

Lemma missing_rows_keys a student names :
  key_of <$> (missing_row a student <$> names) = keys_for names student.
Proof. unfold keys_for. rewrite <- list_fmap_compose. by apply list_fmap_ext. Qed.

Lemma missing_rows_count a student names s p :
  count_results s p (missing_row a student <$> names)
  = if String.eqb student s && (0 =? p) then Z.of_nat (length names) else 0.
Proof.
  induction names as [|t rest IH]; [by destruct (_ && _)|].
  rewrite fmap_cons, count_results_cons, IH.
  unfold missing_row at 1. rewrite (count_results_row student s t false).
  cbn [int_of_bool app length]. destruct (String.eqb student s && (0 =? p)); lia.
Qed.

(** What a completed grading of one student has done. *)
Lemma grade_student_done a ar h names student entries st st' :
  grade_student a ar h names student entries st = Done st' ->
  exists new c',
    rows st' = rows st ++ new /\
    key_of <$> new = keys_for names student /\
    launches st' = launches st ++ launches_for a ar h names student entries /\
    (forall s p, s <> student -> count_results s p new = 0) /\
    summary st' = <[student := c']> (summary st) /\
    let c := default (Counts 0 0 0 0) (summary st !! student) in
    total c' = total c + Z.of_nat (length names) /\
    passed c' = passed c + count_results student 1 new /\
    failed c' = failed c + count_results student 0 new.
Proof.
  unfold grade_student, launches_for.
  assert (summary (setdefault student st) !! student
          = Some (default (Counts 0 0 0 0) (summary st !! student)) /\
          rows (setdefault student st) = rows st /\
          launches (setdefault student st) = launches st /\
          forall c', <[student := c']> (summary (setdefault student st))
                     = <[student := c']> (summary st)) as (Hd & Hr0 & Hl0 & Hi).
  { unfold setdefault. destruct (summary st !! student) eqn:E; [done|].
    simpl. rewrite lookup_insert_eq. do 3 (split; [done|]).
    intros c'. by rewrite insert_insert_eq. }
  set (c := default (Counts 0 0 0 0) (summary st !! student)) in *.
  destruct (locate _ _ _) as [path|].
  - intros (new & Hr & Hk & Hl & Ho & Hs)%grade_tests_done.
    exists new, (Counts (total c + Z.of_nat (length names))
                   (passed c + count_results student 1 new)
                   (failed c + count_results student 0 new) (missing c)).
    rewrite Hr, Hr0, Hl, Hl0, (Hs c Hd), Hi. by repeat split.
  - rewrite (record_missing_some _ _ _ _ _ c Hd). cbn [bind].
    erewrite update_some by (simpl; apply lookup_insert_eq).
    intros [= <-]. cbn [rows summary launches].
    exists (missing_row a student <$> names),
           (set_missing (add_failures (Z.of_nat (length names)) c)).
    rewrite Hr0, Hl0, insert_insert_eq, Hi, app_nil_r.
    split; [done|]. split; [apply missing_rows_keys|]. split; [done|].
    split.
    { intros s p Hne. by rewrite missing_rows_count, (eqb_other student s Hne). }
    split; [done|]. cbn [set_missing add_failures total passed failed].
    rewrite !missing_rows_count, String.eqb_refl. simpl. lia.
Qed.

Lemma grade_students_layout a ar h names l : forall st st',
  grade_students a ar h names l st = Done st' ->
  key_of <$> rows st' = (key_of <$> rows st) ++ flat_map (fun se => keys_for names se.1) l /\
  launches st' = launches st ++ flat_map (fun se => launches_for a ar h names se.1 se.2) l.
Proof.
  induction l as [|[student entries] rest IH]; intros st st'.
  - intros [= <-]. by rewrite !app_nil_r.
  - cbn [grade_students].
    destruct (grade_student a ar h names student entries st) as [st1|e st1] eqn:E; [|done].
    apply grade_student_done in E as (new & c' & Hr & Hk & Hl & _). cbn [bind].
    intros [Hr' Hl']%IH. rewrite Hr', Hl', Hr, Hl, fmap_app, Hk.
    cbn [flat_map fst snd]. by rewrite <- !app_assoc.
Qed.

Lemma grade_student_agrees a ar h names student entries st st' :
  agrees st -> grade_student a ar h names student entries st = Done st' -> agrees st'.
Proof.
  intros Ha (new & c' & Hr & _ & _ & Ho & Hs & _ & Hp & Hf)%grade_student_done s.
  rewrite Hr, Hs, !count_results_app. specialize (Ha s).
  destruct (decide (s = student)) as [-> | Hne].
  - rewrite lookup_insert_eq, Hp, Hf.
    destruct (summary st !! student) as [c|]; simpl; lia.
  - rewrite lookup_insert_ne by done. rewrite !(Ho s _ Hne).
    destruct (summary st !! s); lia.
Qed.

Lemma grade_students_agrees a ar h names l : forall st st',
  agrees st -> grade_students a ar h names l st = Done st' -> agrees st'.
Proof.
  induction l as [|[student entries] rest IH]; intros st st' Ha; [by intros [= <-]|].
  cbn [grade_students].
  destruct (grade_student a ar h names student entries st) as [st1|e st1] eqn:E; [|done].
  apply (grade_student_agrees _ _ _ _ _ _ _ _ Ha) in E. cbn [bind]. by apply IH.
Qed.

Lemma grade_students_totals a ar h names l : forall st st',
  NoDup l.*1 ->
  (forall s, s ∈ l.*1 -> summary st !! s = None) ->
  grade_students a ar h names l st = Done st' ->
  (forall s, s ∈ l.*1 ->
     exists c, summary st' !! s = Some c /\ total c = Z.of_nat (length names)) /\
  (forall s, s ∉ l.*1 -> summary st' !! s = summary st !! s).
Proof.
  induction l as [|[student entries] rest IH]; intros st st' Hnd Hfresh.
  - intros [= <-]. split; [|done]. intros s Hs. by apply elem_of_nil in Hs.
  - cbn [grade_students]. rewrite fmap_cons in Hnd, Hfresh. cbn [fst] in *.
    apply NoDup_cons in Hnd as [Hnotin Hnd].
    destruct (grade_student a ar h names student entries st) as [st1|e st1] eqn:E; [|done].
    apply grade_student_done in E as (new & c' & _ & _ & _ & _ & Hs & Ht & _ & _).
    rewrite (Hfresh student) in Ht by set_solver. cbn [default total] in Ht.
    cbn [bind]. intros H.
    destruct (IH st1 st' Hnd) as [Hin Hout]; [|exact H|].
    { intros s Hs'. rewrite Hs, lookup_insert_ne by set_solver. apply Hfresh. set_solver. }
    split.
    + intros s [Heq | Hs']%elem_of_cons; [|by apply Hin]. subst s.
      exists c'. cbn [fst]. rewrite (Hout student Hnotin), Hs, lookup_insert_eq.
      split; [done|lia].
    + intros s Hs'. rewrite fmap_cons, not_elem_of_cons in Hs'. destruct Hs' as [Hne Hs'].
      rewrite (Hout s Hs'), Hs. by rewrite lookup_insert_ne.
Qed.

(** What [main] has done when no exception ended it. *)
Lemma main_completed a ar h :
  raised (main a ar h) = None ->
  exists subs ts st,
    submissions h = Some subs /\ tests h = Some ts /\
    grade_students a ar h (find_test_files ts) (students subs)
      (State [results_header] ∅ []) = Done st /\
    main a ar h
    = Report (rows st)
        (Some ((fun it => line_of it.1 it.2) <$> sorted_items (summary st)))
        (launches st) None.
Proof.
  unfold main, system_exit.
  destruct (submissions h) as [subs|]; [|done].
  destruct (tests h) as [ts|]; [|done].
  destruct (find_test_files ts) as [|t names] eqn:En; [done|].
  destruct (grade_students _ _ _ _ _ _) as [st|e st] eqn:E; [|done].
  rewrite summary_lines_guarded. intros _. exists subs, ts, st. by rewrite En.
Qed.

Lemma eq_reflexive_perm {A} (l l' : list A) : l = l' -> l ≡ₚ l'.
Proof. by intros ->. Qed.

Lemma students_names subs : (students subs).*1 ≡ₚ dir_names subs.
Proof.
  unfold students, dir_names. rewrite <- list_fmap_compose.
  transitivity (fst <$> merge_sort (fun x y : string * node => String.le x.1 y.1)
                          (List.filter (fun e => is_dir e.2) subs)).
  - apply eq_reflexive_perm. by apply list_fmap_ext.
  - by rewrite merge_sort_Permutation.
Qed.

(** X7: when no exception ends the run, the results file holds, after
    its header, exactly one row for every student directory and every test,
    the students in ascending order and, for each student, the tests in
    ascending order. *)
Theorem completed_run_has_one_row_per_pair a ar h subs ts :
  submissions h = Some subs -> tests h = Some ts ->
  raised (main a ar h) = None ->
  key_of <$> results_file (main a ar h)
  = key_of results_header
    :: flat_map (fun se => keys_for (find_test_files ts) se.1) (students subs).
Proof.
  intros Hsub Hts (subs' & ts' & st & Hsub' & Hts' & Hg & ->)%main_completed.
  rewrite Hsub in Hsub'. rewrite Hts in Hts'. simplify_eq.
  apply grade_students_layout in Hg as [Hr _]. cbn [results_file]. by rewrite Hr.
Qed.

Lemma completed_run_has_one_row_per_pair_witness :
  key_of <$> results_file (main PA3 Samples.args0 host1)
  = [[VStr "student_email(s)"; VStr "test_file"];
     [VStr "alice"; VStr "test_1.py"]; [VStr "alice"; VStr "test_2.py"];
     [VStr "bob"; VStr "test_1.py"]; [VStr "bob"; VStr "test_2.py"]].
Proof.
  apply (completed_run_has_one_row_per_pair PA3 Samples.args0 host1
           [("bob", Dir [("notes.txt", File)]); ("readme.md", File);
            ("alice", Dir [("pa3.py", File)])]
           [("test_2.py", File); ("util.py", File); ("test_1.py", File)]);
    reflexivity.
Defined.

(** X8: when no exception ends the run, the children launched are, for
    each student with a module and in the order of the students, one per
    test in the order of the tests, the index counting from 0 for every
    student; a student without a module causes no launch. *)
Theorem completed_run_launches a ar h subs ts :
  submissions h = Some subs -> tests h = Some ts ->
  raised (main a ar h) = None ->
  launched (main a ar h)
  = flat_map (fun se => launches_for a ar h (find_test_files ts) se.1 se.2) (students subs).
Proof.
  intros Hsub Hts (subs' & ts' & st & Hsub' & Hts' & Hg & ->)%main_completed.
  rewrite Hsub in Hsub'. rewrite Hts in Hts'. simplify_eq.
  apply grade_students_layout in Hg as [_ Hl]. cbn [launched]. by rewrite Hl.
Qed.

Lemma completed_run_launches_witness :
  launched (main PA3 Samples.args0 host1)
  = [command Samples.args0 host1 "downloads/PA3/alice/pa3.py" "test_1.py" 0;
     command Samples.args0 host1 "downloads/PA3/alice/pa3.py" "test_2.py" 1].
Proof.
  apply (completed_run_launches PA3 Samples.args0 host1
           [("bob", Dir [("notes.txt", File)]); ("readme.md", File);
            ("alice", Dir [("pa3.py", File)])]
           [("test_2.py", File); ("util.py", File); ("test_1.py", File)]);
    reflexivity.
Defined.

Lemma agrees_initial : agrees (State [results_header] ∅ []).
Proof. intros s. cbn [summary rows]. by rewrite lookup_empty. Qed.

(** X9: the two files of a run agree: in every line of the summary, the
    passed count is the number of the student's rows with 1 in the results
    file and the failed count the number of the student's rows with 0. *)
Theorem summary_agrees_with_rows a ar h lines :
  summary_file (main a ar h) = Some lines ->
  Forall (fun r =>
            sr_passed r = count_results (sr_student r) 1 (results_file (main a ar h)) /\
            sr_failed r = count_results (sr_student r) 0 (results_file (main a ar h)))
         lines.
Proof.
  intros H.
  destruct (raised (main a ar h)) as [e|] eqn:Er.
  { revert H Er. unfold main, system_exit.
    destruct (submissions h); [|done]. destruct (tests h); [|done].
    destruct (find_test_files _); [done|].
    destruct (grade_students _ _ _ _ _ _); [|done].
    by destruct (summary_lines _ _). }
  apply main_completed in Er as (subs & ts & st & _ & _ & Hg & Hm).
  rewrite Hm in *. cbn [summary_file results_file] in *. injection H as <-.
  apply (grade_students_agrees _ _ _ _ _ _ _ agrees_initial) in Hg.
  apply Forall_fmap, Forall_forall. intros [s c] Hin. cbn [line_of sr_passed sr_failed sr_student fst snd].
  unfold sorted_items in Hin. rewrite merge_sort_Permutation in Hin.
  apply elem_of_map_to_list in Hin. specialize (Hg s). by rewrite Hin in Hg.
Qed.

Lemma summary_agrees_with_rows_witness :
  Forall (fun r =>
            sr_passed r
            = count_results (sr_student r) 1 (results_file (main PA3 Samples.args0 host1)) /\
            sr_failed r
            = count_results (sr_student r) 0 (results_file (main PA3 Samples.args0 host1)))
         [SummaryRow "alice" 2 2 0 (Qmake 2 1 / Qmake 2 1 * 100)%Q 0;
          SummaryRow "bob" 2 0 2 (Qmake 0 1 / Qmake 2 1 * 100)%Q 1].
Proof.
  apply (summary_agrees_with_rows PA3 Samples.args0 host1). vm_compute. reflexivity.
Defined.

Lemma summary_file_completed a ar h lines :
  summary_file (main a ar h) = Some lines -> raised (main a ar h) = None.
Proof.
  unfold main, system_exit.
  destruct (submissions h); [|done]. destruct (tests h); [|done].
  destruct (find_test_files _); [done|].
  destruct (grade_students _ _ _ _ _ _); [|done].
  by rewrite summary_lines_guarded.
Qed.

Lemma key_le_total {A} : Total (fun x y : string * A => String.le x.1 y.1).
Proof. intros x y. apply String.le_total. Qed.

Lemma sorted_by_key {A} (l : list (string * A)) :
  Sorted String.le (merge_sort (fun x y => String.le x.1 y.1) l).*1.
Proof.
  apply (Sorted_fmap fst (fun x y => String.le x.1 y.1)); [done|].
  apply (@Sorted_merge_sort _ _ _ key_le_total).
Qed.

Lemma students_sorted subs : Sorted String.le (students subs).*1.
Proof.
  unfold students. rewrite <- list_fmap_compose.
  apply (Sorted_fmap _ (fun x y : string * node => String.le x.1 y.1)); [done|].
  apply (@Sorted_merge_sort _ _ _ key_le_total).
Qed.

(** X10: when the directory names of the submissions root are distinct
    and the summary file is written, it has exactly one line per student
    directory, in ascending order of the names, and every line's total is
    the number of test files found. *)
Theorem summary_lists_every_student a ar h subs ts lines :
  submissions h = Some subs -> tests h = Some ts ->
  NoDup (dir_names subs) ->
  summary_file (main a ar h) = Some lines ->
  sr_student <$> lines = (students subs).*1 /\
  Sorted String.le (sr_student <$> lines) /\
  Forall (fun r => sr_total r = Z.of_nat (length (find_test_files ts))) lines.
Proof.
  intros Hsub Hts Hnd Hlines.
  pose proof (summary_file_completed _ _ _ _ Hlines) as Hr.
  apply main_completed in Hr as (subs' & ts' & st & Hsub' & Hts' & Hg & Hm).
  rewrite Hsub in Hsub'. rewrite Hts in Hts'.
  injection Hsub' as <-. injection Hts' as <-.
  rewrite Hm in Hlines. cbn [summary_file] in Hlines. injection Hlines as <-.
  assert (NoDup (students subs).*1) as Hnd' by by rewrite students_names.
  apply grade_students_totals in Hg as [Hin Hout]; [|done|intros; apply lookup_empty].
  cbn [summary] in Hout.
  assert (sr_student <$> ((fun it : string * counts => line_of it.1 it.2)
                            <$> sorted_items (summary st))
          = (sorted_items (summary st)).*1) as Hkeys.
  { rewrite <- list_fmap_compose. by apply list_fmap_ext. }
  assert ((sorted_items (summary st)).*1 = (students subs).*1) as Heq.
  { apply (Sorted_unique String.le).
    - apply sorted_by_key.
    - apply students_sorted.
    - unfold sorted_items. rewrite merge_sort_Permutation.
      apply NoDup_Permutation; [apply NoDup_fst_map_to_list|done|].
      intros s. rewrite list_elem_of_fmap. split.
      + intros ([s' c] & -> & Hc%elem_of_map_to_list). cbn [fst].
        destruct (decide (s' ∈ (students subs).*1)) as [|Hn]; [done|].
        rewrite (Hout _ Hn), lookup_empty in Hc. done.
      + intros (c & Hc & _)%Hin. exists (s, c). split; [done|].
        by apply elem_of_map_to_list. }
  rewrite Hkeys, Heq. split; [done|]. split; [apply students_sorted|].
  apply Forall_fmap, Forall_forall. intros [s c] Hc.
  cbn [line_of sr_total fst snd compose].
  unfold sorted_items in Hc. rewrite merge_sort_Permutation in Hc.
  apply elem_of_map_to_list in Hc as Hc'.
  destruct (decide (s ∈ (students subs).*1)) as [Hs|Hn].
  - apply Hin in Hs as (c' & Hc'' & Ht). by simplify_eq.
  - rewrite (Hout _ Hn), lookup_empty in Hc'. done.
Qed.

Lemma summary_lists_every_student_witness :
  sr_student <$> [SummaryRow "alice" 2 2 0 (Qmake 2 1 / Qmake 2 1 * 100)%Q 0;
                  SummaryRow "bob" 2 0 2 (Qmake 0 1 / Qmake 2 1 * 100)%Q 1]
  = (students [("bob", Dir [("notes.txt", File)]); ("readme.md", File);
               ("alice", Dir [("pa3.py", File)])]).*1.
Proof.
  apply (summary_lists_every_student PA3 Samples.args0 host1
           [("bob", Dir [("notes.txt", File)]); ("readme.md", File);
            ("alice", Dir [("pa3.py", File)])]
           [("test_2.py", File); ("util.py", File); ("test_1.py", File)]).
  - reflexivity.
  - reflexivity.
  - change (NoDup ["bob"; "alice"]). apply (bool_decide_unpack _). vm_compute. reflexivity.
  - vm_compute. reflexivity.
Defined.

Lemma record_completed_done a h student t stdout stderr rc st st' :
  record_completed a h student t stdout stderr rc st = Done st' ->
  exists items m,
    read_data h (strip stdout) (strip stderr) = inr (VDict items) /\
    rows st'
    = rows st ++ [[VStr student; VStr t;
                   VInt (int_of_bool (truthy (dict_get "ok" items (VBool false)))); m]].
Proof.
  intros H. destruct (record_completed_rows a h student t stdout stderr rc st)
    as [Hr|(items & m & Hd & Hr)]; rewrite H in Hr; cbn [state_of] in Hr.
  - revert H. unfold record_completed.
    destruct (read_data _ _ _) as [e|[| | | | | | |items]]; try done.
    destruct (full_message _ _ _ _ _) as [e|m]; [done|].
    destruct (encodable m); [|done].
    destruct (summary st !! student) as [c|] eqn:Hc.
    + erewrite update_some by (simpl; exact Hc). cbn [bind].
      erewrite !update_some by (simpl; apply lookup_insert_eq). cbn [bind].
      intros H. exists items, m. split; [done|].
      destruct (truthy _); [by injection H as <-|].
      destruct (log_failure _ _ _ _ _ _); [done|]. by injection H as <-.
    + by erewrite update_none by (simpl; exact Hc).
  - by exists items, m.
Qed.

(** X11: an iteration of the test loop that completes writes a row with
    passed = 1 exactly when the child ended within the timeout and its
    standard output, stripped, is decoded to a JSON object whose ok entry
    is truthy; the exit code and the standard error play no part in the
    verdict. *)
Theorem pass_is_the_childs_word a ar h student path idx t st st' :
  grade_test a ar h student path idx t st = Done st' ->
  (exists m, rows st' = rows st ++ [[VStr student; VStr t; VInt 1; m]]) <->
  (exists out err rc items,
     child h (length (launches st)) (command ar h path t idx) = Completed out err rc /\
     json_loads (decoder h) (strip out) = Decoded (VDict items) /\
     truthy (dict_get "ok" items (VBool false)) = true).
Proof.
  unfold grade_test. destruct (child h _ _) as [out err rc| |e] eqn:Ec; [| |done].
  - intros (items & m & Hd & Hr)%record_completed_done. cbn [rows] in Hr. split.
    + intros [m' Hm]. rewrite Hm in Hr. apply app_inj_tail in Hr as [_ Hr].
      exists out, err, rc, items. split; [done|].
      destruct (truthy _) eqn:Eok; [|done]. split; [|done].
      by apply (read_data_truthy h _ (strip err)).
    + intros (out' & err' & rc' & items' & [= <- <- <-] & Hj & Hok).
      exists m. rewrite Hr. revert Hd. unfold read_data.
      destruct (String.eqb (strip out) "") eqn:Ee.
      { apply String.eqb_eq in Ee. rewrite Ee in Hj. by vm_compute in Hj. }
      rewrite Hj. intros [= <-]. by rewrite Hok.
  - intros H. split.
    + intros [m Hm]. revert H.
      destruct (summary st !! student) as [c|] eqn:Hc.
      * erewrite record_timeout_some by (simpl; exact Hc).
        intros [= <-]. cbn [rows] in Hm. by apply app_inj_tail in Hm as [_ Hm].
      * unfold record_timeout. by erewrite update_none by (simpl; exact Hc).
    + by intros (? & ? & ? & ? & ? & _).
Qed.

Lemma pass_is_the_childs_word_witness :
  exists m : value,
    rows (state_of (grade_test PA3 Samples.args0 host1 "alice" "downloads/PA3/alice/pa3.py"
                      0 "test_1.py" (State [results_header] {["alice" := Counts 0 0 0 0]} [])))
    = [results_header] ++ [[VStr "alice"; VStr "test_1.py"; VInt 1; m]].
Proof.
  apply (pass_is_the_childs_word PA3 Samples.args0 host1 "alice" "downloads/PA3/alice/pa3.py"
           0 "test_1.py" (State [results_header] {["alice" := Counts 0 0 0 0]} [])
           (state_of (grade_test PA3 Samples.args0 host1 "alice" "downloads/PA3/alice/pa3.py"
                        0 "test_1.py"
                        (State [results_header] {["alice" := Counts 0 0 0 0]} [])))).
  { vm_compute. reflexivity. }
  exists (Samples.quoted "{'ok': true, 'message': 'fine'}"), "", 0,
    [("ok", VBool true); ("message", VStr "fine")].
  split; [reflexivity|]. split; vm_compute; reflexivity.
Defined.

End RunFacts.

(** ** The runner in every world *)

Module ProtocolFacts.
Import Text TextFacts Py Runner RunnerNotions RunnerFacts ProtocolNotions.

(** X12: in a runner process whose loaded code leaves the interpreter
    as it was, whether that code comes back or not, the runner itself
    prints at most one value; [main] returns if and only if the runner
    printed exactly one value; a value it printed is of the result protocol
    and its last action; and when an exception leaves [main] or [main]
    never ends, the runner has printed nothing. *)
Theorem runner_prints_iff_it_returns a w :
  untouched w = true ->
  (length (printed (main a w).1) <= 1)%nat /\
  ((main a w).2 = Returned <-> exists v, printed (main a w).1 = [v]) /\
  (forall v, v ∈ printed (main a w).1 ->
     last (main a w).1 = Some (Print v) /\ protocol_value v) /\
  ((main a w).2 <> Returned -> printed (main a w).1 = []).
Proof.
  intros Hu. destruct (main_outcome a w) as [[Hp Hs]|[Ho (v & Hp & Hv)]].
  - assert ((main a w).2 <> Returned) as Hn.
    { intros Ho. rewrite (Hs Ho) in Hu. done. }
    rewrite Hp. split; [simpl; lia|]. split; [|split; [by intros v ?%elem_of_nil|done]].
    split; [done|]. by intros [v ?].
  - pose proof (ends_with_print_printed _ _ Hp) as Hv'. rewrite Hv'.
    split; [simpl; lia|]. split; [by split; [exists v|]|]. split; [|done].
    intros v' ->%list_elem_of_singleton.
    split; [by apply ends_with_print_last|done].
Qed.

Lemma runner_prints_iff_it_returns_witness :
  (main PA3 (Samples.world0 (Run "" (Escapes (Exc "SystemExit" "0" "")))
               (Run "" (Returns {| entry := None |})))).2 = Returned <->
  exists v,
    printed (main PA3 (Samples.world0 (Run "" (Escapes (Exc "SystemExit" "0" "")))
                         (Run "" (Returns {| entry := None |})))).1 = [v].
Proof.
  apply (runner_prints_iff_it_returns PA3
           (Samples.world0 (Run "" (Escapes (Exc "SystemExit" "0" "")))
              (Run "" (Returns {| entry := None |})))).
  reflexivity.
Defined.

Lemma printed_elem v evs : Print v ∈ evs -> v ∈ printed evs.
Proof. intros H. apply list_elem_of_omap. by exists (Print v). Qed.




Lemma executed_app evs evs' : executed (evs ++ evs') = executed evs ++ executed evs'.
Proof. apply omap_app. Qed.

Lemma executed_wrote text : executed (wrote text) = [].
Proof. unfold wrote. by destruct (String.eqb text ""). Qed.

Lemma executed_exec name path text :
  executed (Exec name path :: wrote text) = [(name, path)].
Proof.
  change (executed (Exec name path :: wrote text))
    with ((name, path) :: executed (wrote text)).
  by rewrite executed_wrote.
Qed.

Lemma executed_dirs (c c' : bool) d d' :
  executed ((if c then [PathInsert d] else []) ++ (if c' then [PathInsert d'] else [])) = [].
Proof. by destruct c, c'. Qed.

Lemma no_call_dirs (c c' : bool) d d' :
  Call ∉ ((if c then [PathInsert d] else []) ++ (if c' then [PathInsert d'] else [])).
Proof. destruct c, c'; set_solver. Qed.

Lemma no_seed_wrote z text : Seed z ∉ wrote text.
Proof. unfold wrote. destruct (String.eqb text ""); set_solver. Qed.

Lemma no_seed_dirs z (c c' : bool) d d' :
  Seed z ∉ ((if c then [PathInsert d] else []) ++ (if c' then [PathInsert d'] else [])).
Proof. destruct c, c'; set_solver. Qed.

(** X14: when the student's module raises an [Exception] while it is
    loaded, [main] returns having printed one failure record with the
    message Failed to load student's pa3.py (pa4.py for the other
    assignment) whose error text begins with the traceback of the module's
    own exception; the student's module is the only code executed: the test
    module is not executed, the generator is not seeded and the entry point
    is not called. *)
Theorem broken_submission_is_reported a w seed e :
  (length (argv w) <? 6)%nat = false ->
  py_int (arg w 5) = Some seed ->
  path_exists w (arg w 1) = true ->
  path_exists w (arg w 4) = true ->
  result (exec_student w) = Raises e ->
  (main a w).2 = Returned /\
  (exists rest,
     printed (main a w).1
     = [failure ("Failed to load student's " +:+ target_file a) (format_exc e +:+ rest)]) /\
  executed (main a w).1 = [(module_name a, arg w 1)] /\
  (Call ∉ (main a w).1) /\
  (forall z, Seed z ∉ (main a w).1).
Proof.
  intros Hlen Hseed Hp1 Hp4 Hres. unfold main. rewrite Hlen, Hseed, Hp1, Hp4.
  cbn [negb]. cbv beta zeta. unfold load_module_from_path. rewrite Hres.
  cbv beta iota zeta. cbn [fst snd]. split; [done|]. split; [|split; [|split]].
  - eexists. rewrite printed_app, printed_dirs, printed_app, printed_exec.
    reflexivity.
  - by rewrite executed_app, executed_dirs, executed_app, executed_exec.
  - intros [H|H]%elem_of_app; [by apply no_call_dirs in H|].
    apply elem_of_app in H as [H|H]; [|set_solver].
    apply elem_of_cons in H as [H|H]; [done|]. by apply no_call_wrote in H.
  - intros z [H|H]%elem_of_app; [by apply no_seed_dirs in H|].
    apply elem_of_app in H as [H|H]; [|set_solver].
    apply elem_of_cons in H as [H|H]; [done|]. by apply no_seed_wrote in H.
Qed.

Lemma broken_submission_is_reported_witness :
  executed (main PA3 (Samples.world0 (Run "" (Raises (Exc "NameError" "name 'x' is not defined" "")))
                        (Run "" (Returns {| entry := None |})))).1
  = [("pa3", "/home/grader/downloads/PA3/alice/pa3.py")].
Proof.
  apply (broken_submission_is_reported PA3
           (Samples.world0 (Run "" (Raises (Exc "NameError" "name 'x' is not defined" "")))
              (Run "" (Returns {| entry := None |})))
           1337 (Exc "NameError" "name 'x' is not defined" "")); reflexivity.
Defined.

Lemma verdict_case (b : bool) (m : string) a :
  (exists b' m', VDict [("ok", VBool b); ("message", VStr m)]
                 = VDict [("ok", VBool b'); ("message", VStr m')]) \/
  (exists m' e, VDict [("ok", VBool b); ("message", VStr m)] = failure m' e /\
                m' ∈ tail (messages a)).
Proof. left. by exists b, m. Qed.

Lemma failure_case a (k : nat) m e :
  tail (messages a) !! k = Some m ->
  (exists b' m', failure m e = VDict [("ok", VBool b'); ("message", VStr m')]) \/
  (exists m' e', failure m e = failure m' e' /\ m' ∈ tail (messages a)).
Proof. intros H. right. exists m, e. split; [done|]. by apply list_elem_of_lookup_2 in H. Qed.

(** What the runner prints, by the number of its arguments. *)
Lemma main_printed_cases a w v :
  v ∈ printed (main a w).1 ->
  ((length (argv w) <? 6)%nat = true /\ v = failure "bad_args" "Expected 5 arguments") \/
  ((length (argv w) <? 6)%nat = false /\
   ((exists b m, v = VDict [("ok", VBool b); ("message", VStr m)]) \/
    (exists m e, v = failure m e /\ m ∈ tail (messages a)))).
Proof.
  unfold main. destruct (length (argv w) <? 6)%nat.
  { intros ->%list_elem_of_singleton. by left. }
  intros H. right. split; [done|]. revert H.
  destruct (py_int (arg w 5)) as [seed|]; [|by intros ?%elem_of_nil].
  destruct (path_exists w (arg w 1)); cbn [negb];
    [|intros ->%list_elem_of_singleton; by apply (failure_case a 0)].
  destruct (path_exists w (arg w 4)); cbn [negb];
    [|intros ->%list_elem_of_singleton; by apply (failure_case a 1)].
  cbv beta zeta.
  pose proof (load_events_quiet w AtLoadStudent (module_name a) (arg w 1) (exec_student w)) as Q1.
  destruct (load_module_from_path w AtLoadStudent _ _ _) as [[evs1 r1] text1].
  cbn [fst snd] in Q1.
  destruct r1 as [u|e|e| |tx o]; cbn [snd fst].
  2:{ rewrite printed_app, printed_dirs, printed_app, Q1.
      intros ->%list_elem_of_singleton. by apply (failure_case a 2). }
  2,3: rewrite printed_app, printed_dirs, Q1; by intros ?%elem_of_nil.
  2:{ rewrite printed_app, printed_dirs, printed_app, Q1, printed_wrote.
      by intros ?%elem_of_nil. }
  pose proof (load_events_quiet w AtLoadTest (stem (arg w 4)) (arg w 4) (exec_test w)) as Q2.
  destruct (load_module_from_path w AtLoadTest _ _ _) as [[evs2 r2] text2].
  cbn [fst snd] in Q2.
  destruct r2 as [t|e|e| |tx o]; cbn [snd fst].
  2:{ rewrite printed_app, printed_dirs, !printed_app, Q1, Q2.
      intros ->%list_elem_of_singleton. by apply (failure_case a 3). }
  2,3: rewrite printed_app, printed_dirs, !printed_app, Q1, Q2; by intros ?%elem_of_nil.
  2:{ rewrite printed_app, printed_dirs, !printed_app, Q1, Q2, printed_wrote.
      by intros ?%elem_of_nil. }
  unfold run_test. destruct (entry t) as [r|] eqn:Er.
  2:{ cbn [fst]. rewrite printed_app, printed_dirs, !printed_app, Q1, Q2.
      intros ->%list_elem_of_singleton. by apply (failure_case a 4). }
  assert (forall evs, printed (evs1 ++ evs2 ++ Seed seed :: (Call :: wrote (output r)) ++ evs)
                      = printed evs) as Hq.
  { intros evs. rewrite !printed_app, Q1, Q2.
    change (printed (Seed seed :: (Call :: wrote (output r)) ++ evs))
      with (printed (wrote (output r) ++ evs)).
    by rewrite printed_app, printed_wrote. }
  destruct (result r) as [x|e|e| |tx o] eqn:Ev; cbn [fst].
  - destruct (unpack2 w x) as [e|[res msg]] eqn:Eu; cbn [fst];
      rewrite printed_app, printed_dirs, Hq; intros ->%list_elem_of_singleton.
    + by apply (failure_case a 4).
    + apply verdict_case.
  - rewrite printed_app, printed_dirs, Hq. intros ->%list_elem_of_singleton.
    by apply (failure_case a 4).
  - rewrite printed_app, printed_dirs, <- (app_nil_r (_ :: wrote _)), Hq.
    by intros ?%elem_of_nil.
  - rewrite printed_app, printed_dirs, <- (app_nil_r (_ :: wrote _)), Hq.
    by intros ?%elem_of_nil.
  - rewrite printed_app, printed_dirs, Hq, printed_wrote. by intros ?%elem_of_nil.
Qed.

(** An exception that leaves [main] is the seed's [ValueError], or comes
    from loaded code, or follows a change of the interpreter by loaded
    code. *)
Lemma main_uncaught a w e :
  (main a w).2 = Uncaught e ->
  py_int (arg w 5) = None \/ escaped w e \/ untouched w = false.
Proof.
  unfold main, untouched. destruct (length (argv w) <? 6)%nat; [done|].
  destruct (py_int (arg w 5)) as [seed|]; [|by left].
  destruct (path_exists w (arg w 1)); cbn [negb]; [|done].
  destruct (path_exists w (arg w 4)); cbn [negb]; [|done].
  cbv beta zeta.
  pose proof (load_result w AtLoadStudent (module_name a) (arg w 1) (exec_student w)) as R1.
  destruct (load_module_from_path w AtLoadStudent _ _ _) as [[evs1 r1] text1].
  cbn [fst snd] in R1.
  destruct r1 as [u|e1|e1| |tx o]; cbn [snd fst]; [|done| |done|].
  2:{ intros [= <-]. right. left. by left. }
  2:{ intros _. right. right. by rewrite R1. }
  rewrite R1.
  pose proof (load_result w AtLoadTest (stem (arg w 4)) (arg w 4) (exec_test w)) as R2.
  destruct (load_module_from_path w AtLoadTest _ _ _) as [[evs2 r2] text2].
  cbn [fst snd] in R2.
  destruct r2 as [t|e2|e2| |tx o]; cbn [snd fst]; [|done| |done|].
  2:{ intros [= <-]. right. left. right. by left. }
  2:{ intros _. right. right. by rewrite R2. }
  rewrite R2. unfold run_test. destruct (entry t) as [r|] eqn:Er; [|done].
  destruct (result r) as [x|e3|e3| |tx o] eqn:Ev; cbn [snd]; [|done| |done|].
  - by destruct (unpack2 w x) as [?|[? ?]].
  - intros [= <-]. right. left. right. right. by exists t, r.
  - intros _. right. right. unfold subverts. by rewrite Ev.
Qed.

Lemma inserted_app evs evs' : inserted (evs ++ evs') = inserted evs ++ inserted evs'.
Proof. apply omap_app. Qed.

Lemma inserted_wrote text : inserted (wrote text) = [].
Proof. unfold wrote. by destruct (String.eqb text ""). Qed.

Lemma inserted_load {A} w at_ name path (r : run A) :
  inserted (load_module_from_path w at_ name path r).1.1 = [].
Proof. rewrite load_events. apply (inserted_wrote (output r)). Qed.

Lemma inserted_run_test w t : inserted (run_test w t).1 = [].
Proof.
  unfold run_test. destruct (entry t) as [r|]; [|done].
  destruct (result r) as [x|e|e| |tx o]; cbn [fst].
  - destruct (unpack2 w x) as [?|[? ?]]; cbn [fst]; rewrite inserted_app;
      change (inserted (Call :: wrote (output r))) with (inserted (wrote (output r)));
      by rewrite inserted_wrote.
  - rewrite inserted_app.
    change (inserted (Call :: wrote (output r))) with (inserted (wrote (output r))).
    by rewrite inserted_wrote.
  - apply (inserted_wrote (output r)).
  - apply (inserted_wrote (output r)).
  - rewrite inserted_app, inserted_wrote, app_nil_r. apply (inserted_wrote (output r)).
Qed.

Lemma inserted_dirs w d d' :
  inserted ((if usable w d then [PathInsert d] else [])
            ++ (if usable w d' then [PathInsert d'] else []))
  = (if usable w d then [d] else []) ++ (if usable w d' then [d'] else []).
Proof. by destruct (usable w d), (usable w d'). Qed.

(** The insertions of a runner that gets past its checks. *)
Lemma main_inserted a w seed :
  (length (argv w) <? 6)%nat = false ->
  py_int (arg w 5) = Some seed ->
  path_exists w (arg w 1) = true ->
  path_exists w (arg w 4) = true ->
  inserted (main a w).1
  = (if usable w (arg w 2) then [arg w 2] else [])
    ++ (if usable w (arg w 3) then [arg w 3] else []).
Proof.
  intros Hlen Hseed Hp1 Hp4. unfold main. rewrite Hlen, Hseed, Hp1, Hp4.
  cbn [negb]. cbv beta zeta.
  fold (usable w (arg w 2)). fold (usable w (arg w 3)).
  pose proof (inserted_load w AtLoadStudent (module_name a) (arg w 1) (exec_student w)) as Q1.
  destruct (load_module_from_path w AtLoadStudent _ _ _) as [[evs1 r1] text1].
  cbn [fst snd] in Q1.
  destruct r1 as [u|e|e| |tx o]; cbn [snd fst].
  2:{ by rewrite inserted_app, inserted_dirs, inserted_app, Q1, !app_nil_r. }
  2,3: by rewrite inserted_app, inserted_dirs, Q1, !app_nil_r.
  2:{ by rewrite inserted_app, inserted_dirs, inserted_app, Q1, inserted_wrote, !app_nil_r. }
  pose proof (inserted_load w AtLoadTest (stem (arg w 4)) (arg w 4) (exec_test w)) as Q2.
  destruct (load_module_from_path w AtLoadTest _ _ _) as [[evs2 r2] text2].
  cbn [fst snd] in Q2.
  destruct r2 as [t|e|e| |tx o]; cbn [snd fst].
  2:{ by rewrite inserted_app, inserted_dirs, !inserted_app, Q1, Q2, !app_nil_r. }
  2,3: by rewrite inserted_app, inserted_dirs, !inserted_app, Q1, Q2, !app_nil_r.
  2:{ by rewrite inserted_app, inserted_dirs, !inserted_app, Q1, Q2, inserted_wrote,
        !app_nil_r. }
  pose proof (inserted_run_test w t) as Q3.
  destruct (run_test w t) as [evs3 o]. cbn [fst snd] in *.
  rewrite inserted_app, inserted_dirs, !inserted_app, Q1, Q2.
  change (inserted (Seed seed :: evs3)) with (inserted evs3).
  by rewrite Q3, !app_nil_r.
Qed.

(** X15: of the two directories the runner puts on the module search
    path, the support directory comes out in front: a runner that gets past
    its checks leaves the search path with the support directory first
    and the tests directory second, each only if it is given and exists,
    ahead of what was there before. *)
Theorem support_dir_is_searched_first a w seed init :
  (length (argv w) <? 6)%nat = false ->
  py_int (arg w 5) = Some seed ->
  path_exists w (arg w 1) = true ->
  path_exists w (arg w 4) = true ->
  sys_path init (main a w).1
  = (if usable w (arg w 3) then [arg w 3] else [])
    ++ (if usable w (arg w 2) then [arg w 2] else []) ++ init.
Proof.
  intros Hlen Hseed Hp1 Hp4. unfold sys_path.
  rewrite (main_inserted a w seed Hlen Hseed Hp1 Hp4).
  by destruct (usable w (arg w 2)), (usable w (arg w 3)).
Qed.

Lemma support_dir_is_searched_first_witness :
  sys_path ["/usr/lib/python3"]
    (main PA3 {| argv := ["runner.py"; "/sub/alice/pa3.py"; "/tests"; "/support";
                          "/tests/test_1.py"; "1337"];
                 path_exists _ := true;
                 exec_student := Run "" (Returns ());
                 exec_test := Run "" (Returns {| entry := None |});
                 rendering_of := Samples.rendering0;
                 frames _ := EmptyString |}).1
  = ["/support"; "/tests"; "/usr/lib/python3"].
Proof.
  apply (support_dir_is_searched_first PA3
           {| argv := ["runner.py"; "/sub/alice/pa3.py"; "/tests"; "/support";
                       "/tests/test_1.py"; "1337"];
              path_exists _ := true;
              exec_student := Run "" (Returns ());
              exec_test := Run "" (Returns {| entry := None |});
              rendering_of := Samples.rendering0;
              frames _ := EmptyString |}
           1337 ["/usr/lib/python3"]); reflexivity.
Defined.

Lemma main_inserted_elem a w d :
  d ∈ inserted (main a w).1 ->
  (d = arg w 2 /\ usable w (arg w 2) = true) \/ (d = arg w 3 /\ usable w (arg w 3) = true).
Proof.
  destruct (length (argv w) <? 6)%nat eqn:Hlen.
  { unfold main. rewrite Hlen. by intros ?%elem_of_nil. }
  destruct (py_int (arg w 5)) as [seed|] eqn:Hseed.
  2:{ unfold main. rewrite Hlen, Hseed. by intros ?%elem_of_nil. }
  destruct (path_exists w (arg w 1)) eqn:Hp1.
  2:{ unfold main. rewrite Hlen, Hseed, Hp1. by intros ?%elem_of_nil. }
  destruct (path_exists w (arg w 4)) eqn:Hp4.
  2:{ unfold main. rewrite Hlen, Hseed, Hp1, Hp4. by intros ?%elem_of_nil. }
  rewrite (main_inserted a w seed Hlen Hseed Hp1 Hp4).
  destruct (usable w (arg w 2)), (usable w (arg w 3)); set_solver.
Qed.

End ProtocolFacts.

(** ** The runner as the driver starts it *)

Module Composition.
Import Text TextFacts Py Runner RunnerNotions ProtocolNotions Grader.

(** X16: a runner started with the command the driver builds, the seed's
    decimal text being within the limit on digits of [int] (a longer one
    [str] would not have written either), gets past its own checks: it
    never prints the bad_args record; an exception leaves it only when
    loaded code raised one that is no [Exception], or changed the
    interpreter under the runner (so never the [ValueError] of the seed
    conversion); and when the support directory does not exist, the driver
    hands it the empty text and the only directory the runner can put on
    the search path is the resolved tests directory. *)
Theorem driver_started_runner a ar h w path t idx :
  argv w = tail (command ar h path t idx) ->
  (String.length (str_of_int (seed_of idx)) <= int_max_str_digits)%nat ->
  (forall v, Print v ∈ (Runner.main a w).1 -> v <> failure "bad_args" "Expected 5 arguments") /\
  (forall e, (Runner.main a w).2 = Uncaught e -> escaped w e \/ untouched w = false) /\
  (support_exists h = false ->
   forall d, d ∈ inserted (Runner.main a w).1 -> d = resolve h (tests_dir ar)).
Proof.
  intros Hargv Hdigits.
  assert ((length (argv w) <? 6)%nat = false) as Hlen by by rewrite Hargv.
  assert (py_int (arg w 5) = Some (seed_of idx)) as Hseed.
  { unfold arg. rewrite Hargv. cbn. by apply py_int_str_of_int. }
  split; [|split].
  - intros v Hv%ProtocolFacts.printed_elem.
    apply ProtocolFacts.main_printed_cases in Hv as [[Hl _]|[_ Hv]]; [congruence|].
    destruct Hv as [(b & m & ->)|(m & e & -> & Hm)]; [done|].
    intros [= -> _]. revert Hm. unfold messages. destruct a; cbn [tail target_file].
    + rewrite !elem_of_cons, elem_of_nil. by intros [|[|[|[|[|]]]]].
    + rewrite !elem_of_cons, elem_of_nil. by intros [|[|[|[|[|]]]]].
  - intros e [He|He]%ProtocolFacts.main_uncaught; [congruence|done].
  - intros Hs d [[-> _]|[-> Hu]]%ProtocolFacts.main_inserted_elem.
    + unfold arg. by rewrite Hargv.
    + revert Hu. unfold usable, arg. rewrite Hargv. cbn. by rewrite Hs.
Qed.

Lemma driver_started_runner_witness :
  escaped
    {| argv := tail (command Samples.args0 (Samples.host0 Samples.alice TimedOut)
                       "downloads/PA3/alice/pa3.py" "test_2.py" 1);
       path_exists _ := true;
       exec_student := Run "" (Escapes (Exc "SystemExit" "0" ""));
       exec_test := Run "" (Returns {| entry := None |});
       Runner.rendering_of := Samples.rendering0;
       Runner.frames _ := EmptyString |}
    (Exc "SystemExit" "0" "") \/
  untouched
    {| argv := tail (command Samples.args0 (Samples.host0 Samples.alice TimedOut)
                       "downloads/PA3/alice/pa3.py" "test_2.py" 1);
       path_exists _ := true;
       exec_student := Run "" (Escapes (Exc "SystemExit" "0" ""));
       exec_test := Run "" (Returns {| entry := None |});
       Runner.rendering_of := Samples.rendering0;
       Runner.frames _ := EmptyString |} = false.
Proof.
  apply (driver_started_runner PA3 Samples.args0 (Samples.host0 Samples.alice TimedOut)
           {| argv := tail (command Samples.args0 (Samples.host0 Samples.alice TimedOut)
                              "downloads/PA3/alice/pa3.py" "test_2.py" 1);
              path_exists _ := true;
              exec_student := Run "" (Escapes (Exc "SystemExit" "0" ""));
              exec_test := Run "" (Returns {| entry := None |});
              Runner.rendering_of := Samples.rendering0;
              Runner.frames _ := EmptyString |}
           "downloads/PA3/alice/pa3.py" "test_2.py" 1);
    [reflexivity|vm_compute; lia|reflexivity].
Defined.

End Composition.

(** ** Runs that complete *)

Module Completion.
Import Text TextFacts Py Json Locator Grader Notions GraderFacts RunNotions LocatorFacts.

Lemma grade_test_recordable a ar h student path idx t st c :
  summary st !! student = Some c ->
  recordable h (child h (length (launches st)) (command ar h path t idx)) = true ->
  exists st' c', grade_test a ar h student path idx t st = Done st' /\
                 summary st' !! student = Some c'.
Proof.
  intros Hc. unfold grade_test, recordable.
  destruct (child h _ _) as [out err rc| |e]; [| |done].
  - destruct (read_data _ _ _) as [e|[| | | | | | |items]] eqn:Ed; try done.
    destruct (dict_get "message" items _) as [| | | |message| | |] eqn:Em; try done.
    destruct (dict_get "error" items _) as [| | | |error| | |] eqn:Ee; try done.
    intros Hs.
    rewrite (record_completed_text a h student t out err rc _ c items message error);
      [|exact Hc|exact Ed|exact Em|exact Ee].
    cbv zeta. rewrite Hs.
    eexists _, _. split; [reflexivity|]. cbn [summary]. apply lookup_insert_eq.
  - intros _. erewrite record_timeout_some by (simpl; exact Hc).
    eexists _, _. split; [reflexivity|]. cbn [summary]. apply lookup_insert_eq.
Qed.

Lemma grade_tests_recordable a ar h student path names : forall idx st c,
  (forall n cmd, recordable h (child h n cmd) = true) ->
  summary st !! student = Some c ->
  exists st', grade_tests a ar h student path idx names st = Done st'.
Proof.
  induction names as [|t rest IH]; intros idx st c Hall Hc; [by eexists|].
  cbn [grade_tests].
  destruct (grade_test_recordable a ar h student path idx t st c Hc (Hall _ _))
    as (st1 & c1 & -> & Hc1).
  cbn [bind]. by apply (IH _ _ c1).
Qed.

Lemma grade_student_recordable a ar h names student entries st :
  (forall n cmd, recordable h (child h n cmd) = true) ->
  exists st', grade_student a ar h names student entries st = Done st'.
Proof.
  intros Hall. unfold grade_student.
  assert (exists c, summary (setdefault student st) !! student = Some c) as [c Hc].
  { unfold setdefault. destruct (summary st !! student) as [c|] eqn:E; [by exists c|].
    eexists. cbn [summary]. apply lookup_insert_eq. }
  destruct (locate _ _ _) as [module_path|].
  - by apply (grade_tests_recordable _ _ _ _ _ _ _ _ c).
  - rewrite (record_missing_some _ _ _ _ _ c) by exact Hc. cbn [bind].
    erewrite update_some by (simpl; apply lookup_insert_eq). by eexists.
Qed.

Lemma grade_students_recordable a ar h names l : forall st,
  (forall n cmd, recordable h (child h n cmd) = true) ->
  exists st', grade_students a ar h names l st = Done st'.
Proof.
  induction l as [|[student entries] rest IH]; intros st Hall; [by eexists|].
  cbn [grade_students].
  destruct (grade_student_recordable a ar h names student entries st Hall) as [st1 ->].
  cbn [bind]. by apply IH.
Qed.

(** X17: crashes of the children do not stop the run: when both
    directories exist, there is a test file, and every child is
    recordable (it timed out, printed nothing or what the decoder rejects
    as no JSON, or printed a JSON object, within the decoder's limits,
    whose message and error are texts or absent, the text of the row
    holding no surrogate), none of the driver's statements raises, and the
    summary file is written. *)
Theorem recordable_children_never_stop_the_run a ar h subs ts :
  submissions h = Some subs -> tests h = Some ts ->
  find_test_files ts <> [] ->
  (forall n cmd, recordable h (child h n cmd) = true) ->
  raised (main a ar h) = None /\
  exists lines, summary_file (main a ar h) = Some lines.
Proof.
  intros Hsub Hts Hne Hall. unfold main. rewrite Hsub, Hts.
  destruct (find_test_files ts) as [|t names] eqn:En; [done|].
  destruct (grade_students_recordable a ar h (t :: names) (students subs)
              (State [results_header] ∅ []) Hall) as [st ->].
  rewrite summary_lines_guarded. split; [done|]. by eexists.
Qed.

Lemma recordable_children_never_stop_the_run_witness :
  raised (main PA3 Samples.args0
            (Samples.host0 [("bob", Dir [("notes.txt", File)]); ("alice", Dir [("pa3.py", File)])]
               (Completed "Segmentation fault" "" 139))) = None.
Proof.
  apply (recordable_children_never_stop_the_run PA3 Samples.args0
           (Samples.host0 [("bob", Dir [("notes.txt", File)]); ("alice", Dir [("pa3.py", File)])]
              (Completed "Segmentation fault" "" 139))
           [("bob", Dir [("notes.txt", File)]); ("alice", Dir [("pa3.py", File)])]
           [("test_2.py", File); ("util.py", File); ("test_1.py", File)]).
  - reflexivity.
  - reflexivity.
  - vm_compute. discriminate.
  - intros n cmd. vm_compute. reflexivity.
Defined.

Lemma find_none_all {A} (f : A -> bool) l :
  (forall x, In x l -> f x = false) -> List.find f l = None.
Proof.
  intros H. destruct (List.find f l) as [x|] eqn:E; [|done].
  apply List.find_some in E as [Hin Hx]. by rewrite (H x Hin) in Hx.
Qed.

Lemma skipped_prepend root prefix : skipped root = true -> skipped (prefix +:+ root) = true.
Proof.
  unfold skipped. rewrite !existsb_exists. intros (tag & Hin & Hc).
  exists tag. split; [done|]. by apply contains_append_l.
Qed.

(** X18: when the path of a student's directory, as the driver spells
    it, contains one of .venv, venv, __pycache__ (in the name of the
    student's directory or anywhere in the submissions path), the module is
    found only as a direct entry of the directory: one nested deeper is
    never found, and the student then gets the rows of a missing module
    and no child is launched. *)
Theorem tagged_student_path_hides_nested_modules a ar h names student entries st :
  skipped (submissions_dir ar) || skipped student = true ->
  mem (target_file a) (fst <$> entries) = false ->
  summary st !! student = None ->
  locate a (path_join (submissions_dir ar) student) entries = None /\
  grade_student a ar h names student entries st
  = Done (State (rows st ++ (missing_row a student <$> names))
            (<[student := Counts (Z.of_nat (length names)) 0 (Z.of_nat (length names)) 1]>
               (summary st))
            (launches st)).
Proof.
  intros Hsk Hm Hs.
  assert (skipped (path_join (submissions_dir ar) student) = true) as Hroot.
  { unfold path_join. apply orb_true_iff in Hsk as [H|H].
    - by apply skipped_append.
    - rewrite <- append_assoc. by apply skipped_prepend. }
  assert (locate a (path_join (submissions_dir ar) student) entries = None) as Hl.
  { rewrite locate_walked by done. rewrite find_none_all; [done|].
    intros t Hin. by rewrite (skipped_below _ _ _ Hroot Hin). }
  split; [done|].
  unfold grade_student, setdefault. rewrite Hl, Hs.
  rewrite (record_missing_some _ _ _ _ _ (Counts 0 0 0 0))
    by (simpl; apply lookup_insert_eq).
  cbn [bind rows summary launches].
  erewrite update_some by (simpl; apply lookup_insert_eq).
  cbn [rows summary launches]. by rewrite !insert_insert_eq.
Qed.

Lemma tagged_student_path_hides_nested_modules_witness :
  locate PA3 (path_join (submissions_dir Samples.args0) "sven.venvik@school.edu")
    [("src", Dir [("pa3.py", File)])] = None.
Proof.
  apply (tagged_student_path_hides_nested_modules PA3 Samples.args0
           (Samples.host0 [] TimedOut) ["test_1.py"] "sven.venvik@school.edu"
           [("src", Dir [("pa3.py", File)])] (State [results_header] ∅ []));
    reflexivity.
Defined.

(** X19: the test files run are exactly the regular files of the tests
    directory whose name begins with test_ and ends in .py, in ascending
    order of their names; so a directory of such a name and a helper such
    as util.py are never run as tests. *)
Theorem find_test_files_selects es :
  Sorted String.le (find_test_files es) /\
  forall name,
    name ∈ find_test_files es <->
    (name, File) ∈ es /\ String.prefix "test_" name = true /\ ends_with ".py" name = true.
Proof.
  unfold find_test_files, sorted. split; [apply Sorted_merge_sort, _|].
  intros name. rewrite merge_sort_Permutation. unfold file_names. split.
  - intros [Hin [Hp He]%andb_true_iff]%list_elem_of_In%List.filter_In.
    split; [|done].
    apply list_elem_of_In, list_elem_of_fmap in Hin as ([n' k] & -> & Hin).
    apply list_elem_of_In, List.filter_In in Hin as [Hin Hf].
    destruct k; [|done]. by apply list_elem_of_In.
  - intros (Hin & Hp & He). apply list_elem_of_In, List.filter_In.
    split; [|by apply andb_true_iff].
    apply list_elem_of_In, list_elem_of_fmap. exists (name, File). split; [done|].
    apply list_elem_of_In, List.filter_In. split; [by apply list_elem_of_In|done].
Qed.

End Completion.

(** ** The console logger *)

Module LoggerFacts.
Import Text TextFacts Logger.






End LoggerFacts.
